(** * The Trakt client of imdb-trakt-sync (pkg/client/trakt.go)

    A shallow embedding of the request engine [doRequest], of the sync
    operations built on it, of the concurrent list fetcher [ListsGet] and of
    the add-body mapping [mapTraktItemsToTraktBody], with the properties the
    specification states about them.

    Conventions.  Go's [int] and [int64] are [Z] with the 64-bit wrap-around
    written out ([wrap64]); Go strings and byte slices are [string]; a Go
    [map[string]string] is a [gmap string string].  Effects (the HTTP
    transport, [time.Sleep], the logger, closing a response body) are
    recorded in an explicit [World] that every operation threads through. *)

From Stdlib Require Import ZArith String Ascii List Bool Lia DecimalString.
From stdpp Require Import base option list strings gmap.

Local Open Scope Z_scope.

(** ** Results and errors *)

Inductive result (E A : Type) : Type :=
| Ok (a : A)
| Err (e : E).
Arguments Ok {E A} a.
Arguments Err {E A} e.

(** * Go's standard library, as far as the client uses it *)
Module Go.

(** *** Machine integers *)

Definition minInt64 : Z := - 2 ^ 63.
Definition maxInt64 : Z := 2 ^ 63 - 1.
Definition maxUint64 : Z := 2 ^ 64 - 1.

(** Two's-complement wrap-around of a 64-bit signed result. *)
Definition wrap64 (z : Z) : Z := (z + 2 ^ 63) mod 2 ^ 64 - 2 ^ 63.

(** *** strconv *)

Inductive NumErrKind := ErrSyntax | ErrRange.

(** [*strconv.NumError]: the failing function, the input, the cause. *)
Record NumError := mkNumError {
  numFunc : string;
  numNum : string;
  numErr : NumErrKind }.

Definition digit_value (c : ascii) : option Z :=
  let n := Z.of_nat (nat_of_ascii c) in
  if (48 <=? n) && (n <=? 57) then Some (n - 48) else None.

(** The digit loop of [strconv.ParseUint] at base 10 and 64 bits: a byte
    that is no digit is a syntax error, a value beyond [maxUint64] a
    range error, whichever the scan meets first. *)
Fixpoint parseUint_loop (s : string) (n : Z) : result NumErrKind Z :=
  match s with
  | EmptyString => Ok n
  | String c s' =>
      match digit_value c with
      | None => Err ErrSyntax
      | Some d =>
          if maxUint64 / 10 + 1 <=? n then Err ErrRange
          else
            let n1 := n * 10 + d in
            if maxUint64 <? n1 then Err ErrRange else parseUint_loop s' n1
      end
  end.

Definition ParseUint (s : string) : result NumErrKind Z :=
  match s with
  | EmptyString => Err ErrSyntax
  | _ => parseUint_loop s 0
  end.

(** [strconv.Atoi] where [int] has 64 bits: an optional sign, then decimal
    digits, the value within [minInt64 .. maxInt64].  (Its fast path for
    short inputs computes the same function.) *)
Definition Atoi (s0 : string) : result NumError Z :=
  let fail k := Err (mkNumError "Atoi" s0 k) in
  match s0 with
  | EmptyString => fail ErrSyntax
  | String c rest =>
      let neg := Ascii.eqb c "-"%char in
      let s := if Ascii.eqb c "+"%char || neg then rest else s0 in
      match ParseUint s with
      | Err k => fail k
      | Ok un =>
          if negb neg && (2 ^ 63 <=? un) then fail ErrRange
          else if neg && (2 ^ 63 <? un) then fail ErrRange
          else Ok (if neg then - un else un)
      end
  end.

(** [strconv.Itoa] and the verb [%d] of [fmt]. *)
Definition Itoa (z : Z) : string := NilZero.string_of_int (Z.to_int z).

(** *** strings *)

Fixpoint hasPrefix (p s : string) : bool :=
  match p, s with
  | EmptyString, _ => true
  | String a p', String b s' => Ascii.eqb a b && hasPrefix p' s'
  | String _ _, EmptyString => false
  end.

Fixpoint explode (s : string) : list string :=
  match s with
  | EmptyString => []
  | String c s' => String c EmptyString :: explode s'
  end.

(** [split_loop sep s skip cur]: [cur] is the segment being read, [skip]
    the number of bytes of a separator still to be passed over. *)
Fixpoint split_loop (sep s : string) (skip : nat) (cur : string) : list string :=
  match s with
  | EmptyString => [cur]
  | String c s' =>
      match skip with
      | S k => split_loop sep s' k cur
      | O =>
          if hasPrefix sep s
          then cur :: split_loop sep s' (Nat.pred (String.length sep)) EmptyString
          else split_loop sep s' O (cur +:+ String c EmptyString)
      end
  end.

(** [strings.Split]: the substrings between the occurrences of [sep]; with
    an empty [sep], one string per byte. *)
Definition Split (s sep : string) : list string :=
  match sep with
  | EmptyString => explode s
  | _ => split_loop sep s O EmptyString
  end.

(** *** net/textproto *)

(** The bytes of a header field name, the token bytes of RFC 7230. *)
Definition validHeaderFieldByte (c : ascii) : bool :=
  let n := Z.of_nat (nat_of_ascii c) in
  ((48 <=? n) && (n <=? 57)) || ((65 <=? n) && (n <=? 90))
  || ((97 <=? n) && (n <=? 122))
  || existsb (Ascii.eqb c) (list_ascii_of_string "!#$%&'*+-.^_`|~").

(** The first letter and every letter after a hyphen in upper case, the
    other letters in lower case. *)
Fixpoint canonical_loop (upper : bool) (s : string) : string :=
  match s with
  | EmptyString => EmptyString
  | String c s' =>
      let n := nat_of_ascii c in
      let c' :=
        if upper && (97 <=? n)%nat && (n <=? 122)%nat then ascii_of_nat (n - 32)
        else if negb upper && (65 <=? n)%nat && (n <=? 90)%nat then ascii_of_nat (n + 32)
        else c in
      String c' (canonical_loop (Ascii.eqb c' "-"%char) s')
  end.

(** [textproto.CanonicalMIMEHeaderKey]: a key with a byte that no field
    name has (a space among them) is left as it is. *)
Definition CanonicalMIMEHeaderKey (s : string) : string :=
  if forallb validHeaderFieldByte (list_ascii_of_string s)
  then canonical_loop true s
  else s.

(** *** time *)

(** A [time.Duration] is an [int64] count of nanoseconds. *)
Definition Second : Z := 1000000000.

(** [time.Duration(n) * time.Second], in [int64] arithmetic. *)
Definition seconds (n : Z) : Z := wrap64 (n * Second).

(** What [time.Sleep d] waits, in nanoseconds: nothing for [d <= 0]. *)
Definition waited (d : Z) : Z := Z.max 0 d.

End Go.

(** * The entities the client exchanges *)

(** Modelled from the spec: the package [entities] is not under src/.  An
    item is a type tag with one payload per category, each payload carrying
    external identifiers; a list is an identifier (slug), the watchlist flag
    and the ordered items; the fields are those trakt.go reads and writes. *)
Module entities.

Record TraktIds := mkTraktIds {
  Imdb : string;
  Slug : string }.

Record TraktItemSpec := mkTraktItemSpec {
  SpecIds : TraktIds }.

Record TraktItem := mkTraktItem {
  Type_ : string;
  Movie : TraktItemSpec;
  Show : TraktItemSpec;
  Episode : TraktItemSpec }.

Definition TraktItems := list TraktItem.

Record TraktListBody := mkTraktListBody {
  Movies : list TraktItemSpec;
  Shows : list TraktItemSpec;
  Episodes : list TraktItemSpec }.

Record TraktList := mkTraktList {
  Ids : TraktIds;
  IsWatchlist : bool;
  ListItems : TraktItems }.

Record TraktListAddBody := mkTraktListAddBody {
  Name : string;
  Description : string;
  Privacy : string;
  DisplayNumbers : bool;
  AllowComments : bool;
  SortBy : string;
  SortHow : string }.

Definition TraktItemTypeMovie : string := "movie".
Definition TraktItemTypeShow : string := "show".
Definition TraktItemTypeEpisode : string := "episode".

(** The zero values of Go. *)
Definition zeroIds : TraktIds := mkTraktIds "" "".
Definition zeroSpec : TraktItemSpec := mkTraktItemSpec zeroIds.

End entities.
Import entities.

(** * Errors *)

(** [ApiError] is declared beside trakt.go; its fields are the four that
    trakt.go fills in. *)
Module ApiError.
Record t := mk {
  httpMethod : string;
  url : string;
  StatusCode : Z;
  details : string }.
End ApiError.

(** The error values the client builds or passes on.  Errors of library
    calls that are kept abstract (request construction, JSON, scraping) are
    opaque messages; the transport's errors are a kind of their own. *)
Inductive error :=
| ErrNew (msg : string)                    (* fmt.Errorf without %w *)
| ErrWrap (msg : string) (cause : error)   (* fmt.Errorf("msg: %w", cause) *)
| ErrApi (e : ApiError.t)                  (* &ApiError{...} *)
| ErrNum (e : Go.NumError)                 (* *strconv.NumError *)
| ErrTransport (e : string)                (* what http.Client.Do returns *)
| ErrLib (e : string).                     (* an abstract library call failed *)

(** [errors.As(err, &apiError)]: the first [*ApiError] in the chain. *)
Fixpoint errors_As_ApiError (err : error) : option ApiError.t :=
  match err with
  | ErrApi e => Some e
  | ErrWrap _ cause => errors_As_ApiError cause
  | _ => None
  end.

(** * HTTP values *)

(** Modelled from the spec: [ReusableReader] is declared in another file of
    the package, not under src/.  It wraps the body stream so that it can be
    replayed: what is read is kept in a back buffer, and on reaching the end
    the back buffer is poured back into the read buffer. *)
Record reusableReader := mkReader {
  readBuf : string;
  backBuf : string }.

Definition ReusableReader (r : string) : reusableReader :=
  {| readBuf := r; backBuf := "" |}.

(** Reading the stream to its end, as the transport does when it sends. *)
Definition readAll (r : reusableReader) : string * reusableReader :=
  let delivered := readBuf r in
  let kept := backBuf r +:+ delivered in
  (delivered, {| readBuf := kept; backBuf := "" |}).

Module requestFields.
Record t := mk {
  Method : string;
  BasePath : string;
  Endpoint : string;
  Body : string;                    (* the bytes of the io.Reader *)
  Headers : gmap string string }.
End requestFields.

(** [http.Header]: a key has a list of values.  [Get] and [Set] both work
    on the canonical form of the key they are given: [Get] gives the first
    value under it or the empty string, [Set] replaces what is under it by
    the one value.  The header of a response holds its keys in canonical
    form, as net/http parses them. *)
Definition Header_Get (h : gmap string (list string)) (key : string) : string :=
  match h !! Go.CanonicalMIMEHeaderKey key with
  | Some (v :: _) => v
  | _ => ""
  end.

Definition Header_Set (key value : string) (h : gmap string (list string))
  : gmap string (list string) :=
  <[Go.CanonicalMIMEHeaderKey key := [value]]> h.

Module Request.
Record t := mk {
  Method : string;
  URL : string;
  Header : gmap string (list string);
  Body : reusableReader }.
End Request.

Module Response.
Record t := mk {
  StatusCode : Z;
  Header : gmap string (list string);
  RequestMethod : string;           (* response.Request.Method *)
  RequestURL : string;              (* response.Request.URL *)
  Body : string }.
End Response.

(** * The world the client acts on *)

(** A request as [doRequest] hands it to [tc.client.Do]: the method, the
    URL the request was built from, the header as [doRequest] set it, and
    the bytes the body stream delivers.  What net/http makes of it is not
    part of it: when it sends, it adds the cookies of the client's jar to
    the header, and an answer that redirects it follows by requests of its
    own. *)
Record Wire := mkWire {
  wireMethod : string;
  wireURL : string;
  wireHeader : gmap string (list string);
  wireBody : string }.

Inductive LogArg :=
| AStr (s : string)
| AInt (n : Z)
| ADuration (d : Z).

Inductive Event :=
| EvSend (q : Wire)                                          (* tc.client.Do *)
| EvClose                                                    (* response.Body.Close() *)
| EvLog (level : string) (format : string) (args : list LogArg)  (* tc.logger *)
| EvSleep (d : Z).                                           (* time.Sleep *)

(** The calls of [tc.client.Do] are answered in the order they are made:
    [script] holds the outcomes still to come, an error of the call ([inl])
    or the response it returns ([inr]); once it is used up the connection
    fails.  [trace] lists the effects so far, oldest first. *)
Record World := mkWorld {
  script : list (string + Response.t);
  trace : list Event }.

Definition M (A : Type) : Type := World -> World * A.

Definition ret {A} (a : A) : M A := fun w => (w, a).

Definition bind {A B} (m : M A) (k : A -> M B) : M B :=
  fun w => let (w1, a) := m w in k a w1.

(** [if err != nil { return ..., err }] *)
Definition try {A B} (m : M (result error A)) (k : A -> M (result error B))
  : M (result error B) :=
  bind m (fun r => match r with Ok a => k a | Err e => ret (Err e) end).

(** The same for a call without effects. *)
Definition check {A B} (r : result error A) (k : A -> M (result error B))
  : M (result error B) :=
  match r with Ok a => k a | Err e => ret (Err e) end.

Notation "'let!' x ':=' m 'in' k" := (bind m (fun x => k))
  (at level 10, x name, m at level 100, k at level 200).
Notation "'try!' x ':=' m 'in' k" := (try m (fun x => k))
  (at level 10, x name, m at level 100, k at level 200).
Notation "'check!' x ':=' r 'in' k" := (check r (fun x => k))
  (at level 10, x name, r at level 100, k at level 200).

Definition emit (e : Event) : M unit :=
  fun w => (mkWorld (script w) (trace w ++ [e]), tt).

Definition Body_Close : M unit := emit EvClose.
Definition time_Sleep (d : Z) : M unit := emit (EvSleep d).
Definition logger (level format : string) (args : list LogArg) : M unit :=
  emit (EvLog level format args).

Definition wire (request : Request.t) : Wire :=
  {| wireMethod := Request.Method request;
     wireURL := Request.URL request;
     wireHeader := Request.Header request;
     wireBody := fst (readAll (Request.Body request)) |}.

(** [tc.client.Do(request)], as [doRequest] sees it: one call, recorded
    with the request handed over, reads the body stream to its end and comes
    back with the next outcome of the [script], the error or the final
    response that net/http returns for the call (after the redirects it has
    followed, with the cookies it has kept).  The request is returned with
    its body stream as the reading left it. *)
Definition client_Do (request : Request.t)
  : M (Request.t * (string + Response.t)) :=
  fun w =>
    let request' :=
      Request.mk (Request.Method request) (Request.URL request)
        (Request.Header request) (snd (readAll (Request.Body request))) in
    let tr := trace w ++ [EvSend (wire request)] in
    match script w with
    | [] => (mkWorld [] tr, (request', inl "connection refused"))
    | outcome :: rest => (mkWorld rest tr, (request', outcome))
    end.

(** * Library calls kept abstract *)

(** net/http's validation of a new request, encoding/json on the entities,
    net/url's form encoding, the clock, and the HTML scraper of the package
    (declared beside trakt.go) are not part of trakt.go; the client is
    modelled over any implementation of them. *)
Class Externals := {
  (** [http.NewRequest]: the error for a method or URL it refuses. *)
  http_NewRequest_error : string -> string -> option string;
  (** [url.Parse] of a URL that [http.NewRequest] accepts, then [String]:
      how [fmt] prints [request.URL], escaped anew. *)
  url_String : string -> string;
  json_Marshal_TraktListBody : TraktListBody -> result string string;
  json_Marshal_TraktListAddBody : TraktListAddBody -> result string string;
  TraktResponse : Type;
  json_Decode_TraktResponse : string -> result string TraktResponse;
  json_Decode_TraktItems : string -> result string TraktItems;
  json_Decode_TraktLists : string -> result string (list TraktList);
  (** [scrapeSelectionAttribute body clientName selector attribute] *)
  scrapeSelectionAttribute : string -> string -> string -> string -> result string string;
  url_Values_Encode : gmap string string -> string;
  (** [time.Now().Format(time.RFC1123)] *)
  time_Now_RFC1123 : string }.

Definition lib {A} (r : result string A) : result error A :=
  match r with Ok a => Ok a | Err e => Err (ErrLib e) end.

Definition wrap {A} (msg : string) (r : result error A) : result error A :=
  match r with Ok a => Ok a | Err e => Err (ErrWrap msg e) end.

(** * The client *)

Definition traktHeaderKeyApiKey := "trakt-api-key".
Definition traktHeaderKeyApiVersion := "trakt-api-version".
Definition traktHeaderKeyAuthorization := "Authorization".
Definition traktHeaderKeyContentLength := "Content-Length".
Definition traktHeaderKeyContentType := "Content-Type".
Definition traktHeaderKeyRetryAfter := "Retry-After".

Definition traktFormKeyAuthenticityToken := "authenticity_token".
Definition traktFormKeyCommit := "commit".

Definition traktPathActivateAuthorize := "/activate/authorize".
Definition traktPathBaseAPI := "https://api.trakt.tv".
Definition traktPathBaseBrowser := "https://trakt.tv".
Definition traktPathHistory := "/sync/history".
Definition traktPathHistoryRemove := "/sync/history/remove".
Definition traktPathRatings := "/sync/ratings".
Definition traktPathRatingsRemove := "/sync/ratings/remove".
Definition traktPathWatchlist := "/sync/watchlist".
Definition traktPathWatchlistRemove := "/sync/watchlist/remove".

(** The three paths with verbs, [fmt.Sprintf] applied. *)
Definition traktPathHistoryGet (a b c : string) : string :=
  "/sync/history/" +:+ a +:+ "/" +:+ b +:+ "?limit=" +:+ c.
Definition traktPathUserList (a b : string) : string :=
  "/users/" +:+ a +:+ "/lists/" +:+ b.
Definition traktPathUserListItems (a b : string) : string :=
  "/users/" +:+ a +:+ "/lists/" +:+ b +:+ "/items".
Definition traktPathUserListItemsRemove (a b : string) : string :=
  "/users/" +:+ a +:+ "/lists/" +:+ b +:+ "/items/remove".

Definition traktStatusCodeEnhanceYourCalm : Z := 420.

Definition traktSyncModeAddOnly := "add-only".
Definition traktSyncModeDryRun := "dry-run".
Definition traktSyncModeFull := "full".

(** The name under which the scraper reports (a constant of the package). *)
Definition clientNameTrakt := "trakt".

Definition http_MethodGet := "GET".
Definition http_MethodPost := "POST".
Definition http_MethodDelete := "DELETE".
Definition http_NoBody := "".

(** [if method == "" { method = "GET" }] of [http.NewRequestWithContext]. *)
Definition methodOrGet (method : string) : string :=
  if String.eqb method "" then http_MethodGet else method.

Definition http_StatusOK : Z := 200.
Definition http_StatusCreated : Z := 201.
Definition http_StatusNoContent : Z := 204.
Definition http_StatusNotFound : Z := 404.
Definition http_StatusTooManyRequests : Z := 429.

Record TraktConfig := mkTraktConfig {
  accessToken : string;
  ClientId : string;
  ClientSecret : string;
  Email : string;
  Password : string;
  username : string;
  SyncMode : string }.

Section Client.
Context `{Externals}.

(** [http.NewRequest]: an empty method stands for GET.  [URL] keeps the
    string the request was built from; [url_String] of it is what the
    request's URL prints as. *)
Definition http_NewRequest (method url : string) (body : reusableReader)
  : result error Request.t :=
  match http_NewRequest_error method url with
  | Some e => Err (ErrLib e)
  | None => Ok (Request.mk (methodOrGet method) url ∅ body)
  end.

Definition enhanceYourCalmDetails : string :=
  "trakt account limit exceeded, more info here: "
  +:+ "https://github.com/trakt/api-help/discussions/350".

(** The body of the loop [for retries := 0; retries < 5; retries++] of
    [doRequest], with [left = 5 - retries] rounds still allowed. *)
Fixpoint doRequest_loop (left : nat) (request : Request.t)
  : M (result error Response.t) :=
  match left with
  | O =>
      ret (Err (ErrNew ("reached max retry attempts for "
                        +:+ Request.Method request +:+ " "
                        +:+ url_String (Request.URL request))))
  | S left' =>
      let! sent := client_Do request in
      let request := fst sent in
      match snd sent with
      | inl err =>
          ret (Err (ErrWrap ("error sending http request " +:+ Request.Method request
                             +:+ ", " +:+ url_String (Request.URL request))
                      (ErrTransport err)))
      | inr response =>
          let code := Response.StatusCode response in
          if code =? http_StatusOK then ret (Ok response)
          else if code =? http_StatusCreated then ret (Ok response)
          else if code =? http_StatusNoContent then ret (Ok response)
          else if code =? http_StatusNotFound then ret (Ok response)
          else if code =? traktStatusCodeEnhanceYourCalm then
            let! _ := Body_Close in
            ret (Err (ErrApi (ApiError.mk (Response.RequestMethod response)
                                (Response.RequestURL response) code
                                enhanceYourCalmDetails)))
          else if code =? http_StatusTooManyRequests then
            let! _ := Body_Close in
            match Go.Atoi (Header_Get (Response.Header response) traktHeaderKeyRetryAfter) with
            | Err err =>
                ret (Err (ErrWrap ("failure parsing the value of trakt header "
                                   +:+ traktHeaderKeyRetryAfter +:+ " to integer")
                            (ErrNum err)))
            | Ok retryAfter =>
                let duration := Go.seconds retryAfter in
                let! _ := logger "warn"
                  "trakt rate limit reached, waiting for %s then retrying http request %s %s"
                  [ADuration duration; AStr (Response.RequestMethod response);
                   AStr (Response.RequestURL response)] in
                let! _ := time_Sleep duration in
                doRequest_loop left' request
            end
          else
            let! _ := Body_Close in
            ret (Err (ErrApi (ApiError.mk (Response.RequestMethod response)
                                (Response.RequestURL response) code
                                ("unexpected status code " +:+ Go.Itoa code))))
      end
  end.

Definition doRequest (rf : requestFields.t) : M (result error Response.t) :=
  let target := requestFields.BasePath rf +:+ requestFields.Endpoint rf in
  match http_NewRequest (requestFields.Method rf) target
          (ReusableReader (requestFields.Body rf)) with
  | Err err =>
      ret (Err (ErrWrap ("error creating http request " +:+ requestFields.Method rf
                         +:+ " " +:+ target) err))
  | Ok request =>
      let request :=
        Request.mk (Request.Method request) (Request.URL request)
          (map_fold Header_Set (Request.Header request) (requestFields.Headers rf))
          (Request.Body request) in
      doRequest_loop 5 request
  end.

Definition defaultApiHeaders (config : TraktConfig) : gmap string string :=
  <[traktHeaderKeyApiVersion := "2"]>
  (<[traktHeaderKeyContentType := "application/json"]>
  (<[traktHeaderKeyApiKey := ClientId config]>
  (<[traktHeaderKeyAuthorization := "Bearer " +:+ accessToken config]> ∅))).

(** [len] of a slice, as a Go [int]. *)
Definition len {A} (l : list A) : Z := Z.of_nat (length l).

(** ** The add-body mapping *)

Definition mapTraktItemsToTraktBody (items : TraktItems) : TraktListBody :=
  fold_left
    (fun res item =>
       if String.eqb (Type_ item) TraktItemTypeMovie then
         mkTraktListBody (Movies res ++ [Movie item]) (Shows res) (Episodes res)
       else if String.eqb (Type_ item) TraktItemTypeShow then
         mkTraktListBody (Movies res) (Shows res ++ [Show item]) (Episodes res)
       else if String.eqb (Type_ item) TraktItemTypeEpisode then
         mkTraktListBody (Movies res) (Shows res) (Episodes res ++ [Episode item])
       else res)
    items (mkTraktListBody [] [] []).

(** ** Reading responses; [defer body.Close()] runs as the function returns *)

Definition readTraktLists (body : string) : M (result error (list TraktList)) :=
  let r := wrap "failure unmarshalling trakt lists" (lib (json_Decode_TraktLists body)) in
  let! _ := Body_Close in
  ret r.

Definition readTraktItems (body : string) : M (result error TraktItems) :=
  let r := wrap "failure unmarshalling trakt list" (lib (json_Decode_TraktItems body)) in
  let! _ := Body_Close in
  ret r.

Definition readTraktListResponse (body : string) (list : TraktList)
  : M (result error TraktList) :=
  let r :=
    match wrap "failure unmarshalling trakt list" (lib (json_Decode_TraktItems body)) with
    | Ok items => Ok (mkTraktList (Ids list) (IsWatchlist list) items)
    | Err e => Err e
    end in
  let! _ := Body_Close in
  ret r.

Definition readTraktResponse (body : string) : M (result error TraktResponse) :=
  let r := wrap "failure unmarshalling trakt response" (lib (json_Decode_TraktResponse body)) in
  let! _ := Body_Close in
  ret r.

(** ** The last step of the sign-in: the user's handle *)

(** The client's configuration is passed in and comes back, with [username]
    set when the step succeeds. *)
Definition ActivateAuthorize (config : TraktConfig) (authenticityToken : string)
  : M (TraktConfig * result error unit) :=
  let data : gmap string string :=
    <[traktFormKeyCommit := "Yes"]>
    (<[traktFormKeyAuthenticityToken := authenticityToken]> ∅) in
  let encodedData := url_Values_Encode data in
  let! r := doRequest (requestFields.mk http_MethodPost traktPathBaseBrowser
                         traktPathActivateAuthorize encodedData
                         (<[traktHeaderKeyContentType := "application/x-www-form-urlencoded"]>
                          (<[traktHeaderKeyContentLength :=
                               Go.Itoa (Z.of_nat (String.length encodedData))]> ∅))) in
  match r with
  | Err err => ret (config, Err err)
  | Ok response =>
      match lib (scrapeSelectionAttribute (Response.Body response) clientNameTrakt
                   "#desktop-user-avatar" "href") with
      | Err err => ret (config, Err err)
      | Ok value =>
          let hrefPieces := Go.Split value "/" in
          if negb (len hrefPieces =? 3) then
            ret (config, Err (ErrNew "failure scraping trakt username"))
          else
            ret (mkTraktConfig (accessToken config) (ClientId config)
                   (ClientSecret config) (Email config) (Password config)
                   (nth 2 hrefPieces "") (SyncMode config),
                 Ok tt)
      end
  end.

(** ** Watchlist *)

Definition WatchlistGet (config : TraktConfig) : M (result error TraktList) :=
  try! response := doRequest (requestFields.mk http_MethodGet traktPathBaseAPI
                                traktPathWatchlist http_NoBody (defaultApiHeaders config)) in
  let list := mkTraktList (mkTraktIds "" "watchlist") true [] in
  readTraktListResponse (Response.Body response) list.

Definition WatchlistItemsAdd (config : TraktConfig) (items : TraktItems)
  : M (result error unit) :=
  if String.eqb (SyncMode config) traktSyncModeDryRun then
    let! _ := logger "info" "sync mode dry run would have added %d trakt list item(s)"
                [AInt (len items)] in
    ret (Ok tt)
  else
    check! body := lib (json_Marshal_TraktListBody (mapTraktItemsToTraktBody items)) in
    try! response := doRequest (requestFields.mk http_MethodPost traktPathBaseAPI
                                  traktPathWatchlist body (defaultApiHeaders config)) in
    try! traktResponse := readTraktResponse (Response.Body response) in
    let! _ := logger "info" "synced trakt watchlist" [] in
    ret (Ok tt).

Definition WatchlistItemsRemove (config : TraktConfig) (items : TraktItems)
  : M (result error unit) :=
  if String.eqb (SyncMode config) traktSyncModeDryRun
     || String.eqb (SyncMode config) traktSyncModeAddOnly then
    let! _ := logger "info" "sync mode %s would have deleted %d trakt list item(s)"
                [AStr (SyncMode config); AInt (len items)] in
    ret (Ok tt)
  else
    check! body := lib (json_Marshal_TraktListBody (mapTraktItemsToTraktBody items)) in
    try! response := doRequest (requestFields.mk http_MethodPost traktPathBaseAPI
                                  traktPathWatchlistRemove body (defaultApiHeaders config)) in
    try! traktResponse := readTraktResponse (Response.Body response) in
    let! _ := logger "info" "synced trakt watchlist" [] in
    ret (Ok tt).

(** ** Lists *)

Definition ListGet (config : TraktConfig) (listId : string) : M (result error TraktList) :=
  try! response := doRequest (requestFields.mk http_MethodGet traktPathBaseAPI
                                (traktPathUserListItems (username config) listId)
                                http_NoBody (defaultApiHeaders config)) in
  if Response.StatusCode response =? http_StatusNotFound then
    ret (Err (ErrApi (ApiError.mk (Response.RequestMethod response)
                        (Response.RequestURL response)
                        (Response.StatusCode response)
                        ("list with id " +:+ listId +:+ " could not be found"))))
  else
    let list := mkTraktList (mkTraktIds "" listId) false [] in
    readTraktListResponse (Response.Body response) list.

Definition ListItemsAdd (config : TraktConfig) (listId : string) (items : TraktItems)
  : M (result error unit) :=
  if String.eqb (SyncMode config) traktSyncModeDryRun then
    let! _ := logger "info" "sync mode dry run would have added %d trakt list item(s)"
                [AInt (len items)] in
    ret (Ok tt)
  else
    check! body := lib (json_Marshal_TraktListBody (mapTraktItemsToTraktBody items)) in
    try! response := doRequest (requestFields.mk http_MethodPost traktPathBaseAPI
                                  (traktPathUserListItems (username config) listId)
                                  body (defaultApiHeaders config)) in
    try! traktResponse := readTraktResponse (Response.Body response) in
    let! _ := logger "info" "synced trakt list" [] in
    ret (Ok tt).

Definition ListItemsRemove (config : TraktConfig) (listId : string) (items : TraktItems)
  : M (result error unit) :=
  if String.eqb (SyncMode config) traktSyncModeDryRun
     || String.eqb (SyncMode config) traktSyncModeAddOnly then
    let! _ := logger "info" "sync mode %s would have deleted %d trakt list item(s)"
                [AStr (SyncMode config); AInt (len items)] in
    ret (Ok tt)
  else
    check! body := lib (json_Marshal_TraktListBody (mapTraktItemsToTraktBody items)) in
    try! response := doRequest (requestFields.mk http_MethodPost traktPathBaseAPI
                                  (traktPathUserListItemsRemove (username config) listId)
                                  body (defaultApiHeaders config)) in
    try! traktResponse := readTraktResponse (Response.Body response) in
    let! _ := logger "info" "synced trakt list" [] in
    ret (Ok tt).

Definition ListsMetadataGet (config : TraktConfig) : M (result error (list TraktList)) :=
  try! response := doRequest (requestFields.mk http_MethodGet traktPathBaseAPI
                                (traktPathUserList (username config) "")
                                http_NoBody (defaultApiHeaders config)) in
  readTraktLists (Response.Body response).

Definition ListAdd (config : TraktConfig) (listId listName : string)
  : M (result error unit) :=
  if String.eqb (SyncMode config) traktSyncModeDryRun then
    let! _ := logger "info" "sync mode dry run would have created trakt list %s"
                [AStr listId] in
    ret (Ok tt)
  else
    check! body := lib (json_Marshal_TraktListAddBody
                          (mkTraktListAddBody listName
                             ("list auto imported from imdb by "
                              +:+ "https://github.com/cecobask/imdb-trakt-sync on "
                              +:+ time_Now_RFC1123)
                             "public" false true "rank" "asc")) in
    try! response := doRequest (requestFields.mk http_MethodPost traktPathBaseAPI
                                  (traktPathUserList (username config) "")
                                  body (defaultApiHeaders config)) in
    let! _ := Body_Close in
    let! _ := logger "info" "created trakt list %s" [AStr listId] in
    ret (Ok tt).

Definition ListRemove (config : TraktConfig) (listId : string) : M (result error unit) :=
  if String.eqb (SyncMode config) traktSyncModeDryRun
     || String.eqb (SyncMode config) traktSyncModeAddOnly then
    let! _ := logger "info" "sync mode %s would have deleted trakt list %s"
                [AStr (SyncMode config); AStr listId] in
    ret (Ok tt)
  else
    try! response := doRequest (requestFields.mk http_MethodDelete traktPathBaseAPI
                                  (traktPathUserList (username config) listId)
                                  http_NoBody (defaultApiHeaders config)) in
    let! _ := Body_Close in
    let! _ := logger "info" "removed trakt list %s" [AStr listId] in
    ret (Ok tt).

(** ** Ratings *)

Definition RatingsGet (config : TraktConfig) : M (result error TraktItems) :=
  try! response := doRequest (requestFields.mk http_MethodGet traktPathBaseAPI
                                traktPathRatings http_NoBody (defaultApiHeaders config)) in
  readTraktItems (Response.Body response).

Definition RatingsAdd (config : TraktConfig) (items : TraktItems)
  : M (result error unit) :=
  if String.eqb (SyncMode config) traktSyncModeDryRun then
    let! _ := logger "info" "sync mode dry run would have added %d trakt rating item(s)"
                [AInt (len items)] in
    ret (Ok tt)
  else
    check! body := lib (json_Marshal_TraktListBody (mapTraktItemsToTraktBody items)) in
    try! response := doRequest (requestFields.mk http_MethodPost traktPathBaseAPI
                                  traktPathRatings body (defaultApiHeaders config)) in
    try! traktResponse := readTraktResponse (Response.Body response) in
    let! _ := logger "info" "synced trakt ratings" [] in
    ret (Ok tt).

Definition RatingsRemove (config : TraktConfig) (items : TraktItems)
  : M (result error unit) :=
  if String.eqb (SyncMode config) traktSyncModeDryRun
     || String.eqb (SyncMode config) traktSyncModeAddOnly then
    let! _ := logger "info" "sync mode %s would have deleted %d trakt rating item(s)"
                [AStr (SyncMode config); AInt (len items)] in
    ret (Ok tt)
  else
    check! body := lib (json_Marshal_TraktListBody (mapTraktItemsToTraktBody items)) in
    try! response := doRequest (requestFields.mk http_MethodPost traktPathBaseAPI
                                  traktPathRatingsRemove body (defaultApiHeaders config)) in
    try! traktResponse := readTraktResponse (Response.Body response) in
    let! _ := logger "info" "synced trakt ratings" [] in
    ret (Ok tt).

(** ** History *)

Definition HistoryGet (config : TraktConfig) (itemType itemId : string)
  : M (result error TraktItems) :=
  try! response := doRequest (requestFields.mk http_MethodGet traktPathBaseAPI
                                (traktPathHistoryGet (itemType +:+ "s") itemId "1000")
                                http_NoBody (defaultApiHeaders config)) in
  readTraktItems (Response.Body response).

Definition HistoryAdd (config : TraktConfig) (items : TraktItems)
  : M (result error unit) :=
  if String.eqb (SyncMode config) traktSyncModeDryRun then
    let! _ := logger "info" "sync mode dry run would have added %d trakt history item(s)"
                [AInt (len items)] in
    ret (Ok tt)
  else
    check! body := lib (json_Marshal_TraktListBody (mapTraktItemsToTraktBody items)) in
    try! response := doRequest (requestFields.mk http_MethodPost traktPathBaseAPI
                                  traktPathHistory body (defaultApiHeaders config)) in
    try! traktResponse := readTraktResponse (Response.Body response) in
    let! _ := logger "info" "synced trakt history" [] in
    ret (Ok tt).

Definition HistoryRemove (config : TraktConfig) (items : TraktItems)
  : M (result error unit) :=
  if String.eqb (SyncMode config) traktSyncModeDryRun
     || String.eqb (SyncMode config) traktSyncModeAddOnly then
    let! _ := logger "info" "sync mode %s would have deleted %d trakt history item(s)"
                [AStr (SyncMode config); AInt (len items)] in
    ret (Ok tt)
  else
    check! body := lib (json_Marshal_TraktListBody (mapTraktItemsToTraktBody items)) in
    try! response := doRequest (requestFields.mk http_MethodPost traktPathBaseAPI
                                  traktPathHistoryRemove body (defaultApiHeaders config)) in
    try! traktResponse := readTraktResponse (Response.Body response) in
    let! _ := logger "info" "synced trakt history" [] in
    ret (Ok tt).

End Client.

(** * The concurrent list fetcher *)

(** [ListsGet] starts one goroutine per identifier and a goroutine that
    closes [doneChan] once all of them are done, while the calling goroutine
    loops on a [select] over [outChan], [errChan] and [doneChan].  Which
    goroutine runs next, and which ready case a [select] takes (Go chooses
    among the ready ones at random), is not fixed by the program: a
    schedule, a list of [Action]s, fixes it here.

    A goroutine's body (the call of [ListGet] and what follows it) is one
    step, so every run below is a run of the program; the program has
    further runs, in which the requests of several goroutines interleave. *)
Inductive Action :=
| RunTask (i : nat)   (* the i-th goroutine still to run performs its body *)
| CloseDone           (* waitGroup.Wait() returns; close(doneChan) *)
| RecvOut             (* select takes  case list := <-outChan *)
| RecvErr             (* select takes  case err := <-errChan *)
| RecvDone.           (* select takes  case <-doneChan *)

Record Fetch := mkFetch {
  pending : list TraktIds;       (* goroutines whose body has not run yet *)
  stuck : nat;                   (* goroutines blocked in  errChan <- ...  *)
  outChan : list TraktList;      (* buffered, capacity len(ids): never full *)
  errChan : option error;        (* buffered, capacity 1 *)
  doneChan : bool;               (* closed? *)
  lists : list TraktList }.

Section Fetcher.
Context `{Externals}.

Definition isNotFound (err : error) : bool :=
  match errors_As_ApiError err with
  | Some apiError => ApiError.StatusCode apiError =? http_StatusNotFound
  | None => false
  end.

(** The body of the goroutine started for [id]. *)
Definition task (config : TraktConfig) (id : TraktIds) (st : Fetch) : M Fetch :=
  let! r := ListGet config (Slug id) in
  match r with
  | Err err =>
      if isNotFound err then
        let! _ := logger "debug" "silencing not found error while fetching trakt lists" [] in
        ret st
      else
        let err' := ErrWrap "unexpected error while fetching trakt lists" err in
        match errChan st with
        | None =>
            ret (mkFetch (pending st) (stuck st) (outChan st) (Some err')
                   (doneChan st) (lists st))
        | Some _ =>
            ret (mkFetch (pending st) (S (stuck st)) (outChan st) (errChan st)
                   (doneChan st) (lists st))
        end
  | Ok l =>
      let l := mkTraktList id (IsWatchlist l) (ListItems l) in
      ret (mkFetch (pending st) (stuck st) (outChan st ++ [l]) (errChan st)
             (doneChan st) (lists st))
  end.

(** One action: [None] when it cannot happen in [st], else the next state
    or what [ListsGet] returns. *)
Definition step (config : TraktConfig) (a : Action) (st : Fetch)
  : M (option (Fetch + result error (list TraktList))) :=
  match a with
  | RunTask i =>
      match pending st !! i with
      | None => ret None
      | Some id =>
          let! st' := task config id
                        (mkFetch (delete i (pending st)) (stuck st) (outChan st)
                           (errChan st) (doneChan st) (lists st)) in
          ret (Some (inl st'))
      end
  | CloseDone =>
      match pending st, stuck st, doneChan st with
      | [], O, false =>
          ret (Some (inl (mkFetch [] O (outChan st) (errChan st) true (lists st))))
      | _, _, _ => ret None
      end
  | RecvOut =>
      match outChan st with
      | l :: rest =>
          ret (Some (inl (mkFetch (pending st) (stuck st) rest (errChan st)
                            (doneChan st) (lists st ++ [l]))))
      | [] => ret None
      end
  | RecvErr =>
      match errChan st with
      | Some err => ret (Some (inr (Err err)))
      | None => ret None
      end
  | RecvDone =>
      if doneChan st then ret (Some (inr (Ok (lists st)))) else ret None
  end.

Fixpoint ListsGet_run (config : TraktConfig) (schedule : list Action) (st : Fetch)
  : M (option (result error (list TraktList))) :=
  match schedule with
  | [] => ret None
  | a :: schedule' =>
      let! r := step config a st in
      match r with
      | None => ret None
      | Some (inl st') => ListsGet_run config schedule' st'
      | Some (inr res) => ret (Some res)
      end
  end.

(** [ListsGet ids] under a schedule: [Some] of what it returns, [None] when
    the schedule is not one of its runs up to the return. *)
Definition ListsGet (config : TraktConfig) (ids : list TraktIds) (schedule : list Action)
  : M (option (result error (list TraktList))) :=
  ListsGet_run config schedule (mkFetch ids O [] None false []).

End Fetcher.

(** * The mutating operations, as one family *)

Inductive Mutation :=
| DoWatchlistItemsAdd (items : TraktItems)
| DoWatchlistItemsRemove (items : TraktItems)
| DoListItemsAdd (listId : string) (items : TraktItems)
| DoListItemsRemove (listId : string) (items : TraktItems)
| DoListAdd (listId listName : string)
| DoListRemove (listId : string)
| DoRatingsAdd (items : TraktItems)
| DoRatingsRemove (items : TraktItems)
| DoHistoryAdd (items : TraktItems)
| DoHistoryRemove (items : TraktItems).

Definition isRemove (op : Mutation) : bool :=
  match op with
  | DoWatchlistItemsRemove _ | DoListItemsRemove _ _ | DoListRemove _
  | DoRatingsRemove _ | DoHistoryRemove _ => true
  | _ => false
  end.

Inductive Query :=
| DoWatchlistGet
| DoListGet (listId : string)
| DoListsMetadataGet
| DoRatingsGet
| DoHistoryGet (itemType itemId : string).

Section Family.
Context `{Externals}.

Definition perform (config : TraktConfig) (op : Mutation) : M (result error unit) :=
  match op with
  | DoWatchlistItemsAdd items => WatchlistItemsAdd config items
  | DoWatchlistItemsRemove items => WatchlistItemsRemove config items
  | DoListItemsAdd listId items => ListItemsAdd config listId items
  | DoListItemsRemove listId items => ListItemsRemove config listId items
  | DoListAdd listId listName => ListAdd config listId listName
  | DoListRemove listId => ListRemove config listId
  | DoRatingsAdd items => RatingsAdd config items
  | DoRatingsRemove items => RatingsRemove config items
  | DoHistoryAdd items => HistoryAdd config items
  | DoHistoryRemove items => HistoryRemove config items
  end.

(** What a get operation hands back, whatever its type. *)
Inductive Answer :=
| AList (l : TraktList)
| ALists (ls : list TraktList)
| AItems (items : TraktItems).

Definition answer {A} (f : A -> Answer) (m : M (result error A)) : M (result error Answer) :=
  let! r := m in
  ret (match r with Ok a => Ok (f a) | Err e => Err e end).

Definition ask (config : TraktConfig) (q : Query) : M (result error Answer) :=
  match q with
  | DoWatchlistGet => answer AList (WatchlistGet config)
  | DoListGet listId => answer AList (ListGet config listId)
  | DoListsMetadataGet => answer ALists (ListsMetadataGet config)
  | DoRatingsGet => answer AItems (RatingsGet config)
  | DoHistoryGet itemType itemId => answer AItems (HistoryGet config itemType itemId)
  end.

(** The request a mutating operation hands to [doRequest] once its mode
    lets it through: the encoded body may fail first. *)
Definition requestOf (config : TraktConfig) (op : Mutation) : result error requestFields.t :=
  let post endpoint items :=
    match lib (json_Marshal_TraktListBody (mapTraktItemsToTraktBody items)) with
    | Ok body => Ok (requestFields.mk http_MethodPost traktPathBaseAPI endpoint body
                       (defaultApiHeaders config))
    | Err e => Err e
    end in
  match op with
  | DoWatchlistItemsAdd items => post traktPathWatchlist items
  | DoWatchlistItemsRemove items => post traktPathWatchlistRemove items
  | DoListItemsAdd listId items =>
      post (traktPathUserListItems (username config) listId) items
  | DoListItemsRemove listId items =>
      post (traktPathUserListItemsRemove (username config) listId) items
  | DoListAdd listId listName =>
      match lib (json_Marshal_TraktListAddBody
                   (mkTraktListAddBody listName
                      ("list auto imported from imdb by "
                       +:+ "https://github.com/cecobask/imdb-trakt-sync on "
                       +:+ time_Now_RFC1123)
                      "public" false true "rank" "asc")) with
      | Ok body => Ok (requestFields.mk http_MethodPost traktPathBaseAPI
                         (traktPathUserList (username config) "") body
                         (defaultApiHeaders config))
      | Err e => Err e
      end
  | DoListRemove listId =>
      Ok (requestFields.mk http_MethodDelete traktPathBaseAPI
            (traktPathUserList (username config) listId) http_NoBody
            (defaultApiHeaders config))
  | DoRatingsAdd items => post traktPathRatings items
  | DoRatingsRemove items => post traktPathRatingsRemove items
  | DoHistoryAdd items => post traktPathHistory items
  | DoHistoryRemove items => post traktPathHistoryRemove items
  end.

(** Whether the mode keeps a mutating operation from the network. *)
Definition skipped (mode : string) (op : Mutation) : bool :=
  String.eqb mode traktSyncModeDryRun
  || (isRemove op && String.eqb mode traktSyncModeAddOnly).

End Family.

(** * Observations on a trace *)

(** The requests handed to the HTTP client, in order. *)
Fixpoint sent (tr : list Event) : list Wire :=
  match tr with
  | [] => []
  | EvSend q :: tr' => q :: sent tr'
  | _ :: tr' => sent tr'
  end.

(** The network side of a trace: the calls of the HTTP client and the
    sleeps only. *)
Inductive Net :=
| NSend (q : Wire)
| NSleep (d : Z).

Fixpoint net (tr : list Event) : list Net :=
  match tr with
  | [] => []
  | EvSend q :: tr' => NSend q :: net tr'
  | EvSleep d :: tr' => NSleep d :: net tr'
  | _ :: tr' => net tr'
  end.

(** What a call of the HTTP client is for: the method, the URL and the
    bytes of the body of the request handed over. *)
Definition outline (q : Wire) : string * string * string :=
  (wireMethod q, wireURL q, wireBody q).

Definition outlineNet (e : Net) : (string * string * string) + Z :=
  match e with
  | NSend q => inl (outline q)
  | NSleep d => inr d
  end.

Definition setMode (config : TraktConfig) (mode : string) : TraktConfig :=
  mkTraktConfig (accessToken config) (ClientId config) (ClientSecret config)
    (Email config) (Password config) (username config) mode.

(** A 429 response whose [Retry-After] reads as the integer [n]. *)
Definition rateLimited (response : Response.t) (n : Z) : Prop :=
  Response.StatusCode response = http_StatusTooManyRequests
  /\ Go.Atoi (Header_Get (Response.Header response) traktHeaderKeyRetryAfter) = Ok n.

(** An instance of the abstract library calls to run the client on: every
    request can be built and its URL prints as it was given, JSON bodies are
    encoded as a fixed text and decoded to nothing, and the scraper finds
    the body itself. *)
Definition mockExternals : Externals :=
  {| http_NewRequest_error := fun _ _ => None;
     url_String := fun url => url;
     json_Marshal_TraktListBody := fun _ => Ok "{}";
     json_Marshal_TraktListAddBody := fun _ => Ok "{}";
     TraktResponse := unit;
     json_Decode_TraktResponse := fun _ => Ok tt;
     json_Decode_TraktItems := fun _ => Ok [];
     json_Decode_TraktLists := fun _ => Ok [];
     scrapeSelectionAttribute := fun body _ _ _ => Ok body;
     url_Values_Encode := fun _ => "commit=Yes";
     time_Now_RFC1123 := "Mon, 02 Jan 2006 15:04:05 MST" |}.

(** The request [doRequest] builds from its fields, once [http.NewRequest]
    has accepted them, and what it hands to the HTTP client.  (Go ranges
    over the map of headers in no fixed order; the header that results
    depends on the order only when two keys share a canonical form.) *)
Definition requestFor (rf : requestFields.t) : Request.t :=
  Request.mk (methodOrGet (requestFields.Method rf))
    (requestFields.BasePath rf +:+ requestFields.Endpoint rf)
    (map_fold Header_Set ∅ (requestFields.Headers rf))
    (ReusableReader (requestFields.Body rf)).

Definition wireOf (rf : requestFields.t) : Wire := wire (requestFor rf).

Definition builds `{Externals} (rf : requestFields.t) : Prop :=
  http_NewRequest_error (requestFields.Method rf)
    (requestFields.BasePath rf +:+ requestFields.Endpoint rf) = None.

(** From [w] to [w'] the HTTP client has been called [m] more times, each
    time for the method, the URL and the body of [rf]. *)
Definition called (rf : requestFields.t) (m : nat) (w w' : World) : Prop :=
  map outline (sent (trace w'))
  = map outline (sent (trace w)) ++ replicate m (outline (wireOf rf)).

(** The outcome next in store is no rate-limited answer. *)
Definition promptly (w : World) : Prop :=
  forall r n, head (script w) = Some (inr r) -> ~ rateLimited r n.

(** No two keys of the map of headers share a canonical form. *)
Definition distinctHeaders (headers : gmap string string) : Prop :=
  forall k1 k2,
    is_Some (headers !! k1) -> is_Some (headers !! k2) ->
    Go.CanonicalMIMEHeaderKey k1 = Go.CanonicalMIMEHeaderKey k2 -> k1 = k2.

(** The peer's outcomes for a run of rate-limited answers, each paired with
    the integer of its [Retry-After], and the network side of the rounds
    they cause: the request [q], then the sleep. *)
Definition answers (rns : list (Response.t * Z)) : list (string + Response.t) :=
  map (fun p => inr (fst p)) rns.

Definition rounds (q : Wire) (rns : list (Response.t * Z)) : list Net :=
  flat_map (fun p => [NSend q; NSleep (Go.seconds (snd p))]) rns.

Definition allRateLimited (rns : list (Response.t * Z)) : Prop :=
  Forall (fun p => rateLimited (fst p) (snd p)) rns.

(** The effects of one rate-limited round. *)
Definition roundEvents (request : Request.t) (p : Response.t * Z) : list Event :=
  [EvSend (wire request); EvClose;
   EvLog "warn" "trakt rate limit reached, waiting for %s then retrying http request %s %s"
     [ADuration (Go.seconds (snd p)); AStr (Response.RequestMethod (fst p));
      AStr (Response.RequestURL (fst p))];
   EvSleep (Go.seconds (snd p))].

(** ** Reading the claims on the mapping *)

Definition hasType (tag : string) (item : TraktItem) : bool :=
  String.eqb (Type_ item) tag.

(** An item that carries one of the three type tags. *)
Definition recognized (item : TraktItem) : bool :=
  hasType TraktItemTypeMovie item || hasType TraktItemTypeShow item
  || hasType TraktItemTypeEpisode item.

(** An item with a Movie identifier and nothing under Show and Episode. *)
Definition onlyMovieIdentifier (item : TraktItem) : Prop :=
  Movie item <> zeroSpec /\ Show item = zeroSpec /\ Episode item = zeroSpec.

(** Modelled from the spec: the identity invariant of an item (section 3),
    exactly one variant is populated per item.  An item is a tagged union:
    the payload its tag names is populated, the other two are not. *)
Definition itemInvariant (item : TraktItem) : Prop :=
  (Type_ item = TraktItemTypeMovie
   /\ Movie item <> zeroSpec /\ Show item = zeroSpec /\ Episode item = zeroSpec)
  \/ (Type_ item = TraktItemTypeShow
      /\ Movie item = zeroSpec /\ Show item <> zeroSpec /\ Episode item = zeroSpec)
  \/ (Type_ item = TraktItemTypeEpisode
      /\ Movie item = zeroSpec /\ Show item = zeroSpec /\ Episode item <> zeroSpec).

Definition entries (body : TraktListBody) : nat :=
  (length (Movies body) + length (Shows body) + length (Episodes body))%nat.

(** ** The requests of two operations *)

Definition listRequest (config : TraktConfig) (listId : string) : requestFields.t :=
  requestFields.mk http_MethodGet traktPathBaseAPI
    (traktPathUserListItems (username config) listId) http_NoBody
    (defaultApiHeaders config).

Definition authorizeRequest `{Externals} (authenticityToken : string) : requestFields.t :=
  let encodedData :=
    url_Values_Encode (<[traktFormKeyCommit := "Yes"]>
                       (<[traktFormKeyAuthenticityToken := authenticityToken]> ∅)) in
  requestFields.mk http_MethodPost traktPathBaseBrowser traktPathActivateAuthorize
    encodedData
    (<[traktHeaderKeyContentType := "application/x-www-form-urlencoded"]>
     (<[traktHeaderKeyContentLength := Go.Itoa (Z.of_nat (String.length encodedData))]> ∅)).

(** What a mutating operation does with the response of its request. *)
Definition conclude `{Externals} (op : Mutation) (response : Response.t)
  : M (result error unit) :=
  let synced what :=
    try! traktResponse := readTraktResponse (Response.Body response) in
    let! _ := logger "info" what [] in
    ret (Ok tt) in
  match op with
  | DoWatchlistItemsAdd _ | DoWatchlistItemsRemove _ => synced "synced trakt watchlist"
  | DoListItemsAdd _ _ | DoListItemsRemove _ _ => synced "synced trakt list"
  | DoRatingsAdd _ | DoRatingsRemove _ => synced "synced trakt ratings"
  | DoHistoryAdd _ | DoHistoryRemove _ => synced "synced trakt history"
  | DoListAdd listId _ =>
      let! _ := Body_Close in
      let! _ := logger "info" "created trakt list %s" [AStr listId] in
      ret (Ok tt)
  | DoListRemove listId =>
      let! _ := Body_Close in
      let! _ := logger "info" "removed trakt list %s" [AStr listId] in
      ret (Ok tt)
  end.

(** [strings.Count] for a separator of one byte. *)
Fixpoint countByte (c : ascii) (s : string) : nat :=
  match s with
  | EmptyString => O
  | String a s' => if Ascii.eqb a c then S (countByte c s') else countByte c s'
  end.

(** ** Sample data: a configuration, a request, answers of the peer *)

Module Sample.

Definition config (mode : string) : TraktConfig :=
  mkTraktConfig "token" "client-id" "client-secret" "user@example.org" "password"
    "alice" mode.

Definition request : requestFields.t :=
  requestFields.mk http_MethodPost traktPathBaseAPI traktPathWatchlist
    "{}" (defaultApiHeaders (config traktSyncModeFull)).

(** An answer with the given status and, when given, [Retry-After]. *)
Definition answer (status : Z) (retryAfter : option string) : Response.t :=
  Response.mk status
    (match retryAfter with
     | Some v => {[ traktHeaderKeyRetryAfter := [v] ]}
     | None => ∅
     end)
    http_MethodPost (traktPathBaseAPI +:+ traktPathWatchlist) "/users/alice".

Definition idA : TraktIds := mkTraktIds "" "a".
Definition idB : TraktIds := mkTraktIds "" "b".

Definition movieId : TraktItemSpec := mkTraktItemSpec (mkTraktIds "tt0111161" "").

(** A Movie identifier under the tag show, and under no tag at all. *)
Definition mistagged : TraktItem := mkTraktItem "show" movieId zeroSpec zeroSpec.
Definition untagged : TraktItem := mkTraktItem "" movieId zeroSpec zeroSpec.
Definition movie : TraktItem := mkTraktItem "movie" movieId zeroSpec zeroSpec.

End Sample.

(** How a round that is not followed by another one ends. *)
Inductive lastRound `{Externals} (request : Request.t)
  : (string + Response.t) -> list Event -> result error Response.t -> Prop :=
| LastTransport err :
    lastRound request (inl err) []
      (Err (ErrWrap ("error sending http request " +:+ Request.Method request
                     +:+ ", " +:+ url_String (Request.URL request))
              (ErrTransport err)))
| LastSuccess response :
    Response.StatusCode response ∈ [200; 201; 204; 404] ->
    lastRound request (inr response) [] (Ok response)
| LastCalm response :
    Response.StatusCode response = 420 ->
    lastRound request (inr response) [EvClose]
      (Err (ErrApi (ApiError.mk (Response.RequestMethod response)
                      (Response.RequestURL response) 420 enhanceYourCalmDetails)))
| LastMalformed response err :
    Response.StatusCode response = 429 ->
    Go.Atoi (Header_Get (Response.Header response) traktHeaderKeyRetryAfter) = Err err ->
    lastRound request (inr response) [EvClose]
      (Err (ErrWrap "failure parsing the value of trakt header Retry-After to integer"
              (ErrNum err)))
| LastUnexpected response :
    Response.StatusCode response ∉ [200; 201; 204; 404; 420; 429] ->
    lastRound request (inr response) [EvClose]
      (Err (ErrApi (ApiError.mk (Response.RequestMethod response)
                      (Response.RequestURL response) (Response.StatusCode response)
                      ("unexpected status code "
                       +:+ Go.Itoa (Response.StatusCode response))))).

(** ** Counting on traces and scripts *)

(** The response bodies closed. *)
Fixpoint closes (tr : list Event) : nat :=
  match tr with
  | [] => O
  | EvClose :: tr' => S (closes tr')
  | _ :: tr' => closes tr'
  end.

(** The responses among the outcomes of the peer. *)
Fixpoint responsesIn (outcomes : list (string + Response.t)) : nat :=
  match outcomes with
  | [] => O
  | inr _ :: outcomes' => S (responsesIn outcomes')
  | inl _ :: outcomes' => responsesIn outcomes'
  end.

(** One for a response handed back to the caller. *)
Definition handedBack {A} (r : result error A) : nat :=
  match r with Ok _ => 1%nat | Err _ => O end.

(** ** The requests of the get operations *)

Definition queryRequest (config : TraktConfig) (q : Query) : requestFields.t :=
  let get endpoint :=
    requestFields.mk http_MethodGet traktPathBaseAPI endpoint http_NoBody
      (defaultApiHeaders config) in
  match q with
  | DoWatchlistGet => get traktPathWatchlist
  | DoListGet listId => get (traktPathUserListItems (username config) listId)
  | DoListsMetadataGet => get (traktPathUserList (username config) "")
  | DoRatingsGet => get traktPathRatings
  | DoHistoryGet itemType itemId =>
      get (traktPathHistoryGet (itemType +:+ "s") itemId "1000")
  end.

(** What a get operation does with the response of its request. *)
Definition deliver `{Externals} (q : Query) (response : Response.t)
  : M (result error Answer) :=
  match q with
  | DoWatchlistGet =>
      answer AList (readTraktListResponse (Response.Body response)
                      (mkTraktList (mkTraktIds "" "watchlist") true []))
  | DoListGet listId =>
      answer AList
        (if Response.StatusCode response =? http_StatusNotFound then
           ret (Err (ErrApi (ApiError.mk (Response.RequestMethod response)
                               (Response.RequestURL response)
                               (Response.StatusCode response)
                               ("list with id " +:+ listId +:+ " could not be found"))))
         else
           readTraktListResponse (Response.Body response)
             (mkTraktList (mkTraktIds "" listId) false []))
  | DoListsMetadataGet => answer ALists (readTraktLists (Response.Body response))
  | DoRatingsGet | DoHistoryGet _ _ => answer AItems (readTraktItems (Response.Body response))
  end.

(** The four headers of an authenticated call, as a request carries them. *)
Definition carriesApiHeaders (config : TraktConfig) (q : Wire) : Prop :=
  Header_Get (wireHeader q) traktHeaderKeyApiVersion = "2"
  /\ Header_Get (wireHeader q) traktHeaderKeyContentType = "application/json"
  /\ Header_Get (wireHeader q) traktHeaderKeyApiKey = ClientId config
  /\ Header_Get (wireHeader q) traktHeaderKeyAuthorization
     = "Bearer " +:+ accessToken config.

(** The method a mutating operation uses. *)
Definition methodOf (op : Mutation) : string :=
  match op with
  | DoListRemove _ => http_MethodDelete
  | _ => http_MethodPost
  end.

(** The mutating operations that decode the body of the response. *)
Definition readsReceipt (op : Mutation) : bool :=
  match op with
  | DoListAdd _ _ | DoListRemove _ => false
  | _ => true
  end.

(** ** Reading runs of the list fetcher *)





(** The schedule in which the [n] goroutines run one after another, the
    main loop then receives [k] lists, and only then [doneChan] is closed
    and taken. *)
Definition orderly (n k : nat) : list Action :=
  replicate n (RunTask 0) ++ replicate k RecvOut ++ [CloseDone; RecvDone].


(** * Signing in *)

(** Modelled from the spec: the bodies and responses of the two calls of the
    device-code flow are declared in the package [entities], not under src/;
    the fields are those trakt.go reads and writes. *)
Module authEntities.
Record TraktAuthCodesBody := mkCodesBody {
  CodesClientID : string }.
Record TraktAuthCodesResponse := mkCodesResponse {
  DeviceCode : string;
  UserCode : string }.
Record TraktAuthTokensBody := mkTokensBody {
  Code : string;
  TokensClientID : string;
  TokensClientSecret : string }.
Record TraktAuthTokensResponse := mkTokensResponse {
  AccessToken : string }.
End authEntities.
Import authEntities.

(** The library calls of the sign-in, kept abstract like the others. *)
Class AuthExternals := {
  (** [cookiejar.New(nil)]: its error, if any. *)
  cookiejar_New_error : option string;
  json_Marshal_TraktAuthCodesBody : TraktAuthCodesBody -> result string string;
  json_Marshal_TraktAuthTokensBody : TraktAuthTokensBody -> result string string;
  json_Decode_TraktAuthCodesResponse : string -> result string TraktAuthCodesResponse;
  json_Decode_TraktAuthTokensResponse : string -> result string TraktAuthTokensResponse }.

Definition traktFormKeyCode := "code".
Definition traktFormKeyUserLogIn := "user[login]".
Definition traktFormKeyUserPassword := "user[password]".
Definition traktFormKeyUserRemember := "user[remember_me]".

Definition traktPathActivate := "/activate".
Definition traktPathAuthCodes := "/oauth/device/code".
Definition traktPathAuthSignIn := "/auth/signin".
Definition traktPathAuthTokens := "/oauth/device/token".

Definition selectorSignIn := "#new_user > input[name=authenticity_token]".
Definition selectorActivate :=
  "#auth-form-wrapper > form.form-signin > input[name=authenticity_token]".
Definition selectorAuthorize :=
  "#auth-form-wrapper > div.form-signin.less-top > div > form:nth-child(1) > "
  +:+ "input[name=authenticity_token]:nth-child(1)".

(** [strings.Join] *)
Fixpoint strings_Join (elems : list string) (sep : string) : string :=
  match elems with
  | [] => ""
  | [e] => e
  | e :: elems' => e +:+ sep +:+ strings_Join elems' sep
  end.

Fixpoint stringSliceContains (slice : list string) (element : string) : bool :=
  match slice with
  | [] => false
  | s :: slice' => if String.eqb s element then true else stringSliceContains slice' element
  end.

Definition validSyncModes : list string :=
  [traktSyncModeFull; traktSyncModeAddOnly; traktSyncModeDryRun].

Definition formHeaders (encodedData : string) : gmap string string :=
  <[traktHeaderKeyContentType := "application/x-www-form-urlencoded"]>
  (<[traktHeaderKeyContentLength := Go.Itoa (Z.of_nat (String.length encodedData))]> ∅).

Section SignIn.
Context `{Externals} `{AuthExternals}.

Definition readAuthCodesResponse (body : string) : M (result error TraktAuthCodesResponse) :=
  let r := wrap "failure unmarshalling trakt auth codes response"
             (lib (json_Decode_TraktAuthCodesResponse body)) in
  let! _ := Body_Close in
  ret r.

Definition readAuthTokensResponse (body : string) : M (result error TraktAuthTokensResponse) :=
  let r := wrap "failure unmarshalling trakt auth tokens response"
             (lib (json_Decode_TraktAuthTokensResponse body)) in
  let! _ := Body_Close in
  ret r.

Definition BrowseSignIn : M (result error string) :=
  try! response := doRequest (requestFields.mk http_MethodGet traktPathBaseBrowser
                                traktPathAuthSignIn http_NoBody ∅) in
  ret (lib (scrapeSelectionAttribute (Response.Body response) clientNameTrakt
              selectorSignIn "value")).

Definition SignIn (config : TraktConfig) (authenticityToken : string)
  : M (result error unit) :=
  let data : gmap string string :=
    <[traktFormKeyUserRemember := "1"]>
    (<[traktFormKeyUserPassword := Password config]>
    (<[traktFormKeyUserLogIn := Email config]>
    (<[traktFormKeyAuthenticityToken := authenticityToken]> ∅))) in
  let encodedData := url_Values_Encode data in
  try! response := doRequest (requestFields.mk http_MethodPost traktPathBaseBrowser
                                traktPathAuthSignIn encodedData
                                (formHeaders encodedData)) in
  let! _ := Body_Close in
  ret (Ok tt).

Definition BrowseActivate : M (result error string) :=
  try! response := doRequest (requestFields.mk http_MethodGet traktPathBaseBrowser
                                traktPathActivate http_NoBody ∅) in
  ret (lib (scrapeSelectionAttribute (Response.Body response) clientNameTrakt
              selectorActivate "value")).

Definition Activate (userCode authenticityToken : string) : M (result error string) :=
  let data : gmap string string :=
    <[traktFormKeyCommit := "Continue"]>
    (<[traktFormKeyCode := userCode]>
    (<[traktFormKeyAuthenticityToken := authenticityToken]> ∅)) in
  let encodedData := url_Values_Encode data in
  try! response := doRequest (requestFields.mk http_MethodPost traktPathBaseBrowser
                                traktPathActivate encodedData
                                (formHeaders encodedData)) in
  ret (lib (scrapeSelectionAttribute (Response.Body response) clientNameTrakt
              selectorAuthorize "value")).

Definition GetAccessToken (config : TraktConfig) (deviceCode : string)
  : M (result error TraktAuthTokensResponse) :=
  check! body := lib (json_Marshal_TraktAuthTokensBody
                        (mkTokensBody deviceCode (ClientId config) (ClientSecret config))) in
  try! response := doRequest (requestFields.mk http_MethodPost traktPathBaseAPI
                                traktPathAuthTokens body
                                (<[traktHeaderKeyContentType := "application/json"]> ∅)) in
  readAuthTokensResponse (Response.Body response).

Definition GetAuthCodes (config : TraktConfig) : M (result error TraktAuthCodesResponse) :=
  check! body := lib (json_Marshal_TraktAuthCodesBody (mkCodesBody (ClientId config))) in
  try! response := doRequest (requestFields.mk http_MethodPost traktPathBaseAPI
                                traktPathAuthCodes body (defaultApiHeaders config)) in
  readAuthCodesResponse (Response.Body response).

(** One step of [hydrate]: on an error the sequence ends with the error
    wrapped under the name of the step. *)
Definition stepOf {A} (config : TraktConfig) (msg : string) (m : M (result error A))
    (k : A -> M (TraktConfig * result error unit))
  : M (TraktConfig * result error unit) :=
  let! r := m in
  match r with
  | Err err => ret (config, Err (ErrWrap msg err))
  | Ok a => k a
  end.

(** The configuration of the client is passed in and comes back: with the
    username once [ActivateAuthorize] has set it, and with the access token
    when all seven steps have succeeded. *)
Definition hydrate (config : TraktConfig) : M (TraktConfig * result error unit) :=
  stepOf config "failure generating auth codes" (GetAuthCodes config) (fun authCodes =>
  stepOf config "failure simulating browse to the trakt sign in page" BrowseSignIn
    (fun authenticityToken =>
  stepOf config "failure simulating trakt sign in form submission"
    (SignIn config authenticityToken) (fun _ =>
  stepOf config "failure simulating browse to the trakt device activation page"
    BrowseActivate (fun authenticityToken =>
  stepOf config "failure simulating trakt device activation form submission"
    (Activate (UserCode authCodes) authenticityToken) (fun authenticityToken =>
  let! authorized := ActivateAuthorize config authenticityToken in
  let config := fst authorized in
  match snd authorized with
  | Err err =>
      ret (config, Err (ErrWrap "failure simulating trakt api app allowlisting" err))
  | Ok _ =>
      stepOf config "failure exchanging trakt device code for access token"
        (GetAccessToken config (DeviceCode authCodes)) (fun authTokens =>
      ret (mkTraktConfig (AccessToken authTokens) (ClientId config) (ClientSecret config)
             (Email config) (Password config) (username config) (SyncMode config),
           Ok tt))
  end))))).

(** [NewTraktClient]: the client is its configuration after the sign-in. *)
Definition NewTraktClient (config : TraktConfig) : M (result error TraktConfig) :=
  match cookiejar_New_error with
  | Some err => ret (Err (ErrWrap "failure creating cookie jar" (ErrLib err)))
  | None =>
      if negb (stringSliceContains validSyncModes (SyncMode config)) then
        ret (Err (ErrNew ("failure using trakt sync mode " +:+ SyncMode config
                          +:+ ": valid modes are " +:+ strings_Join validSyncModes ", ")))
      else
        let! hydrated := hydrate config in
        match snd hydrated with
        | Err err => ret (Err (ErrWrap "failure hydrating trakt client" err))
        | Ok _ => ret (Ok (fst hydrated))
        end
  end.

End SignIn.

(** The names under which [hydrate] reports the failure of a step. *)
Definition hydrateFailures : list string :=
  ["failure generating auth codes";
   "failure simulating browse to the trakt sign in page";
   "failure simulating trakt sign in form submission";
   "failure simulating browse to the trakt device activation page";
   "failure simulating trakt device activation form submission";
   "failure simulating trakt api app allowlisting";
   "failure exchanging trakt device code for access token"].

(** The method and URL of each step of [hydrate], in order. *)
Definition hydrateSteps : list (string * string) :=
  [(http_MethodPost, traktPathBaseAPI +:+ traktPathAuthCodes);
   (http_MethodGet, traktPathBaseBrowser +:+ traktPathAuthSignIn);
   (http_MethodPost, traktPathBaseBrowser +:+ traktPathAuthSignIn);
   (http_MethodGet, traktPathBaseBrowser +:+ traktPathActivate);
   (http_MethodPost, traktPathBaseBrowser +:+ traktPathActivate);
   (http_MethodPost, traktPathBaseBrowser +:+ traktPathActivateAuthorize);
   (http_MethodPost, traktPathBaseAPI +:+ traktPathAuthTokens)].

Definition target (q : Wire) : string * string := (wireMethod q, wireURL q).

Definition mockAuthExternals : AuthExternals :=
  {| cookiejar_New_error := None;
     json_Marshal_TraktAuthCodesBody := fun _ => Ok "{}";
     json_Marshal_TraktAuthTokensBody := fun _ => Ok "{}";
     json_Decode_TraktAuthCodesResponse := fun _ => Ok (mkCodesResponse "device" "USER");
     json_Decode_TraktAuthTokensResponse := fun body => Ok (mkTokensResponse body) |}.

(** Every step of [hydrate] so far has sent its request some times, at
    most five: [k] steps, from the world [w0] to the world [w]. *)
Definition progress (k : nat) (w0 w : World) : Prop :=
  exists counts : list nat,
    length counts = k
    /\ Forall (fun m => (m <= 5)%nat) counts
    /\ map target (sent (trace w))
       = map target (sent (trace w0)) ++ concat (zip_with replicate counts hydrateSteps).

(** One for the response [ListGet] leaves open: the 404 it reports. *)
Definition leftOpen (q : Query) (r : result error Response.t) : nat :=
  match q, r with
  | DoListGet _, Ok response =>
      if Response.StatusCode response =? http_StatusNotFound then 1%nat else O
  | _, _ => O
  end.

(** An instance under which no request can be built. *)
Definition refusingExternals : Externals :=
  {| http_NewRequest_error := fun _ _ => Some "net/url: invalid control character in URL";
     url_String := fun url => url;
     json_Marshal_TraktListBody := fun _ => Ok "{}";
     json_Marshal_TraktListAddBody := fun _ => Ok "{}";
     TraktResponse := unit;
     json_Decode_TraktResponse := fun _ => Ok tt;
     json_Decode_TraktItems := fun _ => Ok [];
     json_Decode_TraktLists := fun _ => Ok [];
     scrapeSelectionAttribute := fun body _ _ _ => Ok body;
     url_Values_Encode := fun _ => "commit=Yes";
     time_Now_RFC1123 := "Mon, 02 Jan 2006 15:04:05 MST" |}.

(** A page whose body is what the scraper is to find. *)
Definition page (found : string) : Response.t :=
  Response.mk 200 ∅ http_MethodGet traktPathBaseBrowser found.

(** * Properties *)

Section EngineFacts.
Context `{Externals}.

Lemma readAll_fresh (r : reusableReader) :
  backBuf r = "" -> readAll r = (readBuf r, r).
Proof.
  destruct r as [rb bb]; simpl; intros ->. reflexivity.
Qed.

Lemma client_Do_fresh (request : Request.t) o s tr :
  backBuf (Request.Body request) = "" ->
  client_Do request (mkWorld (o :: s) tr)
  = (mkWorld s (tr ++ [EvSend (wire request)]), (request, o)).
Proof.
  intros Hf. unfold client_Do.
  rewrite (readAll_fresh _ Hf). cbn [script trace fst snd]. destruct request; reflexivity.
Qed.

Lemma client_Do_fresh_nil (request : Request.t) tr :
  backBuf (Request.Body request) = "" ->
  client_Do request (mkWorld [] tr)
  = (mkWorld [] (tr ++ [EvSend (wire request)]), (request, inl "connection refused")).
Proof.
  intros Hf. unfold client_Do.
  rewrite (readAll_fresh _ Hf). cbn [script trace fst snd]. destruct request; reflexivity.
Qed.

(** One round of the loop on a rate-limited answer. *)
Lemma loop_rate_limited k request r n s tr :
  backBuf (Request.Body request) = "" ->
  rateLimited r n ->
  doRequest_loop (S k) request (mkWorld (inr r :: s) tr)
  = doRequest_loop k request (mkWorld s (tr ++ roundEvents request (r, n))).
Proof.
  intros Hf [Hc Ha]. simpl. unfold bind at 1.
  rewrite (client_Do_fresh _ _ _ _ Hf). simpl.
  rewrite Hc. simpl. unfold bind, Body_Close, logger, time_Sleep, emit. simpl.
  rewrite Ha. simpl. rewrite <- !app_assoc. reflexivity.
Qed.

Lemma sent_app tr1 tr2 : sent (tr1 ++ tr2) = sent tr1 ++ sent tr2.
Proof.
  induction tr1 as [|e tr1 IH]; simpl; [reflexivity|].
  destruct e; simpl; rewrite IH; reflexivity.
Qed.

Lemma net_app tr1 tr2 : net (tr1 ++ tr2) = net tr1 ++ net tr2.
Proof.
  induction tr1 as [|e tr1 IH]; simpl; [reflexivity|].
  destruct e; simpl; rewrite IH; reflexivity.
Qed.

Lemma net_rounds request rns :
  net (flat_map (roundEvents request) rns) = rounds (wire request) rns.
Proof.
  induction rns as [|p rns IH]; simpl; [reflexivity|].
  unfold rounds in IH. rewrite IH. reflexivity.
Qed.

Lemma sent_rounds request rns :
  sent (flat_map (roundEvents request) rns) = replicate (length rns) (wire request).
Proof.
  induction rns as [|p rns IH]; simpl; [reflexivity|].
  rewrite IH. reflexivity.
Qed.

(** A run of rate-limited answers, as long as rounds are left. *)
Lemma loop_rate_limited_run rns : forall k request s tr,
  backBuf (Request.Body request) = "" ->
  allRateLimited rns ->
  (length rns <= k)%nat ->
  doRequest_loop k request (mkWorld (answers rns ++ s) tr)
  = doRequest_loop (k - length rns) request
      (mkWorld s (tr ++ flat_map (roundEvents request) rns)).
Proof.
  induction rns as [|[r n] rns IH]; intros k request s tr Hf Hall Hk.
  - simpl. rewrite Nat.sub_0_r, app_nil_r. reflexivity.
  - destruct k as [|k]; [simpl in Hk; lia|].
    inversion Hall as [|? ? Hr Hall']; subst.
    simpl answers. simpl app.
    rewrite (loop_rate_limited k request r n _ _ Hf Hr).
    rewrite (IH k request s _ Hf Hall') by (simpl in Hk; lia).
    simpl length. simpl Nat.sub. simpl flat_map. rewrite <- app_assoc. reflexivity.
Qed.

Lemma doRequest_builds rf w :
  builds rf -> doRequest rf w = doRequest_loop 5 (requestFor rf) w.
Proof.
  intros Hb. unfold doRequest, http_NewRequest. unfold builds in Hb. rewrite Hb.
  reflexivity.
Qed.

Lemma requestFor_fresh rf : backBuf (Request.Body (requestFor rf)) = "".
Proof. reflexivity. Qed.

Lemma loop_last k request o evs res s tr :
  backBuf (Request.Body request) = "" ->
  lastRound request o evs res ->
  doRequest_loop (S k) request (mkWorld (o :: s) tr)
  = (mkWorld s (tr ++ EvSend (wire request) :: evs), res).
Proof.
  intros Hf Hl. simpl. unfold bind at 1.
  rewrite (client_Do_fresh _ _ _ _ Hf). cbn [fst snd].
  destruct Hl as [err|response Hc|response Hc|response err Hc Ha|response Hc].
  - reflexivity.
  - unfold ret.
    rewrite !elem_of_cons in Hc.
    destruct Hc as [->|[->|[->|[->|Hc]]]]; try reflexivity.
    inversion Hc.
  - rewrite Hc. cbn. rewrite <- app_assoc. reflexivity.
  - rewrite Hc. cbn. rewrite Ha. cbn. rewrite <- app_assoc. reflexivity.
  - rewrite !not_elem_of_cons in Hc.
    destruct Hc as (H1 & H2 & H3 & H4 & H5 & H6 & _).
    apply Z.eqb_neq in H1, H2, H3, H4, H5, H6.
    unfold http_StatusOK, http_StatusCreated, http_StatusNoContent,
      http_StatusNotFound, traktStatusCodeEnhanceYourCalm, http_StatusTooManyRequests.
    rewrite H1, H2, H3, H4, H5, H6. cbn. rewrite <- app_assoc. reflexivity.
Qed.

(** Every outcome either ends the call or is a rate-limited answer. *)
Lemma outcome_cases request (o : string + Response.t) :
  (exists evs res, lastRound request o evs res)
  \/ (exists r n, o = inr r /\ rateLimited r n).
Proof.
  destruct o as [err|r].
  - left. eexists _, _. constructor.
  - destruct (decide (Response.StatusCode r ∈ [200; 201; 204; 404])) as [Hs|Hs].
    { left. eexists _, _. apply LastSuccess. exact Hs. }
    destruct (decide (Response.StatusCode r = 420)) as [Hc|Hc].
    { left. eexists _, _. apply LastCalm. exact Hc. }
    destruct (decide (Response.StatusCode r = 429)) as [Hr|Hr].
    + destruct (Go.Atoi (Header_Get (Response.Header r) traktHeaderKeyRetryAfter))
        as [n|err] eqn:Ha.
      * right. exists r, n. split; [reflexivity|]. split; assumption.
      * left. eexists _, _. eapply LastMalformed; eassumption.
    + left. eexists _, _. apply LastUnexpected.
      rewrite !not_elem_of_cons in *. 
      destruct Hs as (H1 & H2 & H3 & H4 & _). repeat split; try assumption.
      apply not_elem_of_nil.
Qed.

Lemma lastRound_quiet request o evs res :
  lastRound request o evs res -> sent evs = [] /\ net evs = [].
Proof. destruct 1; split; reflexivity. Qed.

Lemma loop_nil k request tr :
  backBuf (Request.Body request) = "" ->
  doRequest_loop (S k) request (mkWorld [] tr)
  = (mkWorld [] (tr ++ [EvSend (wire request)]),
     Err (ErrWrap ("error sending http request " +:+ Request.Method request
                   +:+ ", " +:+ url_String (Request.URL request))
            (ErrTransport "connection refused"))).
Proof.
  intros Hf. simpl. unfold bind at 1.
  rewrite (client_Do_fresh_nil _ _ Hf). reflexivity.
Qed.

(** The trace only grows, and a round starts by sending the request. *)
Lemma loop_trace k : forall request w,
  backBuf (Request.Body request) = "" ->
  exists more,
    trace (fst (doRequest_loop k request w)) = trace w ++ more
    /\ (forall k', k = S k' -> exists more', more = EvSend (wire request) :: more').
Proof.
  induction k as [|k IH]; intros request [sc tr] Hf.
  - exists []. simpl. rewrite app_nil_r. split; [reflexivity|]. discriminate.
  - destruct sc as [|o s].
    + rewrite (loop_nil _ _ _ Hf). simpl. eexists. split; [reflexivity|]. eauto.
    + destruct (outcome_cases request o) as [(evs & res & Hl)|(r & n & -> & Hr)].
      * rewrite (loop_last _ _ _ _ _ _ _ Hf Hl). simpl. eexists. split; [reflexivity|]. eauto.
      * rewrite (loop_rate_limited _ _ _ _ _ _ Hf Hr).
        destruct (IH request (mkWorld s (tr ++ roundEvents request (r, n))) Hf)
          as (more & -> & _).
        simpl. rewrite <- app_assoc. simpl. eexists. split; [reflexivity|]. eauto.
Qed.

(** What goes out is the same request every time, at most once per round,
    and each time one outcome of the peer is used up. *)
Lemma loop_sends k : forall request w,
  backBuf (Request.Body request) = "" ->
  exists m : nat,
    (m <= k)%nat /\ (k <> O -> m <> O)
    /\ sent (trace (fst (doRequest_loop k request w)))
       = sent (trace w) ++ replicate m (wire request)
    /\ script (fst (doRequest_loop k request w)) = drop m (script w).
Proof.
  induction k as [|k IH]; intros request [sc tr] Hf.
  - exists O. simpl. rewrite app_nil_r. repeat split; try reflexivity; lia.
  - destruct sc as [|o s].
    + rewrite (loop_nil _ _ _ Hf). exists 1%nat. simpl.
      rewrite sent_app. simpl. repeat split; try reflexivity; lia.
    + destruct (outcome_cases request o) as [(evs & res & Hl)|(r & n & -> & Hr)].
      * rewrite (loop_last _ _ _ _ _ _ _ Hf Hl). exists 1%nat. simpl.
        rewrite sent_app. simpl. destruct (lastRound_quiet _ _ _ _ Hl) as [-> _].
        repeat split; try reflexivity; lia.
      * rewrite (loop_rate_limited _ _ _ _ _ _ Hf Hr).
        destruct (IH request (mkWorld s (tr ++ roundEvents request (r, n))) Hf)
          as (m & Hm & _ & Hs & Hd).
        exists (S m). rewrite Hs, Hd. simpl. rewrite sent_app. simpl.
        rewrite <- app_assoc. simpl. repeat split; try reflexivity; lia.
Qed.

Lemma seconds_waited n :
  n <= 9223372036 -> n * Go.Second <= Go.waited (Go.seconds n).
Proof.
  intros Hn. unfold Go.waited, Go.seconds, Go.wrap64, Go.Second.
  destruct (Z_lt_le_dec n 0) as [Hneg|Hpos]; [lia|].
  rewrite Z.mod_small by lia. lia.
Qed.

(** After at most four rate-limited answers, an outcome that ends the call. *)
Lemma doRequest_last rf rns o evs res rest :
  builds rf ->
  allRateLimited rns ->
  (length rns <= 4)%nat ->
  lastRound (requestFor rf) o evs res ->
  doRequest rf (mkWorld (answers rns ++ o :: rest) [])
  = (mkWorld rest (flat_map (roundEvents (requestFor rf)) rns
                   ++ EvSend (wireOf rf) :: evs), res).
Proof.
  intros Hb Hall Hlen Hl.
  rewrite (doRequest_builds _ _ Hb).
  rewrite (loop_rate_limited_run rns 5%nat _ _ _ (requestFor_fresh rf) Hall) by lia.
  destruct (5 - length rns)%nat as [|k] eqn:Hk; [lia|].
  rewrite (loop_last _ _ _ _ _ _ _ (requestFor_fresh rf) Hl). reflexivity.
Qed.

Lemma doRequest_last_net rf rns o evs res rest :
  builds rf ->
  allRateLimited rns ->
  (length rns <= 4)%nat ->
  lastRound (requestFor rf) o evs res ->
  net (trace (fst (doRequest rf (mkWorld (answers rns ++ o :: rest) []))))
  = rounds (wireOf rf) rns ++ [NSend (wireOf rf)].
Proof.
  intros Hb Hall Hlen Hl. rewrite (doRequest_last _ _ _ _ _ _ Hb Hall Hlen Hl).
  simpl. rewrite net_app, net_rounds. simpl.
  destruct (lastRound_quiet _ _ _ _ Hl) as [_ ->]. reflexivity.
Qed.

Lemma doRequest_last_sent rf rns o evs res rest :
  builds rf ->
  allRateLimited rns ->
  (length rns <= 4)%nat ->
  lastRound (requestFor rf) o evs res ->
  sent (trace (fst (doRequest rf (mkWorld (answers rns ++ o :: rest) []))))
  = replicate (S (length rns)) (wireOf rf).
Proof.
  intros Hb Hall Hlen Hl. rewrite (doRequest_last _ _ _ _ _ _ Hb Hall Hlen Hl).
  simpl trace. rewrite sent_app, sent_rounds. simpl.
  destruct (lastRound_quiet _ _ _ _ Hl) as [-> _].
  change (wireOf rf :: replicate (length rns) (wireOf rf))
    with (replicate (S (length rns)) (wireOf rf)).
  rewrite replicate_S_end. reflexivity.
Qed.

(** An absent header reads as the empty string, which is no integer. *)
Lemma Retry_After_absent (r : Response.t) :
  Response.Header r !! traktHeaderKeyRetryAfter = None ->
  forall n, Go.Atoi (Header_Get (Response.Header r) traktHeaderKeyRetryAfter) <> Ok n.
Proof.
  intros Hnone n. unfold Header_Get.
  change (Go.CanonicalMIMEHeaderKey traktHeaderKeyRetryAfter)
    with traktHeaderKeyRetryAfter.
  rewrite Hnone. discriminate.
Qed.

(** Rate-limited answers within the range of a duration.  On a 429 with a
    [Retry-After] that reads as the integer [n], the engine sleeps for
    [time.Duration(n) * time.Second], which is at least [n] seconds as long
    as [n <= 9223372036] (the seconds a [time.Duration] can hold), and,
    while fewer than five attempts were made, calls the HTTP client again
    with the request.  No call of [doRequest] makes more than five attempts;
    after five rate-limited answers in a row it returns the max-retries
    error, no response having been handed back. *)
Theorem doRequest_rate_limit_retry
    (rf : requestFields.t) (rns : list (Response.t * Z))
    (rest : list (string + Response.t)) :
  builds rf ->
  allRateLimited rns ->
  let run := doRequest rf (mkWorld (answers rns ++ rest) []) in
  Forall (fun p => snd p <= 9223372036 ->
                   snd p * Go.Second <= Go.waited (Go.seconds (snd p))) rns
  /\ ((length rns <= 4)%nat ->
      exists more,
        net (trace (fst run)) = rounds (wireOf rf) rns ++ NSend (wireOf rf) :: more)
  /\ (exists m, (m <= 5)%nat /\ sent (trace (fst run)) = replicate m (wireOf rf))
  /\ (length rns = 5%nat ->
      snd run = Err (ErrNew ("reached max retry attempts for "
                             +:+ methodOrGet (requestFields.Method rf) +:+ " "
                             +:+ url_String (requestFields.BasePath rf
                                             +:+ requestFields.Endpoint rf)))
      /\ net (trace (fst run)) = rounds (wireOf rf) rns
      /\ script (fst run) = rest).
Proof.
  intros Hb Hall run. subst run.
  rewrite (doRequest_builds _ _ Hb).
  split; [|split; [|split]].
  - apply Forall_forall. intros p _. apply seconds_waited.
  - intros Hlen.
    rewrite (loop_rate_limited_run rns 5%nat _ _ _ (requestFor_fresh rf) Hall) by lia.
    destruct (loop_trace (5 - length rns) (requestFor rf)
                (mkWorld rest ([] ++ flat_map (roundEvents (requestFor rf)) rns))
                (requestFor_fresh rf)) as (more & Htr & Hfirst).
    destruct (5 - length rns)%nat as [|k] eqn:Hk; [lia|].
    destruct (Hfirst k eq_refl) as (more' & ->).
    rewrite Htr. simpl trace. rewrite net_app, net_rounds. simpl.
    exists (net more'). reflexivity.
  - destruct (loop_sends 5 (requestFor rf) (mkWorld (answers rns ++ rest) [])
                (requestFor_fresh rf)) as (m & Hm & _ & Hs & _).
    exists m. split; [exact Hm|]. exact Hs.
  - intros Hlen.
    rewrite (loop_rate_limited_run rns 5%nat _ _ _ (requestFor_fresh rf) Hall) by lia.
    rewrite Hlen. simpl. rewrite net_rounds. repeat split; reflexivity.
Qed.

(** C3.  A response with the account-limit status 420 ends the call with the
    account-limit error and is never retried: no request goes out after it
    and the peer's next outcome is left unused.  When it answers the first
    attempt, exactly one request was sent (the case [rns = []]); in general
    one per rate-limited answer before it, and the one it answers. *)
Theorem doRequest_enhance_your_calm
    (rf : requestFields.t) (rns : list (Response.t * Z)) (r : Response.t)
    (rest : list (string + Response.t)) :
  builds rf ->
  allRateLimited rns ->
  (length rns <= 4)%nat ->
  Response.StatusCode r = traktStatusCodeEnhanceYourCalm ->
  let run := doRequest rf (mkWorld (answers rns ++ inr r :: rest) []) in
  snd run = Err (ErrApi (ApiError.mk (Response.RequestMethod r) (Response.RequestURL r)
                           420 enhanceYourCalmDetails))
  /\ sent (trace (fst run)) = replicate (S (length rns)) (wireOf rf)
  /\ net (trace (fst run)) = rounds (wireOf rf) rns ++ [NSend (wireOf rf)]
  /\ script (fst run) = rest.
Proof.
  intros Hb Hall Hlen Hc run. subst run.
  assert (Hl : lastRound (requestFor rf) (inr r) [EvClose]
                 (Err (ErrApi (ApiError.mk (Response.RequestMethod r)
                                 (Response.RequestURL r) 420 enhanceYourCalmDetails))))
    by (apply LastCalm; exact Hc).
  rewrite (doRequest_last_sent _ _ _ _ _ _ Hb Hall Hlen Hl).
  rewrite (doRequest_last_net _ _ _ _ _ _ Hb Hall Hlen Hl).
  rewrite (doRequest_last _ _ _ _ _ _ Hb Hall Hlen Hl).
  repeat split; reflexivity.
Qed.

(** C6.  Of the responses [doRequest] receives, those with status 200, 201,
    204 or 404 are handed to the caller as they are; one whose status is
    none of these, nor 420, nor 429, ends the call with an [ApiError] that
    carries the method and the URL of the response's request, the status
    code and the message "unexpected status code <code>". *)
Theorem doRequest_classification
    (rf : requestFields.t) (rns : list (Response.t * Z)) (r : Response.t)
    (rest : list (string + Response.t)) :
  builds rf ->
  allRateLimited rns ->
  (length rns <= 4)%nat ->
  let run := doRequest rf (mkWorld (answers rns ++ inr r :: rest) []) in
  let code := Response.StatusCode r in
  (code ∈ [200; 201; 204; 404] -> snd run = Ok r)
  /\ (code ∉ [200; 201; 204; 404; 420; 429] ->
      snd run = Err (ErrApi (ApiError.mk (Response.RequestMethod r)
                               (Response.RequestURL r) code
                               ("unexpected status code " +:+ Go.Itoa code)))).
Proof.
  intros Hb Hall Hlen run code. subst run code. split; intros Hc.
  - rewrite (doRequest_last _ _ _ _ _ _ Hb Hall Hlen (LastSuccess _ r Hc)). reflexivity.
  - rewrite (doRequest_last _ _ _ _ _ _ Hb Hall Hlen (LastUnexpected _ r Hc)). reflexivity.
Qed.

(** C8.  A 429 response whose [Retry-After] does not read as an integer (an
    absent header reads as the empty string, see [Retry_After_absent]) ends
    the call at once with the parse error that names the header: no sleep
    follows it, no request goes out after it, and no duration is made up. *)
Theorem doRequest_retry_after_malformed
    (rf : requestFields.t) (rns : list (Response.t * Z)) (r : Response.t)
    (rest : list (string + Response.t)) :
  builds rf ->
  allRateLimited rns ->
  (length rns <= 4)%nat ->
  Response.StatusCode r = http_StatusTooManyRequests ->
  (forall n, Go.Atoi (Header_Get (Response.Header r) traktHeaderKeyRetryAfter) <> Ok n) ->
  let run := doRequest rf (mkWorld (answers rns ++ inr r :: rest) []) in
  (exists err,
      Go.Atoi (Header_Get (Response.Header r) traktHeaderKeyRetryAfter) = Err err
      /\ snd run
         = Err (ErrWrap "failure parsing the value of trakt header Retry-After to integer"
                  (ErrNum err)))
  /\ net (trace (fst run)) = rounds (wireOf rf) rns ++ [NSend (wireOf rf)]
  /\ script (fst run) = rest.
Proof.
  intros Hb Hall Hlen Hc Hbad run. subst run.
  destruct (Go.Atoi (Header_Get (Response.Header r) traktHeaderKeyRetryAfter))
    as [n|err] eqn:Ha; [exfalso; exact (Hbad n eq_refl)|].
  pose proof (LastMalformed (requestFor rf) r err Hc Ha) as Hl.
  rewrite (doRequest_last_net _ _ _ _ _ _ Hb Hall Hlen Hl).
  rewrite (doRequest_last _ _ _ _ _ _ Hb Hall Hlen Hl).
  split; [exists err; split; reflexivity|]. split; reflexivity.
Qed.

End EngineFacts.

(** * The add-body mapping *)

Section Mapping.

Let addItem (res : TraktListBody) (item : TraktItem) : TraktListBody :=
  if String.eqb (Type_ item) TraktItemTypeMovie then
    mkTraktListBody (Movies res ++ [Movie item]) (Shows res) (Episodes res)
  else if String.eqb (Type_ item) TraktItemTypeShow then
    mkTraktListBody (Movies res) (Shows res ++ [Show item]) (Episodes res)
  else if String.eqb (Type_ item) TraktItemTypeEpisode then
    mkTraktListBody (Movies res) (Shows res) (Episodes res ++ [Episode item])
  else res.

Lemma fold_addItem items : forall res,
  fold_left addItem items res
  = mkTraktListBody
      (Movies res ++ map Movie (List.filter (hasType TraktItemTypeMovie) items))
      (Shows res ++ map Show (List.filter (hasType TraktItemTypeShow) items))
      (Episodes res ++ map Episode (List.filter (hasType TraktItemTypeEpisode) items)).
Proof.
  induction items as [|item items IH]; intros res.
  - simpl. rewrite !app_nil_r. destruct res; reflexivity.
  - simpl fold_left. rewrite IH. unfold addItem, hasType. simpl List.filter.
    destruct (String.eqb_spec (Type_ item) TraktItemTypeMovie) as [Hm|Hm].
    { rewrite Hm. simpl. rewrite <- !app_assoc. reflexivity. }
    destruct (String.eqb_spec (Type_ item) TraktItemTypeShow) as [Hs|Hs].
    { rewrite Hs. simpl. rewrite <- !app_assoc. reflexivity. }
    destruct (String.eqb_spec (Type_ item) TraktItemTypeEpisode) as [He|He].
    { simpl. rewrite <- !app_assoc. reflexivity. }
    reflexivity.
Qed.

(** The body holds, per category and in the order of the input, the payloads
    of the items tagged with it. *)
Lemma mapTraktItemsToTraktBody_filter items :
  mapTraktItemsToTraktBody items
  = mkTraktListBody
      (map Movie (List.filter (hasType TraktItemTypeMovie) items))
      (map Show (List.filter (hasType TraktItemTypeShow) items))
      (map Episode (List.filter (hasType TraktItemTypeEpisode) items)).
Proof.
  unfold mapTraktItemsToTraktBody. apply (fold_addItem items (mkTraktListBody [] [] [])).
Qed.

Lemma filter_recognized tag items :
  tag ∈ [TraktItemTypeMovie; TraktItemTypeShow; TraktItemTypeEpisode] ->
  List.filter (hasType tag) (List.filter recognized items) = List.filter (hasType tag) items.
Proof.
  intros Htag. induction items as [|item items IH]; [reflexivity|].
  simpl. destruct (recognized item) eqn:Hr; simpl.
  - rewrite IH. reflexivity.
  - rewrite IH. unfold recognized in Hr.
    apply orb_false_elim in Hr as [Hr He]. apply orb_false_elim in Hr as [Hm Hs].
    rewrite !elem_of_cons in Htag.
    destruct Htag as [->|[->|[->|Hn]]]; [rewrite Hm|rewrite Hs|rewrite He|inversion Hn];
      reflexivity.
Qed.

Lemma entries_count items :
  entries (mapTraktItemsToTraktBody items) = length (List.filter recognized items).
Proof.
  rewrite mapTraktItemsToTraktBody_filter. unfold entries. simpl.
  rewrite !length_map.
  induction items as [|item items IH]; [reflexivity|].
  cbn [List.filter]. unfold recognized at 1.
  destruct (hasType TraktItemTypeMovie item) eqn:Hm,
           (hasType TraktItemTypeShow item) eqn:Hs,
           (hasType TraktItemTypeEpisode item) eqn:He;
    cbn [orb length]; try lia;
    unfold hasType in Hm, Hs, He; exfalso;
    first [ apply String.eqb_eq in Hm; rewrite Hm in Hs, He
          | apply String.eqb_eq in Hs; rewrite Hs in He ];
    cbv in Hs, He; discriminate.
Qed.

(** C10.  An item whose type tag is none of movie, show and episode is
    dropped without an error: the body is the one of the input with such
    items left out, its three collections hold the payloads of the items
    tagged movie, show and episode, and the number of its entries is the
    number of items that carry one of the three tags. *)
Theorem mapTraktItemsToTraktBody_drops_unrecognized (items : TraktItems) :
  let body := mapTraktItemsToTraktBody items in
  mapTraktItemsToTraktBody (List.filter recognized items) = body
  /\ entries body = length (List.filter recognized items)
  /\ Movies body = map Movie (List.filter (hasType TraktItemTypeMovie) items)
  /\ Shows body = map Show (List.filter (hasType TraktItemTypeShow) items)
  /\ Episodes body = map Episode (List.filter (hasType TraktItemTypeEpisode) items).
Proof.
  intros body. subst body. split; [|split; [apply entries_count|]].
  - rewrite !mapTraktItemsToTraktBody_filter.
    rewrite !filter_recognized; [reflexivity| | |]; rewrite !elem_of_cons; auto.
  - rewrite mapTraktItemsToTraktBody_filter. repeat split; reflexivity.
Qed.

(** An item whose type tag is movie, wherever it stands in the input,
    contributes exactly one Movie entry, its Movie payload as it is, and
    nothing to the Show and Episode entries; alone, it yields a body of that
    one Movie entry. *)
Lemma mapTraktItemsToTraktBody_movie
    (before after : TraktItems) (item : TraktItem) :
  Type_ item = TraktItemTypeMovie ->
  let body := mapTraktItemsToTraktBody (before ++ item :: after) in
  Movies body
  = Movies (mapTraktItemsToTraktBody before) ++ Movie item
      :: Movies (mapTraktItemsToTraktBody after)
  /\ Shows body = Shows (mapTraktItemsToTraktBody (before ++ after))
  /\ Episodes body = Episodes (mapTraktItemsToTraktBody (before ++ after))
  /\ mapTraktItemsToTraktBody [item] = mkTraktListBody [Movie item] [] [].
Proof.
  intros Htag body. subst body.
  assert (Hm : hasType TraktItemTypeMovie item = true)
    by (unfold hasType; rewrite Htag; reflexivity).
  assert (Hs : hasType TraktItemTypeShow item = false)
    by (unfold hasType; rewrite Htag; reflexivity).
  assert (He : hasType TraktItemTypeEpisode item = false)
    by (unfold hasType; rewrite Htag; reflexivity).
  rewrite !mapTraktItemsToTraktBody_filter. cbn [Movies Shows Episodes].
  rewrite !List.filter_app. cbn [List.filter]. rewrite Hm, Hs, He, !map_app.
  repeat split; reflexivity.
Qed.

(** An item that has only its Movie identifier populated is, by the
    invariant of items, the one tagged movie. *)
Lemma itemInvariant_movie (item : TraktItem) :
  itemInvariant item -> onlyMovieIdentifier item -> Type_ item = TraktItemTypeMovie.
Proof.
  intros [(Htag & _)|[(_ & Hzero & _)|(_ & Hzero & _)]] (Hmovie & _);
    [exact Htag|contradiction|contradiction].
Qed.

(** C9.  For every input sequence, an item of it that has only its Movie
    identifier populated (an item as the specification has them: a tagged
    union, the one populated variant being the one its tag names) goes
    through the add-body mapping into exactly one Movie entry, its Movie
    payload as it is, and into no Show or Episode entry: the Movie entries
    of the body are those of the items before it, its own, and those of the
    items after it, and the Show and Episode entries are those of the other
    items.  Alone, it yields the body of that one Movie entry. *)
Theorem mapTraktItemsToTraktBody_round_trip
    (before after : TraktItems) (item : TraktItem) :
  itemInvariant item ->
  onlyMovieIdentifier item ->
  let body := mapTraktItemsToTraktBody (before ++ item :: after) in
  Movies body
  = Movies (mapTraktItemsToTraktBody before) ++ Movie item
      :: Movies (mapTraktItemsToTraktBody after)
  /\ Shows body = Shows (mapTraktItemsToTraktBody (before ++ after))
  /\ Episodes body = Episodes (mapTraktItemsToTraktBody (before ++ after))
  /\ mapTraktItemsToTraktBody [item] = mkTraktListBody [Movie item] [] []
  /\ entries body = S (entries (mapTraktItemsToTraktBody (before ++ after))).
Proof.
  intros Hinv Honly body. subst body.
  pose proof (itemInvariant_movie item Hinv Honly) as Htag.
  destruct (mapTraktItemsToTraktBody_movie before after item Htag)
    as (Hm & Hs & He & Hone).
  repeat split; try assumption.
  unfold entries. rewrite Hm, Hs, He.
  rewrite !mapTraktItemsToTraktBody_filter. cbn [Movies Shows Episodes].
  rewrite !List.filter_app, !map_app, !length_app. cbn [length]. lia.
Qed.

End Mapping.

(** * Single lists and the sign-in *)

Section ListFacts.
Context `{Externals}.

Lemma lastRound_not_found request o evs res err :
  lastRound request o evs res -> res = Err err -> isNotFound err = false.
Proof.
  destruct 1 as [e|response Hc|response Hc|response e Hc Ha|response Hc];
    intros Heq; inversion Heq; subst; try reflexivity.
  unfold isNotFound. simpl.
  rewrite !not_elem_of_cons in Hc. destruct Hc as (_ & _ & _ & Hc & _).
  apply Z.eqb_neq. exact Hc.
Qed.

Lemma loop_not_found k : forall request w err,
  backBuf (Request.Body request) = "" ->
  snd (doRequest_loop k request w) = Err err -> isNotFound err = false.
Proof.
  induction k as [|k IH]; intros request [sc tr] err Hf.
  - simpl. intros Heq. inversion Heq. reflexivity.
  - destruct sc as [|o s].
    + rewrite (loop_nil _ _ _ Hf). simpl. intros Heq. inversion Heq. reflexivity.
    + destruct (outcome_cases request o) as [(evs & res & Hl)|(r & n & -> & Hr)].
      * rewrite (loop_last _ _ _ _ _ _ _ Hf Hl). simpl.
        apply (lastRound_not_found _ _ _ _ _ Hl).
      * rewrite (loop_rate_limited _ _ _ _ _ _ Hf Hr). apply IH. exact Hf.
Qed.

(** No error of the request engine reads as not-found. *)
Lemma doRequest_not_found rf w err :
  snd (doRequest rf w) = Err err -> isNotFound err = false.
Proof.
  unfold doRequest, http_NewRequest.
  destruct (http_NewRequest_error _ _) as [e|].
  - simpl. intros Heq. inversion Heq. reflexivity.
  - apply loop_not_found. reflexivity.
Qed.

(** C4.  When the single-list endpoint answers 404, [ListGet] returns an
    [ApiError] with status 404 whose message names the requested identifier.
    The test callers use ([errors.As] to an [ApiError], status 404) accepts
    it and rejects every error of the request engine, whose terminal errors
    never carry that status: the not-found error is told apart from them. *)
Theorem ListGet_not_found
    (config : TraktConfig) (listId : string) (rns : list (Response.t * Z))
    (r : Response.t) (rest : list (string + Response.t)) :
  builds (listRequest config listId) ->
  allRateLimited rns ->
  (length rns <= 4)%nat ->
  Response.StatusCode r = http_StatusNotFound ->
  let run := ListGet config listId (mkWorld (answers rns ++ inr r :: rest) []) in
  let notFound :=
    ErrApi (ApiError.mk (Response.RequestMethod r) (Response.RequestURL r) 404
              ("list with id " +:+ listId +:+ " could not be found")) in
  snd run = Err notFound
  /\ isNotFound notFound = true
  /\ (forall rf w err, snd (doRequest rf w) = Err err -> isNotFound err = false).
Proof.
  intros Hb Hall Hlen Hc run notFound. subst run notFound.
  split; [|split; [reflexivity|apply doRequest_not_found]].
  unfold ListGet, try, bind.
  change (requestFields.mk http_MethodGet traktPathBaseAPI
            (traktPathUserListItems (username config) listId) http_NoBody
            (defaultApiHeaders config)) with (listRequest config listId).
  assert (Hl : lastRound (requestFor (listRequest config listId)) (inr r) [] (Ok r)).
  { apply LastSuccess. rewrite Hc. rewrite !elem_of_cons. auto. }
  rewrite (doRequest_last _ _ _ _ _ _ Hb Hall Hlen Hl).
  rewrite Hc. reflexivity.
Qed.

Lemma split_slash_length s : forall cur,
  length (Go.split_loop "/" s O cur) = S (countByte "/" s).
Proof.
  induction s as [|c s IH]; intros cur; [reflexivity|].
  cbn [Go.split_loop Go.hasPrefix countByte].
  destruct (Ascii.eqb "/" c) eqn:Hc.
  - rewrite Ascii.eqb_sym in Hc. rewrite Hc. simpl. rewrite IH. reflexivity.
  - rewrite Ascii.eqb_sym in Hc. rewrite Hc. simpl. apply IH.
Qed.

(** The segments number one more than the slashes. *)
Lemma Split_slash_length s : length (Go.Split s "/") = S (countByte "/" s).
Proof. apply split_slash_length. Qed.

(** C7.  In [ActivateAuthorize], once the request has succeeded and the
    anchor's href has been scraped: if splitting the href on "/" yields
    exactly three segments (the href has exactly two slashes), the username
    of the session becomes the third and last segment and no error is
    returned; with any other number of segments the step fails with the
    scraping error and the username stays as it was. *)
Theorem ActivateAuthorize_username
    (config : TraktConfig) (authenticityToken : string) (w w' : World)
    (response : Response.t) (value : string) :
  doRequest (authorizeRequest authenticityToken) w = (w', Ok response) ->
  scrapeSelectionAttribute (Response.Body response) clientNameTrakt
    "#desktop-user-avatar" "href" = Ok value ->
  let hrefPieces := Go.Split value "/" in
  let run := ActivateAuthorize config authenticityToken w in
  fst run = w'
  /\ length hrefPieces = S (countByte "/" value)
  /\ (length hrefPieces = 3%nat ->
      snd (snd run) = Ok tt
      /\ hrefPieces !! 2%nat = Some (username (fst (snd run)))
      /\ last hrefPieces = Some (username (fst (snd run)))
      /\ fst (snd run)
         = mkTraktConfig (accessToken config) (ClientId config) (ClientSecret config)
             (Email config) (Password config) (username (fst (snd run)))
             (SyncMode config))
  /\ (length hrefPieces <> 3%nat ->
      snd (snd run) = Err (ErrNew "failure scraping trakt username")
      /\ fst (snd run) = config).
Proof.
  intros Hreq Hscrape hrefPieces run. subst run.
  unfold ActivateAuthorize, bind.
  change (requestFields.mk http_MethodPost traktPathBaseBrowser traktPathActivateAuthorize _ _)
    with (authorizeRequest authenticityToken).
  rewrite Hreq, Hscrape. cbn [lib].
  fold hrefPieces. unfold len.
  split; [|split; [apply Split_slash_length|split]].
  - destruct (negb (Z.of_nat (length hrefPieces) =? 3)); reflexivity.
  - intros Hlen. rewrite Hlen. cbn [negb Z.eqb Z.of_nat]. simpl.
    destruct hrefPieces as [|a [|b [|c [|d l]]]]; try discriminate Hlen.
    repeat split; reflexivity.
  - intros Hlen.
    destruct (Z.eqb_spec (Z.of_nat (length hrefPieces)) 3) as [Heq|Hne]; [lia|].
    split; reflexivity.
Qed.

End ListFacts.

(** * The operating modes *)

Section ModeFacts.
Context `{Externals}.

Lemma conclude_quiet op response w :
  sent (trace (fst (conclude op response w))) = sent (trace w)
  /\ script (fst (conclude op response w)) = script w.
Proof.
  destruct w as [sc tr].
  destruct op; unfold conclude, readTraktResponse, Body_Close, logger, emit, try, bind, ret;
    cbn [script trace fst snd];
    try (destruct (wrap _ (lib (json_Decode_TraktResponse _))); cbn [script trace fst snd]);
    rewrite ?sent_app; cbn [sent]; rewrite ?app_nil_r; split; reflexivity.
Qed.

(** A mutating operation the mode holds back: one log entry, nothing else. *)
Lemma perform_skipped config op w :
  skipped (SyncMode config) op = true ->
  exists format args,
    perform config op w
    = (mkWorld (script w) (trace w ++ [EvLog "info" format args]), Ok tt).
Proof.
  unfold skipped. intros Hs.
  destruct op; cbn [isRemove andb] in Hs; rewrite ?orb_false_r in Hs;
    cbn [perform];
    unfold WatchlistItemsAdd, WatchlistItemsRemove, ListItemsAdd, ListItemsRemove,
      ListAdd, ListRemove, RatingsAdd, RatingsRemove, HistoryAdd, HistoryRemove;
    rewrite Hs; eexists _, _; reflexivity.
Qed.

(** A mutating operation the mode lets through: its request, once encoded,
    goes through the request engine once, and the response is read. *)
Lemma perform_executes config op w :
  skipped (SyncMode config) op = false ->
  perform config op w
  = (check! rf := requestOf config op in
     try! response := doRequest rf in
     conclude op response) w.
Proof.
  unfold skipped. intros Hs.
  destruct op; cbn [isRemove andb] in Hs; rewrite ?orb_false_r in Hs;
    cbn [perform requestOf conclude];
    unfold WatchlistItemsAdd, WatchlistItemsRemove, ListItemsAdd, ListItemsRemove,
      ListAdd, ListRemove, RatingsAdd, RatingsRemove, HistoryAdd, HistoryRemove;
    rewrite Hs;
    try (destruct (lib (json_Marshal_TraktListBody _)));
    try (destruct (lib (json_Marshal_TraktListAddBody _)));
    reflexivity.
Qed.

(** What the engine sends for a request that can be built. *)
Lemma doRequest_sends rf w :
  builds rf ->
  exists m : nat,
    (1 <= m <= 5)%nat
    /\ sent (trace (fst (doRequest rf w))) = sent (trace w) ++ replicate m (wireOf rf)
    /\ ((forall r n, head (script w) = Some (inr r) -> ~ rateLimited r n) -> m = 1%nat).
Proof.
  intros Hb. rewrite (doRequest_builds _ _ Hb).
  destruct (loop_sends 5 (requestFor rf) w (requestFor_fresh rf))
    as (m & Hm & Hpos & Hs & _).
  exists m. split; [lia|]. split; [exact Hs|].
  intros Hfirst. destruct w as [[|o s] tr].
  - rewrite (loop_nil _ _ _ (requestFor_fresh rf)) in Hs. simpl in Hs.
    rewrite sent_app in Hs. simpl in Hs. apply app_inv_head in Hs.
    destruct m as [|[|m]]; try discriminate Hs; reflexivity.
  - destruct (outcome_cases (requestFor rf) o) as [(evs & res & Hl)|(r & n & -> & Hr)].
    + rewrite (loop_last _ _ _ _ _ _ _ (requestFor_fresh rf) Hl) in Hs. simpl in Hs.
      rewrite sent_app in Hs. simpl in Hs.
      destruct (lastRound_quiet _ _ _ _ Hl) as [Hq _]. rewrite Hq in Hs.
      apply app_inv_head in Hs.
      destruct m as [|[|m]]; try discriminate Hs; reflexivity.
    + exfalso. exact (Hfirst r n eq_refl Hr).
Qed.

Lemma ask_executes config q w :
  ask config q w
  = (let! r := doRequest (queryRequest config q) in
     match r with
     | Ok response => deliver q response
     | Err e => ret (Err e)
     end) w.
Proof.
  destruct q; cbn [ask queryRequest deliver];
    unfold answer, WatchlistGet, ListGet, ListsMetadataGet, RatingsGet, HistoryGet,
      try, bind;
    match goal with |- context [doRequest ?rf w] => destruct (doRequest rf w) as [w1 [r|e]] end;
    reflexivity.
Qed.

Lemma deliver_quiet q response w :
  sent (trace (fst (deliver q response w))) = sent (trace w)
  /\ script (fst (deliver q response w)) = script w.
Proof.
  destruct w as [sc tr].
  destruct q; unfold deliver, answer, readTraktListResponse, readTraktLists,
    readTraktItems, Body_Close, emit, bind, ret;
    cbn [script trace fst snd];
    try (destruct (Response.StatusCode response =? http_StatusNotFound);
         cbn [script trace fst snd]);
    rewrite ?sent_app; cbn [sent]; rewrite ?app_nil_r; split; reflexivity.
Qed.

(** A get operation calls the HTTP client as the engine does for its
    request. *)
Lemma ask_sends config q w :
  builds (queryRequest config q) ->
  exists m : nat,
    (1 <= m <= 5)%nat
    /\ sent (trace (fst (ask config q w)))
       = sent (trace w) ++ replicate m (wireOf (queryRequest config q))
    /\ (promptly w -> m = 1%nat).
Proof.
  intros Hb. rewrite ask_executes. unfold bind.
  destruct (doRequest_sends _ w Hb) as (m & Hm & Hsent & Hone).
  exists m. split; [exact Hm|]. split; [|exact Hone].
  destruct (doRequest (queryRequest config q) w) as [w1 [response|err]];
    cbn [fst snd] in *.
  - destruct (deliver_quiet q response w1) as [-> _]. exact Hsent.
  - exact Hsent.
Qed.

(** So does the goroutine [ListsGet] starts for an identifier. *)
Lemma task_sends config id st w :
  builds (listRequest config (Slug id)) ->
  exists m : nat,
    (1 <= m <= 5)%nat
    /\ sent (trace (fst (task config id st w)))
       = sent (trace w) ++ replicate m (wireOf (listRequest config (Slug id)))
    /\ (promptly w -> m = 1%nat).
Proof.
  intros Hb.
  destruct (ask_sends config (DoListGet (Slug id)) w Hb) as (m & Hm & Hsent & Hone).
  exists m. split; [exact Hm|]. split; [|exact Hone].
  cbn [ask queryRequest] in Hsent. unfold answer, bind in Hsent.
  unfold task, bind.
  destruct (ListGet config (Slug id) w) as [w1 [l|err]]; cbn [fst snd ret] in *.
  - exact Hsent.
  - destruct (isNotFound err).
    + unfold logger, emit, ret. cbn [fst trace]. rewrite sent_app. cbn [sent].
      rewrite app_nil_r. exact Hsent.
    + destruct (errChan st); exact Hsent.
Qed.

Lemma called_sent rf m w w' :
  sent (trace w') = sent (trace w) ++ replicate m (wireOf rf) -> called rf m w w'.
Proof.
  intros Hsent. unfold called. rewrite Hsent, map_app, fmap_replicate. reflexivity.
Qed.

Lemma step_mode config mode a st w :
  step (setMode config mode) a st w = step config a st w.
Proof. destruct a; reflexivity. Qed.

Lemma ListsGet_run_mode config mode schedule : forall st w,
  ListsGet_run (setMode config mode) schedule st w = ListsGet_run config schedule st w.
Proof.
  induction schedule as [|a schedule IH]; intros st w; [reflexivity|].
  cbn [ListsGet_run]. unfold bind. rewrite step_mode.
  destruct (step config a st w) as [w1 [[st'|res]|]]; [apply IH|reflexivity|reflexivity].
Qed.

(** C2 (as amended).  A remove operation in mode add-only or dry-run, and an
    add operation in mode dry-run, never calls the HTTP client, so that no
    request is sent, and returns no error.  For every other combination of
    mode and mutating operation, when the body can be encoded and the
    request built, the HTTP client is called at least once and at most five
    times, each time for the same method, URL and body, and exactly once
    unless the first answer is a 429 with an integer [Retry-After].  A get
    operation executes in every mode: whatever the mode, it does what it
    does in any other, and when its request can be built the HTTP client is
    called for it in that same way; so it is for every goroutine of
    [ListsGet].  (The calls counted are those of [tc.client.Do]; what the
    HTTP client sends within one call is its own affair.) *)
Theorem sync_mode_gating
    (config : TraktConfig) (op : Mutation) (q : Query) (mode : string) (w : World)
    (ids : list TraktIds) (schedule : list Action) (id : TraktIds) (st : Fetch) :
  let run := perform config op w in
  let asked := ask (setMode config mode) q w in
  let fetched := task (setMode config mode) id st w in
  (skipped (SyncMode config) op = true ->
   snd run = Ok tt
   /\ sent (trace (fst run)) = sent (trace w)
   /\ script (fst run) = script w)
  /\ (skipped (SyncMode config) op = false ->
      forall rf, requestOf config op = Ok rf -> builds rf ->
      exists m : nat,
        (1 <= m <= 5)%nat /\ called rf m w (fst run) /\ (promptly w -> m = 1%nat))
  /\ (skipped mode op = true <->
      mode = traktSyncModeDryRun
      \/ (mode = traktSyncModeAddOnly /\ isRemove op = true))
  /\ (asked = ask config q w
      /\ (builds (queryRequest config q) ->
          exists m : nat,
            (1 <= m <= 5)%nat
            /\ called (queryRequest config q) m w (fst asked)
            /\ (promptly w -> m = 1%nat)))
  /\ (ListsGet (setMode config mode) ids schedule w = ListsGet config ids schedule w
      /\ (builds (listRequest config (Slug id)) ->
          exists m : nat,
            (1 <= m <= 5)%nat
            /\ called (listRequest config (Slug id)) m w (fst fetched)
            /\ (promptly w -> m = 1%nat))).
Proof.
  intros run asked fetched. subst run asked fetched.
  split; [|split; [|split; [|split]]].
  - intros Hs. destruct (perform_skipped config op w Hs) as (format & args & ->).
    cbn [fst snd script trace]. rewrite sent_app. cbn [sent]. rewrite app_nil_r.
    repeat split; reflexivity.
  - intros Hs rf Hrf Hb. rewrite (perform_executes config op w Hs). rewrite Hrf.
    cbn [check]. unfold try, bind.
    destruct (doRequest_sends rf w Hb) as (m & Hm & Hsent & Hone).
    exists m. split; [exact Hm|]. split; [|exact Hone]. apply called_sent.
    destruct (doRequest rf w) as [w1 [response|err]] eqn:Hrun; cbn [fst snd] in *.
    + destruct (conclude_quiet op response w1) as [-> _]. exact Hsent.
    + exact Hsent.
  - unfold skipped. rewrite orb_true_iff, andb_true_iff, !String.eqb_eq. tauto.
  - split; [destruct q; reflexivity|]. intros Hb.
    destruct (ask_sends (setMode config mode) q w Hb) as (m & Hm & Hsent & Hone).
    exists m. split; [exact Hm|]. split; [|exact Hone]. apply called_sent. exact Hsent.
  - split; [apply ListsGet_run_mode|]. intros Hb.
    destruct (task_sends (setMode config mode) id st w Hb) as (m & Hm & Hsent & Hone).
    exists m. split; [exact Hm|]. split; [|exact Hone]. apply called_sent. exact Hsent.
Qed.

End ModeFacts.

(** * More on the request engine *)

Section EngineMore.
Context `{Externals}.

Lemma closes_app tr1 tr2 : closes (tr1 ++ tr2) = (closes tr1 + closes tr2)%nat.
Proof.
  induction tr1 as [|e tr1 IH]; simpl; [reflexivity|].
  destruct e; simpl; rewrite IH; reflexivity.
Qed.

Lemma lastRound_closes request o evs res :
  lastRound request o evs res ->
  (closes evs + handedBack res = responsesIn [o])%nat.
Proof. destruct 1; reflexivity. Qed.

Lemma loop_closes k : forall request w,
  backBuf (Request.Body request) = "" ->
  exists m : nat,
    sent (trace (fst (doRequest_loop k request w)))
    = sent (trace w) ++ replicate m (wire request)
    /\ script (fst (doRequest_loop k request w)) = drop m (script w)
    /\ (closes (trace (fst (doRequest_loop k request w)))
        + handedBack (snd (doRequest_loop k request w))
        = closes (trace w) + responsesIn (take m (script w)))%nat.
Proof.
  induction k as [|k IH]; intros request [sc tr] Hf.
  - exists O. simpl. rewrite app_nil_r. repeat split; lia.
  - destruct sc as [|o s].
    + rewrite (loop_nil _ _ _ Hf). exists 1%nat. simpl.
      rewrite sent_app, closes_app. simpl. repeat split; lia.
    + destruct (outcome_cases request o) as [(evs & res & Hl)|(r & n & -> & Hr)].
      * rewrite (loop_last _ _ _ _ _ _ _ Hf Hl). exists 1%nat.
        cbn [fst snd trace script drop take]. rewrite sent_app, closes_app.
        cbn [sent closes]. destruct (lastRound_quiet _ _ _ _ Hl) as [-> _].
        pose proof (lastRound_closes _ _ _ _ Hl) as Hc. rewrite take_0.
        repeat split; try reflexivity. lia.
      * rewrite (loop_rate_limited _ _ _ _ _ _ Hf Hr).
        destruct (IH request (mkWorld s (tr ++ roundEvents request (r, n))) Hf)
          as (m & Hs & Hd & Hc).
        exists (S m). rewrite Hs, Hd, Hc. cbn [trace script drop take responsesIn].
        rewrite sent_app, closes_app. simpl sent. simpl closes.
        rewrite <- app_assoc. repeat split; try reflexivity. lia.
Qed.

(** X1.  An error of the HTTP client ends the call at once: it is handed
    up wrapped under a message with the request's method (GET for an empty
    one) and its URL as the request prints it, the request is not handed to
    the client again, and the outcomes still in store stay unused. *)
Theorem doRequest_transport_error
    (rf : requestFields.t) (rns : list (Response.t * Z)) (err : string)
    (rest : list (string + Response.t)) :
  builds rf ->
  allRateLimited rns ->
  (length rns <= 4)%nat ->
  let run := doRequest rf (mkWorld (answers rns ++ inl err :: rest) []) in
  snd run
  = Err (ErrWrap ("error sending http request "
                  +:+ methodOrGet (requestFields.Method rf) +:+ ", "
                  +:+ url_String (requestFields.BasePath rf
                                  +:+ requestFields.Endpoint rf))
           (ErrTransport err))
  /\ called rf (S (length rns)) (mkWorld (answers rns ++ inl err :: rest) []) (fst run)
  /\ map outlineNet (net (trace (fst run)))
     = map outlineNet (rounds (wireOf rf) rns) ++ [inl (outline (wireOf rf))]
  /\ script (fst run) = rest.
Proof.
  intros Hb Hall Hlen run. subst run.
  pose proof (LastTransport (requestFor rf) err) as Hl.
  unfold called.
  rewrite (doRequest_last_sent _ _ _ _ _ _ Hb Hall Hlen Hl).
  rewrite (doRequest_last_net _ _ _ _ _ _ Hb Hall Hlen Hl).
  rewrite (doRequest_last _ _ _ _ _ _ Hb Hall Hlen Hl).
  rewrite map_app, fmap_replicate. repeat split; reflexivity.
Qed.

Lemma doRequest_closes (rf : requestFields.t) (w : World) :
  builds rf ->
  exists m : nat,
    sent (trace (fst (doRequest rf w))) = sent (trace w) ++ replicate m (wireOf rf)
    /\ script (fst (doRequest rf w)) = drop m (script w)
    /\ (closes (trace (fst (doRequest rf w))) + handedBack (snd (doRequest rf w))
        = closes (trace w) + responsesIn (take m (script w)))%nat.
Proof.
  intros Hb. rewrite (doRequest_builds _ _ Hb).
  apply loop_closes. apply requestFor_fresh.
Qed.

(** X2.  [doRequest] closes the body of every response it does not hand
    back: whatever the peer does, after the call the bodies closed, plus one
    for a response handed back, are as many as the responses received (one
    outcome of the peer is used up per request sent). *)
Theorem doRequest_closes_bodies (rf : requestFields.t) (w : World) :
  builds rf ->
  let run := doRequest rf w in
  exists m : nat,
    sent (trace (fst run)) = sent (trace w) ++ replicate m (wireOf rf)
    /\ script (fst run) = drop m (script w)
    /\ (closes (trace (fst run)) + handedBack (snd run)
        = closes (trace w) + responsesIn (take m (script w)))%nat.
Proof.
  intros Hb run. subst run. apply doRequest_closes. exact Hb.
Qed.

Lemma wireOf_fields rf :
  wireOf rf
  = mkWire (methodOrGet (requestFields.Method rf))
      (requestFields.BasePath rf +:+ requestFields.Endpoint rf)
      (map_fold Header_Set ∅ (requestFields.Headers rf))
      (requestFields.Body rf).
Proof.
  reflexivity.
Qed.

(** What the engine sends, with or without a request that can be built. *)
Lemma doRequest_sent_any rf w :
  exists m : nat,
    (m <= 5)%nat
    /\ sent (trace (fst (doRequest rf w))) = sent (trace w) ++ replicate m (wireOf rf).
Proof.
  unfold doRequest, http_NewRequest.
  destruct (http_NewRequest_error _ _) as [e|].
  - exists O. simpl. rewrite app_nil_r. split; [lia|reflexivity].
  - destruct (loop_sends 5 (requestFor rf) w (requestFor_fresh rf))
      as (m & Hm & _ & Hs & _).
    exists m. split; [exact Hm|exact Hs].
Qed.

(** Setting the headers of a map one by one, in whatever order. *)
Lemma header_fold (headers : gmap string string) :
  distinctHeaders headers ->
  (forall key value,
      headers !! key = Some value ->
      map_fold Header_Set ∅ headers !! Go.CanonicalMIMEHeaderKey key = Some [value])
  /\ (forall c,
        (forall key, is_Some (headers !! key) -> Go.CanonicalMIMEHeaderKey key <> c) ->
        map_fold Header_Set ∅ headers !! c = None).
Proof.
  apply (map_fold_weak_ind
           (fun r m =>
              distinctHeaders m ->
              (forall key value,
                  m !! key = Some value -> r !! Go.CanonicalMIMEHeaderKey key = Some [value])
              /\ (forall c,
                    (forall key, is_Some (m !! key) -> Go.CanonicalMIMEHeaderKey key <> c) ->
                    r !! c = None))).
  - intros _. split.
    + intros key value Hk. rewrite lookup_empty in Hk. discriminate.
    + intros c _. apply lookup_empty.
  - intros i x m r Hi IH Hd.
    assert (Hd' : distinctHeaders m).
    { intros k1 k2 H1 H2. apply Hd; apply lookup_insert_is_Some.
      - destruct (decide (i = k1)); [left; assumption|right; split; assumption].
      - destruct (decide (i = k2)); [left; assumption|right; split; assumption]. }
    destruct (IH Hd') as [IHa IHb]. unfold Header_Set. split.
    + intros key value Hk. apply lookup_insert_Some in Hk as [[-> ->]|[Hne Hk]].
      * apply lookup_insert_eq.
      * rewrite lookup_insert_ne; [apply IHa; exact Hk|].
        intros Hc. apply Hne. apply Hd; [| |exact Hc].
        -- apply lookup_insert_is_Some. left. reflexivity.
        -- apply lookup_insert_is_Some. right. split; [exact Hne|eauto].
    + intros c Hc. rewrite lookup_insert_ne.
      * apply IHb. intros key Hk. apply Hc. apply lookup_insert_is_Some.
        destruct (decide (i = key)); [left; assumption|right; split; assumption].
      * apply Hc. apply lookup_insert_is_Some. left. reflexivity.
Qed.

(** X3.  The request [doRequest] builds, and hands to the HTTP client at its
    first attempt, is made of the fields it was given: the method (GET for
    an empty one), the base path followed by the endpoint, the bytes of the
    body, and a header in which every key of the map stands, in canonical
    form, with its one value.  Read with [Get], a key of the map gives its
    value however it is spelled as to case, and a key whose canonical form
    is that of no key of the map gives the empty string.  (With two keys of
    one canonical form in the map the header would depend on the order in
    which Go ranges over the map: the statement is for maps without.) *)
Theorem doRequest_wire (rf : requestFields.t) (w : World) :
  builds rf ->
  distinctHeaders (requestFields.Headers rf) ->
  let q := wireOf rf in
  (exists more, sent (trace (fst (doRequest rf w))) = sent (trace w) ++ q :: more)
  /\ outline q
     = (methodOrGet (requestFields.Method rf),
        requestFields.BasePath rf +:+ requestFields.Endpoint rf,
        requestFields.Body rf)
  /\ (forall key value spelled,
        requestFields.Headers rf !! key = Some value ->
        Go.CanonicalMIMEHeaderKey spelled = Go.CanonicalMIMEHeaderKey key ->
        Header_Get (wireHeader q) spelled = value)
  /\ (forall spelled,
        (forall key, is_Some (requestFields.Headers rf !! key) ->
                     Go.CanonicalMIMEHeaderKey key <> Go.CanonicalMIMEHeaderKey spelled) ->
        Header_Get (wireHeader q) spelled = "").
Proof.
  intros Hb Hd q. subst q.
  destruct (header_fold _ Hd) as [Hset Hnot].
  split; [|split; [reflexivity|split]].
  - destruct (doRequest_sends rf w Hb) as (m & Hm & Hsent & _).
    destruct m as [|m]; [lia|]. exists (replicate m (wireOf rf)). exact Hsent.
  - intros key value spelled Hk Hc. rewrite wireOf_fields. unfold Header_Get.
    cbn [wireHeader]. rewrite Hc, (Hset key value Hk). reflexivity.
  - intros spelled Hc. rewrite wireOf_fields. unfold Header_Get.
    cbn [wireHeader]. rewrite (Hnot _ Hc). reflexivity.
Qed.

End EngineMore.

(** * More on the sync operations *)

Section OperationsMore.
Context `{Externals}.

Lemma requestOf_fields config op rf :
  requestOf config op = Ok rf ->
  requestFields.Method rf = methodOf op
  /\ requestFields.BasePath rf = traktPathBaseAPI
  /\ requestFields.Headers rf = defaultApiHeaders config.
Proof.
  destruct op; cbn [requestOf methodOf];
    try (destruct (lib (json_Marshal_TraktListBody _)));
    try (destruct (lib (json_Marshal_TraktListAddBody _)));
    intros Heq; inversion Heq; subst; repeat split; reflexivity.
Qed.

Lemma defaultApiHeaders_carried config rf :
  requestFields.Headers rf = defaultApiHeaders config ->
  carriesApiHeaders config (wireOf rf).
Proof.
  intros Hh. rewrite wireOf_fields. unfold carriesApiHeaders.
  cbn [wireHeader]. rewrite Hh. repeat split; vm_compute; reflexivity.
Qed.

(** What a mutating operation sends: nothing, or its request some times. *)
Lemma perform_sent config op w :
  exists news,
    sent (trace (fst (perform config op w))) = sent (trace w) ++ news
    /\ (news = []
        \/ exists rf m, requestOf config op = Ok rf /\ news = replicate m (wireOf rf)).
Proof.
  destruct (skipped (SyncMode config) op) eqn:Hs.
  - destruct (perform_skipped config op w Hs) as (format & args & ->).
    exists []. cbn [fst trace]. rewrite sent_app. cbn [sent]. split; [reflexivity|]. left. reflexivity.
  - rewrite (perform_executes config op w Hs).
    destruct (requestOf config op) as [rf|e] eqn:Hrf; cbn [check].
    + destruct (doRequest_sent_any rf w) as (m & _ & Hsent).
      exists (replicate m (wireOf rf)). split; [|right; eauto].
      unfold try, bind.
      destruct (doRequest rf w) as [w1 [response|err]] eqn:Hrun; cbn [fst snd] in *.
      * destruct (conclude_quiet op response w1) as [-> _]. exact Hsent.
      * exact Hsent.
    + exists []. cbn. rewrite app_nil_r. split; [reflexivity|]. left. reflexivity.
Qed.

(** X4.  Every request a sync operation hands to the HTTP client, in any
    mode and whatever comes back, is for the API base URL and carries the
    four headers of an authenticated call: API version 2, JSON content
    type, the client id as API key and the bearer token of the
    configuration.  A mutating operation asks with POST (DELETE for
    [ListRemove]), a get operation with GET and without a body.  (The
    requests the HTTP client adds on its own when it follows a redirect are
    not calls of the program.) *)
Theorem sync_requests_carry_api_headers
    (config : TraktConfig) (op : Mutation) (q : Query) (w : World) :
  (exists news,
      sent (trace (fst (perform config op w))) = sent (trace w) ++ news
      /\ Forall (fun x => carriesApiHeaders config x
                          /\ wireMethod x = methodOf op
                          /\ exists endpoint, wireURL x = traktPathBaseAPI +:+ endpoint)
           news)
  /\ (exists news,
        sent (trace (fst (ask config q w))) = sent (trace w) ++ news
        /\ Forall (fun x => carriesApiHeaders config x
                            /\ wireMethod x = http_MethodGet
                            /\ wireBody x = ""
                            /\ exists endpoint, wireURL x = traktPathBaseAPI +:+ endpoint)
             news).
Proof.
  split.
  - destruct (perform_sent config op w) as (news & Hsent & [->|(rf & m & Hrf & ->)]).
    + exists []. split; [exact Hsent|constructor].
    + exists (replicate m (wireOf rf)). split; [exact Hsent|].
      apply Forall_replicate.
      destruct (requestOf_fields _ _ _ Hrf) as (Hm & Hb & Hh).
      split; [apply defaultApiHeaders_carried; exact Hh|].
      rewrite wireOf_fields. cbn [wireMethod wireURL]. rewrite Hm, Hb.
      split; [destruct op; reflexivity|eauto].
  - rewrite ask_executes. unfold bind.
    destruct (doRequest_sent_any (queryRequest config q) w) as (m & _ & Hsent).
    exists (replicate m (wireOf (queryRequest config q))). split.
    + destruct (doRequest (queryRequest config q) w) as [w1 [response|err]] eqn:Hrun;
        cbn [fst snd] in *.
      * destruct (deliver_quiet q response w1) as [-> _]. exact Hsent.
      * exact Hsent.
    + apply Forall_replicate.
      split; [apply defaultApiHeaders_carried; destruct q; reflexivity|].
      rewrite wireOf_fields. destruct q; cbn; repeat split; eauto.
Qed.

(** X5.  A mutating operation that its mode lets through ends as its
    request ends.  An error of the request engine is returned as it is, and
    nothing is done after it.  A response the engine hands back (status 200,
    201, 204 or 404 alike) makes [ListAdd] and [ListRemove] return no error
    without a look at the body; the other operations return no error when
    the body decodes as a receipt, and else the decoding error named
    "failure unmarshalling trakt response". *)
Theorem perform_outcome
    (config : TraktConfig) (op : Mutation) (rf : requestFields.t) (w : World) :
  skipped (SyncMode config) op = false ->
  requestOf config op = Ok rf ->
  let run := doRequest rf w in
  match snd run with
  | Err e => perform config op w = (fst run, Err e)
  | Ok response =>
      snd (perform config op w)
      = if readsReceipt op then
          match json_Decode_TraktResponse (Response.Body response) with
          | Ok _ => Ok tt
          | Err d => Err (ErrWrap "failure unmarshalling trakt response" (ErrLib d))
          end
        else Ok tt
  end.
Proof.
  intros Hs Hrf run. subst run.
  rewrite (perform_executes config op w Hs), Hrf. cbn [check]. unfold try, bind.
  destruct (doRequest rf w) as [w1 [response|err]]; cbn [fst snd]; [|reflexivity].
  destruct op; cbn [conclude readsReceipt];
    unfold readTraktResponse, try, bind, Body_Close, logger, emit, ret, wrap, lib;
    try (destruct (json_Decode_TraktResponse (Response.Body response)));
    reflexivity.
Qed.

Lemma conclude_closes op response w :
  closes (trace (fst (conclude op response w))) = S (closes (trace w)).
Proof.
  destruct w as [sc tr].
  destruct op; unfold conclude, readTraktResponse, Body_Close, logger, emit, try, bind, ret;
    cbn [script trace fst snd];
    try (destruct (wrap _ (lib (json_Decode_TraktResponse _))); cbn [script trace fst snd]);
    rewrite ?closes_app; cbn [closes]; lia.
Qed.

(** X6.  A mutating operation leaves no response body open: when it is let
    through and its request can be built, the bodies closed during the call
    are as many as the responses received, whatever their status and
    whether or not the call fails. *)
Theorem perform_closes_bodies
    (config : TraktConfig) (op : Mutation) (rf : requestFields.t) (w : World) :
  skipped (SyncMode config) op = false ->
  requestOf config op = Ok rf ->
  builds rf ->
  let run := perform config op w in
  exists m : nat,
    script (fst run) = drop m (script w)
    /\ closes (trace (fst run))
       = (closes (trace w) + responsesIn (take m (script w)))%nat.
Proof.
  intros Hs Hrf Hb run. subst run.
  rewrite (perform_executes config op w Hs), Hrf. cbn [check]. unfold try, bind.
  destruct (doRequest_closes rf w Hb) as (m & _ & Hd & Hc).
  exists m.
  destruct (doRequest rf w) as [w1 [response|err]]; cbn [fst snd handedBack] in *.
  - destruct (conclude_quiet op response w1) as [_ ->].
    rewrite conclude_closes. split; [exact Hd|lia].
  - unfold ret. cbn [fst]. split; [exact Hd|lia].
Qed.

End OperationsMore.

(** * More on the list fetcher *)

Section FetcherMore.
Context `{Externals}.












(** X8.  Without identifiers [ListsGet] has one run only: [doneChan] is
    closed and taken.  It returns the empty result, no error, and leaves
    the world as it was: no request, no log entry. *)
Theorem ListsGet_no_identifiers
    (config : TraktConfig) (schedule : list Action) (w : World)
    (res : result error (list TraktList)) :
  snd (ListsGet config [] schedule w) = Some res ->
  res = Ok []
  /\ fst (ListsGet config [] schedule w) = w
  /\ ListsGet config [] [CloseDone; RecvDone] w = (w, Some (Ok [])).
Proof.
  intros Hrun. unfold ListsGet in *.
  destruct schedule as [|[i| | | |] schedule]; try discriminate Hrun.
  destruct schedule as [|[i| | | |] schedule]; try discriminate Hrun.
  cbn in Hrun. inversion Hrun. repeat split; reflexivity.
Qed.





End FetcherMore.

(** * The sign-in *)

Section SignInFacts.
Context `{Externals} `{AuthExternals}.

Lemma contains_elem_of (slice : list string) (element : string) :
  stringSliceContains slice element = true <-> element ∈ slice.
Proof.
  induction slice as [|s slice IH]; simpl.
  - split; [discriminate|]. intros Hin. inversion Hin.
  - destruct (String.eqb_spec s element) as [->|Hne].
    + split; [intros _; left|reflexivity].
    + rewrite IH. split; [intros Hin; right; exact Hin|].
      intros Hin. inversion Hin; subst; [congruence|assumption].
Qed.

(** X10.  [stringSliceContains] tells whether the element is in the slice:
    it answers true exactly for the elements of the slice, at whatever
    position and however often they occur, and false for the empty slice. *)
Theorem stringSliceContains_iff (slice : list string) (element : string) :
  (stringSliceContains slice element = true <-> element ∈ slice)
  /\ (stringSliceContains slice element = false <-> element ∉ slice).
Proof.
  pose proof (contains_elem_of slice element) as Hc. split; [exact Hc|].
  destruct (stringSliceContains slice element); split; intros Hx;
    try discriminate; try reflexivity.
  - exfalso. apply Hx. apply Hc. reflexivity.
  - intros Hin. apply Hc in Hin. discriminate.
Qed.

Lemma mode_checked (mode : string) :
  stringSliceContains validSyncModes mode = true <-> mode ∈ validSyncModes.
Proof. apply contains_elem_of. Qed.

(** X11.  [NewTraktClient] checks the sync mode before it signs in.  With a
    mode other than full, add-only and dry-run it fails without a request
    or any other effect, and the error names the mode and the three valid
    ones; with one of the three it goes on to the sign-in, whose error it
    hands up as "failure hydrating trakt client" and whose configuration
    it returns on success. *)
Theorem NewTraktClient_sync_mode (config : TraktConfig) (w : World) :
  cookiejar_New_error = None ->
  (SyncMode config ∉ [traktSyncModeFull; traktSyncModeAddOnly; traktSyncModeDryRun] ->
   NewTraktClient config w
   = (w, Err (ErrNew ("failure using trakt sync mode " +:+ SyncMode config
                      +:+ ": valid modes are full, add-only, dry-run"))))
  /\ (SyncMode config ∈ [traktSyncModeFull; traktSyncModeAddOnly; traktSyncModeDryRun] ->
      NewTraktClient config w
      = (fst (hydrate config w),
         match snd (snd (hydrate config w)) with
         | Err err => Err (ErrWrap "failure hydrating trakt client" err)
         | Ok _ => Ok (fst (snd (hydrate config w)))
         end)).
Proof.
  intros Hjar. unfold NewTraktClient. rewrite Hjar. split; intros Hmode.
  - destruct (stringSliceContains validSyncModes (SyncMode config)) eqn:Hc.
    + exfalso. apply Hmode. apply mode_checked. exact Hc.
    + reflexivity.
  - apply mode_checked in Hmode. rewrite Hmode. cbn [negb]. unfold bind.
    destruct (hydrate config w) as [w1 [config1 [u|err]]]; reflexivity.
Qed.

Lemma ActivateAuthorize_fields config token w :
  let config' := fst (snd (ActivateAuthorize config token w)) in
  accessToken config' = accessToken config
  /\ ClientId config' = ClientId config
  /\ ClientSecret config' = ClientSecret config
  /\ Email config' = Email config
  /\ Password config' = Password config
  /\ SyncMode config' = SyncMode config.
Proof.
  unfold ActivateAuthorize, bind.
  destruct (doRequest _ w) as [w1 [response|err]]; [|repeat split; reflexivity].
  destruct (lib (scrapeSelectionAttribute _ _ _ _)) as [value|err];
    [|repeat split; reflexivity].
  destruct (negb (len (Go.Split value "/") =? 3)); repeat split; reflexivity.
Qed.

(** [hydrate] touches two fields of the configuration only. *)
Lemma hydrate_fields (config : TraktConfig) (w : World) :
  let run := hydrate config w in
  let config' := fst (snd run) in
  ClientId config' = ClientId config
  /\ ClientSecret config' = ClientSecret config
  /\ Email config' = Email config
  /\ Password config' = Password config
  /\ SyncMode config' = SyncMode config
  /\ match snd (snd run) with
     | Err err =>
         accessToken config' = accessToken config
         /\ exists msg cause, err = ErrWrap msg cause /\ msg ∈ hydrateFailures
     | Ok _ => True
     end.
Proof.
  unfold hydrate, stepOf, bind, ret.
  assert (Hin : forall msg cause, msg ∈ hydrateFailures ->
                  exists msg' cause', ErrWrap msg cause = ErrWrap msg' cause'
                                      /\ msg' ∈ hydrateFailures) by eauto.
  assert (Hmsg : forall i msg, hydrateFailures !! i = Some msg -> msg ∈ hydrateFailures).
  { intros i msg Hi. apply list_elem_of_lookup. eauto. }
  destruct (GetAuthCodes config w) as [w1 [authCodes|err]]; cbn [fst snd];
    [|repeat split; try reflexivity; apply Hin, (Hmsg 0%nat); reflexivity].
  destruct (BrowseSignIn w1) as [w2 [t1|err]]; cbn [fst snd];
    [|repeat split; try reflexivity; apply Hin, (Hmsg 1%nat); reflexivity].
  destruct (SignIn config t1 w2) as [w3 [u|err]]; cbn [fst snd];
    [|repeat split; try reflexivity; apply Hin, (Hmsg 2%nat); reflexivity].
  destruct (BrowseActivate w3) as [w4 [t2|err]]; cbn [fst snd];
    [|repeat split; try reflexivity; apply Hin, (Hmsg 3%nat); reflexivity].
  destruct (Activate (UserCode authCodes) t2 w4) as [w5 [t3|err]]; cbn [fst snd];
    [|repeat split; try reflexivity; apply Hin, (Hmsg 4%nat); reflexivity].
  pose proof (ActivateAuthorize_fields config t3 w5) as Hf. cbv zeta in Hf.
  destruct (ActivateAuthorize config t3 w5) as [w6 [config1 [u'|err]]]; cbn [fst snd] in *;
    destruct Hf as (Ha & Hi & Hs & He & Hp & Hm);
    [|repeat split; try assumption; apply Hin, (Hmsg 5%nat); reflexivity].
  destruct (GetAccessToken config1 (DeviceCode authCodes) w6) as [w7 [tokens|err]];
    cbn [fst snd];
    [repeat split; assumption
    |repeat split; try assumption; apply Hin, (Hmsg 6%nat); reflexivity].
Qed.

(** X12.  [hydrate] touches two fields of the configuration only: the
    client id and secret, the credentials and the sync mode come back as
    they went in, and when a step fails the access token too is the one
    from before.  The first step to fail ends the sign-in there and then:
    with the steps before it done, the world is as that step left it, and
    the error is the very error the step returned, wrapped under the name
    of that step. *)
Theorem hydrate_failure (config : TraktConfig) (w : World) :
  let run := hydrate config w in
  let config' := fst (snd run) in
  (ClientId config' = ClientId config
   /\ ClientSecret config' = ClientSecret config
   /\ Email config' = Email config
   /\ Password config' = Password config
   /\ SyncMode config' = SyncMode config
   /\ (forall err, snd (snd run) = Err err -> accessToken config' = accessToken config))
  /\ (forall w1 cause,
        GetAuthCodes config w = (w1, Err cause) ->
        run = (w1, (config, Err (ErrWrap "failure generating auth codes" cause))))
  /\ (forall w1 authCodes,
        GetAuthCodes config w = (w1, Ok authCodes) ->
      (forall w2 cause,
        BrowseSignIn w1 = (w2, Err cause) ->
        run = (w2, (config,
                    Err (ErrWrap "failure simulating browse to the trakt sign in page"
                           cause))))
      /\ (forall w2 token1,
        BrowseSignIn w1 = (w2, Ok token1) ->
      (forall w3 cause,
        SignIn config token1 w2 = (w3, Err cause) ->
        run = (w3, (config,
                    Err (ErrWrap "failure simulating trakt sign in form submission"
                           cause))))
      /\ (forall w3,
        SignIn config token1 w2 = (w3, Ok tt) ->
      (forall w4 cause,
        BrowseActivate w3 = (w4, Err cause) ->
        run = (w4, (config,
                    Err (ErrWrap
                           "failure simulating browse to the trakt device activation page"
                           cause))))
      /\ (forall w4 token2,
        BrowseActivate w3 = (w4, Ok token2) ->
      (forall w5 cause,
        Activate (UserCode authCodes) token2 w4 = (w5, Err cause) ->
        run = (w5, (config,
                    Err (ErrWrap
                           "failure simulating trakt device activation form submission"
                           cause))))
      /\ (forall w5 token3,
        Activate (UserCode authCodes) token2 w4 = (w5, Ok token3) ->
      (forall w6 config1 cause,
        ActivateAuthorize config token3 w5 = (w6, (config1, Err cause)) ->
        run = (w6, (config1,
                    Err (ErrWrap "failure simulating trakt api app allowlisting" cause))))
      /\ (forall w6 config1,
        ActivateAuthorize config token3 w5 = (w6, (config1, Ok tt)) ->
       forall w7 cause,
        GetAccessToken config1 (DeviceCode authCodes) w6 = (w7, Err cause) ->
        run = (w7, (config1,
                    Err (ErrWrap "failure exchanging trakt device code for access token"
                           cause))))))))).
Proof.
  intros run config'. subst run config'. split.
  - pose proof (hydrate_fields config w) as Hf. cbv zeta in Hf.
    destruct Hf as (Hi & Hs & He & Hp & Hm & Herr).
    repeat split; try assumption.
    intros err Heq. rewrite Heq in Herr. apply Herr.
  - unfold hydrate, stepOf, bind, ret. split.
    { intros w1 cause ->. reflexivity. }
    intros w1 authCodes ->. split.
    { intros w2 cause ->. reflexivity. }
    intros w2 token1 ->. split.
    { intros w3 cause ->. reflexivity. }
    intros w3 ->. split.
    { intros w4 cause ->. reflexivity. }
    intros w4 token2 ->. split.
    { intros w5 cause ->. reflexivity. }
    intros w5 token3 ->. split.
    { intros w6 config1 cause ->. reflexivity. }
    intros w6 config1 ->. cbn [fst snd]. intros w7 cause ->. reflexivity.
Qed.

Lemma zip_snoc (counts : list nat) (m : nat) : forall (steps : list (string * string)) key,
  steps !! length counts = Some key ->
  concat (zip_with replicate (counts ++ [m]) steps)
  = concat (zip_with replicate counts steps) ++ replicate m key.
Proof.
  induction counts as [|c counts IH]; intros [|s steps] key Hk; try discriminate Hk.
  - cbn in Hk. inversion Hk; subst. cbn. rewrite app_nil_r. reflexivity.
  - cbn in Hk. cbn. rewrite (IH steps key Hk), app_assoc. reflexivity.
Qed.

Lemma progress_start w : progress 0 w w.
Proof. exists []. cbn. rewrite app_nil_r. repeat split. constructor. Qed.

Lemma progress_next k w0 w1 w2 m key :
  progress k w0 w1 ->
  hydrateSteps !! k = Some key ->
  (m <= 5)%nat ->
  map target (sent (trace w2)) = map target (sent (trace w1)) ++ replicate m key ->
  progress (S k) w0 w2.
Proof.
  intros (counts & Hlen & Hall & Ht) Hk Hm Hnext.
  exists (counts ++ [m]). split; [rewrite length_app; simpl; lia|].
  split; [apply Forall_app; split; [exact Hall|constructor; [exact Hm|constructor]]|].
  rewrite Hnext, Ht, <- app_assoc. f_equal. symmetry. apply zip_snoc.
  rewrite Hlen. exact Hk.
Qed.

Lemma progress_done k w0 w :
  progress k w0 w ->
  (k <= 7)%nat ->
  exists counts : list nat,
    (length counts <= 7)%nat
    /\ Forall (fun m => (m <= 5)%nat) counts
    /\ map target (sent (trace w))
       = map target (sent (trace w0)) ++ concat (zip_with replicate counts hydrateSteps).
Proof.
  intros (counts & Hlen & Hall & Ht) Hk. exists counts. repeat split; try assumption. lia.
Qed.

(** A request and then something that sends nothing. *)
Lemma targets_of_request {A} rf (k : Response.t -> M (result error A)) w :
  (forall response w1, sent (trace (fst (k response w1))) = sent (trace w1)) ->
  exists m : nat,
    (m <= 5)%nat
    /\ map target (sent (trace (fst (try (doRequest rf) k w))))
       = map target (sent (trace w))
         ++ replicate m (methodOrGet (requestFields.Method rf),
                         requestFields.BasePath rf +:+ requestFields.Endpoint rf).
Proof.
  intros Hquiet. destruct (doRequest_sent_any rf w) as (m & Hm & Hsent).
  exists m. split; [exact Hm|]. unfold try, bind.
  destruct (doRequest rf w) as [w1 [response|err]]; cbn [fst snd] in *;
    [rewrite Hquiet|unfold ret; cbn [fst]];
    rewrite Hsent, map_app, fmap_replicate, wireOf_fields; reflexivity.
Qed.

Lemma targets_of_nothing w key :
  map target (sent (trace w)) = map target (sent (trace w)) ++ replicate 0 key.
Proof. cbn. rewrite app_nil_r. reflexivity. Qed.

Lemma GetAuthCodes_targets config w :
  exists m : nat,
    (m <= 5)%nat
    /\ map target (sent (trace (fst (GetAuthCodes config w))))
       = map target (sent (trace w))
         ++ replicate m (http_MethodPost, traktPathBaseAPI +:+ traktPathAuthCodes).
Proof.
  unfold GetAuthCodes.
  destruct (lib (json_Marshal_TraktAuthCodesBody _)) as [body|err]; cbn [check].
  - apply targets_of_request. intros response [sc tr]. cbn. rewrite sent_app. cbn.
    rewrite app_nil_r. reflexivity.
  - exists O. split; [lia|apply targets_of_nothing].
Qed.

Lemma GetAccessToken_targets config deviceCode w :
  exists m : nat,
    (m <= 5)%nat
    /\ map target (sent (trace (fst (GetAccessToken config deviceCode w))))
       = map target (sent (trace w))
         ++ replicate m (http_MethodPost, traktPathBaseAPI +:+ traktPathAuthTokens).
Proof.
  unfold GetAccessToken.
  destruct (lib (json_Marshal_TraktAuthTokensBody _)) as [body|err]; cbn [check].
  - apply targets_of_request. intros response [sc tr]. cbn. rewrite sent_app. cbn.
    rewrite app_nil_r. reflexivity.
  - exists O. split; [lia|apply targets_of_nothing].
Qed.

Lemma BrowseSignIn_targets w :
  exists m : nat,
    (m <= 5)%nat
    /\ map target (sent (trace (fst (BrowseSignIn w))))
       = map target (sent (trace w))
         ++ replicate m (http_MethodGet, traktPathBaseBrowser +:+ traktPathAuthSignIn).
Proof. apply targets_of_request. reflexivity. Qed.

Lemma SignIn_targets config token w :
  exists m : nat,
    (m <= 5)%nat
    /\ map target (sent (trace (fst (SignIn config token w))))
       = map target (sent (trace w))
         ++ replicate m (http_MethodPost, traktPathBaseBrowser +:+ traktPathAuthSignIn).
Proof.
  apply targets_of_request. intros response [sc tr]. cbn. rewrite sent_app. cbn.
  rewrite app_nil_r. reflexivity.
Qed.

Lemma BrowseActivate_targets w :
  exists m : nat,
    (m <= 5)%nat
    /\ map target (sent (trace (fst (BrowseActivate w))))
       = map target (sent (trace w))
         ++ replicate m (http_MethodGet, traktPathBaseBrowser +:+ traktPathActivate).
Proof. apply targets_of_request. reflexivity. Qed.

Lemma Activate_targets userCode token w :
  exists m : nat,
    (m <= 5)%nat
    /\ map target (sent (trace (fst (Activate userCode token w))))
       = map target (sent (trace w))
         ++ replicate m (http_MethodPost, traktPathBaseBrowser +:+ traktPathActivate).
Proof. apply targets_of_request. reflexivity. Qed.

Lemma ActivateAuthorize_targets config token w :
  exists m : nat,
    (m <= 5)%nat
    /\ map target (sent (trace (fst (ActivateAuthorize config token w))))
       = map target (sent (trace w))
         ++ replicate m (http_MethodPost,
                         traktPathBaseBrowser +:+ traktPathActivateAuthorize).
Proof.
  unfold ActivateAuthorize, bind.
  change (requestFields.mk http_MethodPost traktPathBaseBrowser traktPathActivateAuthorize _ _)
    with (authorizeRequest token).
  destruct (doRequest_sent_any (authorizeRequest token) w) as (m & Hm & Hsent).
  exists m. split; [exact Hm|].
  destruct (doRequest (authorizeRequest token) w) as [w1 [response|err]]; cbn [fst snd] in *.
  - destruct (lib (scrapeSelectionAttribute _ _ _ _)) as [value|err];
      [destruct (negb (len (Go.Split value "/") =? 3))|];
      cbn [fst ret]; unfold ret; cbn [fst];
      rewrite Hsent, map_app, fmap_replicate, wireOf_fields; reflexivity.
  - unfold ret. cbn [fst].
    rewrite Hsent, map_app, fmap_replicate, wireOf_fields. reflexivity.
Qed.

(** X13.  [hydrate] goes through its seven steps in their order and never
    back: whatever comes back, its calls of the HTTP client are those of a
    first few steps, each step's call (the same method and URL) at most
    five times in a row, in the order device codes, sign-in page, sign-in
    form, activation page, activation form, authorization, token.  (The
    requests the HTTP client adds on its own when it follows a redirect are
    not calls of the program.) *)
Theorem hydrate_order (config : TraktConfig) (w : World) :
  exists counts : list nat,
    (length counts <= 7)%nat
    /\ Forall (fun m => (m <= 5)%nat) counts
    /\ map target (sent (trace (fst (hydrate config w))))
       = map target (sent (trace w)) ++ concat (zip_with replicate counts hydrateSteps).
Proof.
  unfold hydrate, stepOf, bind, ret.
  pose proof (progress_start w) as P0.
  destruct (GetAuthCodes_targets config w) as (m1 & Hm1 & Ht1).
  destruct (GetAuthCodes config w) as [w1 [authCodes|err]]; cbn [fst snd] in *;
    pose proof (progress_next _ _ _ _ _ _ P0 eq_refl Hm1 Ht1) as P1;
    [|apply (progress_done _ _ _ P1); lia].
  destruct (BrowseSignIn_targets w1) as (m2 & Hm2 & Ht2).
  destruct (BrowseSignIn w1) as [w2 [t1|err]]; cbn [fst snd] in *;
    pose proof (progress_next _ _ _ _ _ _ P1 eq_refl Hm2 Ht2) as P2;
    [|apply (progress_done _ _ _ P2); lia].
  destruct (SignIn_targets config t1 w2) as (m3 & Hm3 & Ht3).
  destruct (SignIn config t1 w2) as [w3 [u|err]]; cbn [fst snd] in *;
    pose proof (progress_next _ _ _ _ _ _ P2 eq_refl Hm3 Ht3) as P3;
    [|apply (progress_done _ _ _ P3); lia].
  destruct (BrowseActivate_targets w3) as (m4 & Hm4 & Ht4).
  destruct (BrowseActivate w3) as [w4 [t2|err]]; cbn [fst snd] in *;
    pose proof (progress_next _ _ _ _ _ _ P3 eq_refl Hm4 Ht4) as P4;
    [|apply (progress_done _ _ _ P4); lia].
  destruct (Activate_targets (UserCode authCodes) t2 w4) as (m5 & Hm5 & Ht5).
  destruct (Activate (UserCode authCodes) t2 w4) as [w5 [t3|err]]; cbn [fst snd] in *;
    pose proof (progress_next _ _ _ _ _ _ P4 eq_refl Hm5 Ht5) as P5;
    [|apply (progress_done _ _ _ P5); lia].
  destruct (ActivateAuthorize_targets config t3 w5) as (m6 & Hm6 & Ht6).
  destruct (ActivateAuthorize config t3 w5) as [w6 [config1 [u'|err]]]; cbn [fst snd] in *;
    pose proof (progress_next _ _ _ _ _ _ P5 eq_refl Hm6 Ht6) as P6;
    [|apply (progress_done _ _ _ P6); lia].
  destruct (GetAccessToken_targets config1 (DeviceCode authCodes) w6) as (m7 & Hm7 & Ht7).
  destruct (GetAccessToken config1 (DeviceCode authCodes) w6) as [w7 [tokens|err]];
    cbn [fst snd] in *;
    pose proof (progress_next _ _ _ _ _ _ P6 eq_refl Hm7 Ht7) as P7;
    apply (progress_done _ _ _ P7); lia.
Qed.

(** A request answered at once with a status the engine hands back. *)
Lemma doRequest_first rf r s tr :
  builds rf ->
  Response.StatusCode r ∈ [200; 201; 204; 404] ->
  doRequest rf (mkWorld (inr r :: s) tr)
  = (mkWorld s (tr ++ [EvSend (wireOf rf)]), Ok r).
Proof.
  intros Hb Hc. rewrite (doRequest_builds _ _ Hb).
  apply (loop_last 4 (requestFor rf) (inr r) [] (Ok r) s tr (requestFor_fresh rf)).
  apply LastSuccess. exact Hc.
Qed.

(** X14.  When every request can be built and is answered at once with a
    status the engine hands back, the bodies decode and the pages hold the
    nodes looked for, [hydrate] succeeds with exactly seven requests, in
    order, each one built from what the step before it gave: the sign-in
    form carries the token scraped from the sign-in page, the activation
    form the token of the activation page and the user code of the first
    answer, the authorization the token scraped from the answer to the
    activation form, and the token request the device code.  The access
    token of the configuration is then the one of the last answer and the
    username the last segment of the scraped link. *)
Theorem hydrate_succeeds
    (config : TraktConfig) (r1 r2 r3 r4 r5 r6 r7 : Response.t)
    (rest : list (string + Response.t))
    (body1 body7 token1 token2 token3 href : string)
    (codes : TraktAuthCodesResponse) (tokens : TraktAuthTokensResponse) :
  (forall method url, http_NewRequest_error method url = None) ->
  Forall (fun r => Response.StatusCode r ∈ [200; 201; 204; 404])
    [r1; r2; r3; r4; r5; r6; r7] ->
  json_Marshal_TraktAuthCodesBody (mkCodesBody (ClientId config)) = Ok body1 ->
  json_Decode_TraktAuthCodesResponse (Response.Body r1) = Ok codes ->
  scrapeSelectionAttribute (Response.Body r2) clientNameTrakt selectorSignIn "value"
  = Ok token1 ->
  scrapeSelectionAttribute (Response.Body r4) clientNameTrakt selectorActivate "value"
  = Ok token2 ->
  scrapeSelectionAttribute (Response.Body r5) clientNameTrakt selectorAuthorize "value"
  = Ok token3 ->
  scrapeSelectionAttribute (Response.Body r6) clientNameTrakt "#desktop-user-avatar" "href"
  = Ok href ->
  length (Go.Split href "/") = 3%nat ->
  json_Marshal_TraktAuthTokensBody
    (mkTokensBody (DeviceCode codes) (ClientId config) (ClientSecret config)) = Ok body7 ->
  json_Decode_TraktAuthTokensResponse (Response.Body r7) = Ok tokens ->
  let run := hydrate config
               (mkWorld (map inr [r1; r2; r3; r4; r5; r6; r7] ++ rest) []) in
  snd (snd run) = Ok tt
  /\ accessToken (fst (snd run)) = AccessToken tokens
  /\ last (Go.Split href "/") = Some (username (fst (snd run)))
  /\ script (fst run) = rest
  /\ map (fun q => (wireMethod q, wireURL q, wireBody q)) (sent (trace (fst run)))
     = [(http_MethodPost, traktPathBaseAPI +:+ traktPathAuthCodes, body1);
        (http_MethodGet, traktPathBaseBrowser +:+ traktPathAuthSignIn, "");
        (http_MethodPost, traktPathBaseBrowser +:+ traktPathAuthSignIn,
         url_Values_Encode
           (<[traktFormKeyUserRemember := "1"]>
            (<[traktFormKeyUserPassword := Password config]>
            (<[traktFormKeyUserLogIn := Email config]>
            (<[traktFormKeyAuthenticityToken := token1]> ∅)))));
        (http_MethodGet, traktPathBaseBrowser +:+ traktPathActivate, "");
        (http_MethodPost, traktPathBaseBrowser +:+ traktPathActivate,
         url_Values_Encode
           (<[traktFormKeyCommit := "Continue"]>
            (<[traktFormKeyCode := UserCode codes]>
            (<[traktFormKeyAuthenticityToken := token2]> ∅))));
        (http_MethodPost, traktPathBaseBrowser +:+ traktPathActivateAuthorize,
         url_Values_Encode
           (<[traktFormKeyCommit := "Yes"]>
            (<[traktFormKeyAuthenticityToken := token3]> ∅)));
        (http_MethodPost, traktPathBaseAPI +:+ traktPathAuthTokens, body7)].
Proof.
  intros Hnew Hok Hb1 Hd1 Hs2 Hs4 Hs5 Hs6 Hlen Hb7 Hd7 run. subst run.
  assert (Hbuilds : forall rf, builds rf) by (intros rf; apply Hnew).
  inversion Hok as [|? ? S1 Hok1]; subst. inversion Hok1 as [|? ? S2 Hok2]; subst.
  inversion Hok2 as [|? ? S3 Hok3]; subst. inversion Hok3 as [|? ? S4 Hok4]; subst.
  inversion Hok4 as [|? ? S5 Hok5]; subst. inversion Hok5 as [|? ? S6 Hok6]; subst.
  inversion Hok6 as [|? ? S7 _]; subst. clear Hok Hok1 Hok2 Hok3 Hok4 Hok5 Hok6.
  cbn [map app].
  unfold hydrate, stepOf.
  unfold GetAuthCodes. rewrite Hb1. cbn [lib check]. unfold try, bind.
  rewrite (doRequest_first _ _ _ _ (Hbuilds _) S1).
  unfold readAuthCodesResponse, bind, Body_Close, emit, ret. rewrite Hd1.
  cbn [lib wrap script trace].
  unfold BrowseSignIn, try, bind.
  rewrite (doRequest_first _ _ _ _ (Hbuilds _) S2). unfold ret. rewrite Hs2. cbn [lib].
  unfold SignIn, try, bind.
  rewrite (doRequest_first _ _ _ _ (Hbuilds _) S3).
  unfold Body_Close, emit, ret. cbn [script trace].
  unfold BrowseActivate, try, bind.
  rewrite (doRequest_first _ _ _ _ (Hbuilds _) S4). unfold ret. rewrite Hs4. cbn [lib].
  unfold Activate, try, bind.
  rewrite (doRequest_first _ _ _ _ (Hbuilds _) S5). unfold ret. rewrite Hs5. cbn [lib].
  unfold ActivateAuthorize, bind.
  rewrite (doRequest_first _ _ _ _ (Hbuilds _) S6). rewrite Hs6. cbn [lib].
  unfold len. rewrite Hlen. change (Z.of_nat 3 =? 3) with true. cbn [negb].
  unfold ret. cbn [fst snd].
  unfold GetAccessToken. cbn [fst snd ClientId ClientSecret]. rewrite Hb7.
  cbn [lib check]. unfold try, bind.
  rewrite (doRequest_first _ _ _ _ (Hbuilds _) S7).
  unfold readAuthTokensResponse, bind, Body_Close, emit, ret. rewrite Hd7.
  cbn [lib wrap script trace fst snd accessToken username].
  split; [reflexivity|]. split; [reflexivity|]. split.
  { destruct (Go.Split href "/") as [|a [|b [|c [|d l]]]]; try discriminate Hlen.
    reflexivity. }
  split; [reflexivity|].
  rewrite !sent_app. cbn [sent app map]. rewrite !wireOf_fields. reflexivity.
Qed.

End SignInFacts.

(** * More on the mapping, the username and the get operations *)

Section More.
Context `{Externals}.

(** X15.  The add-body mapping goes through the items one by one: the body
    of two sequences one after the other is, collection by collection, the
    body of the first followed by the body of the second, so entries add up
    and keep the order of the items; and there are never more entries than
    items. *)
Theorem mapTraktItemsToTraktBody_app (items1 items2 : TraktItems) :
  let body := mapTraktItemsToTraktBody (items1 ++ items2) in
  let body1 := mapTraktItemsToTraktBody items1 in
  let body2 := mapTraktItemsToTraktBody items2 in
  Movies body = Movies body1 ++ Movies body2
  /\ Shows body = Shows body1 ++ Shows body2
  /\ Episodes body = Episodes body1 ++ Episodes body2
  /\ entries body = (entries body1 + entries body2)%nat
  /\ (entries body <= length (items1 ++ items2))%nat.
Proof.
  intros body body1 body2. subst body body1 body2.
  rewrite !entries_count. rewrite !mapTraktItemsToTraktBody_filter. cbn [Movies Shows Episodes].
  rewrite !List.filter_app, !map_app, !length_app.
  repeat split; try reflexivity.
  pose proof (List.filter_length_le recognized items1).
  pose proof (List.filter_length_le recognized items2). lia.
Qed.

Lemma countByte_app c s1 s2 :
  countByte c (s1 +:+ s2) = (countByte c s1 + countByte c s2)%nat.
Proof.
  induction s1 as [|a s1 IH]; [reflexivity|].
  change (String a s1 +:+ s2) with (String a (s1 +:+ s2)).
  cbn [countByte]. destruct (Ascii.eqb a c); rewrite IH; reflexivity.
Qed.

Lemma split_slash_segments s : forall cur,
  countByte "/" cur = O ->
  Forall (fun segment => countByte "/" segment = O) (Go.split_loop "/" s O cur).
Proof.
  induction s as [|c s IH]; intros cur Hcur.
  - constructor; [exact Hcur|constructor].
  - cbn [Go.split_loop Go.hasPrefix].
    destruct (Ascii.eqb "/" c) eqn:Hc; cbn.
    + constructor; [exact Hcur|]. apply IH. reflexivity.
    + apply IH. rewrite countByte_app, Hcur. cbn.
      rewrite Ascii.eqb_sym, Hc. reflexivity.
Qed.

(** X16.  [ActivateAuthorize] sets the username or nothing.  When it returns
    no error, the username is a segment of the scraped link and so has no
    slash in it, and the other fields of the configuration are as before;
    when it returns an error, whichever of the request, the scraping and
    the count of segments failed, the configuration is untouched. *)
Theorem ActivateAuthorize_result
    (config : TraktConfig) (authenticityToken : string) (w : World) :
  let run := ActivateAuthorize config authenticityToken w in
  match snd (snd run) with
  | Ok _ =>
      countByte "/" (username (fst (snd run))) = O
      /\ fst (snd run)
         = mkTraktConfig (accessToken config) (ClientId config) (ClientSecret config)
             (Email config) (Password config) (username (fst (snd run)))
             (SyncMode config)
  | Err _ => fst (snd run) = config
  end.
Proof.
  unfold ActivateAuthorize, bind.
  destruct (doRequest _ w) as [w1 [response|err]]; [|reflexivity].
  destruct (lib (scrapeSelectionAttribute _ _ _ _)) as [value|err]; [|reflexivity].
  pose proof (split_slash_segments value "" eq_refl) as Hseg.
  change (Go.split_loop "/" value 0 "") with (Go.Split value "/") in Hseg.
  remember (Go.Split value "/") as pieces eqn:Hp. clear Hp.
  destruct (negb (len pieces =? 3)) eqn:Hlen; [reflexivity|].
  unfold ret. cbn [fst snd username]. split; [|reflexivity].
  apply negb_false_iff, Z.eqb_eq in Hlen. unfold len in Hlen.
  destruct pieces as [|a [|b [|c l]]]; try (cbn in Hlen; lia).
  cbn [nth]. inversion Hseg as [|? ? _ Hseg1]; subst.
  inversion Hseg1 as [|? ? _ Hseg2]; subst.
  inversion Hseg2 as [|? ? Hc _]; subst. exact Hc.
Qed.

(** X17.  A get operation ends as its request ends.  An error of the
    request engine is returned as it is.  Of the responses the engine hands
    back, [ListGet] alone reads the status: a 404 becomes the not-found
    error of the list.  Otherwise the body is decoded, a 404 like any other
    answer: into the items of the list named by the identifier (the
    watchlist under the slug watchlist and flagged as such), into the
    lists, or into the items, and a body that does not decode is the error
    "failure unmarshalling trakt list" ("... lists" for the lists). *)
Theorem ask_outcome (config : TraktConfig) (q : Query) (w : World) :
  let run := doRequest (queryRequest config q) w in
  match snd run with
  | Err e => ask config q w = (fst run, Err e)
  | Ok response =>
      let items :=
        match json_Decode_TraktItems (Response.Body response) with
        | Ok items => Ok items
        | Err d => Err (ErrWrap "failure unmarshalling trakt list" (ErrLib d))
        end in
      snd (ask config q w)
      = match q with
        | DoWatchlistGet =>
            match items with
            | Ok items => Ok (AList (mkTraktList (mkTraktIds "" "watchlist") true items))
            | Err e => Err e
            end
        | DoListGet listId =>
            if Response.StatusCode response =? 404 then
              Err (ErrApi (ApiError.mk (Response.RequestMethod response)
                             (Response.RequestURL response) 404
                             ("list with id " +:+ listId +:+ " could not be found")))
            else
              match items with
              | Ok items => Ok (AList (mkTraktList (mkTraktIds "" listId) false items))
              | Err e => Err e
              end
        | DoListsMetadataGet =>
            match json_Decode_TraktLists (Response.Body response) with
            | Ok ls => Ok (ALists ls)
            | Err d => Err (ErrWrap "failure unmarshalling trakt lists" (ErrLib d))
            end
        | DoRatingsGet | DoHistoryGet _ _ =>
            match items with
            | Ok items => Ok (AItems items)
            | Err e => Err e
            end
        end
  end.
Proof.
  intros run. subst run. rewrite ask_executes. unfold bind.
  destruct (doRequest (queryRequest config q) w) as [w1 [response|err]];
    cbn [fst snd]; [|reflexivity].
  destruct q; cbn [deliver]; unfold answer, readTraktListResponse, readTraktLists,
    readTraktItems, bind, Body_Close, emit, ret, wrap, lib, http_StatusNotFound;
    try (destruct (Z.eqb_spec (Response.StatusCode response) 404)
           as [Heq|Hne]; [rewrite Heq; reflexivity|]);
    try destruct (json_Decode_TraktItems (Response.Body response));
    try destruct (json_Decode_TraktLists (Response.Body response));
    reflexivity.
Qed.

Lemma deliver_closes q response w :
  (closes (trace (fst (deliver q response w))) + leftOpen q (Ok response)
   = S (closes (trace w)))%nat.
Proof.
  destruct w as [sc tr].
  destruct q; unfold deliver, answer, readTraktListResponse, readTraktLists,
    readTraktItems, Body_Close, emit, bind, ret, leftOpen;
    cbn [script trace fst snd];
    try (destruct (Response.StatusCode response =? http_StatusNotFound);
         cbn [script trace fst snd]);
    rewrite ?closes_app; cbn [closes]; lia.
Qed.

(** X18.  The get operations close the body of every response they receive
    but one: [ListGet] returns its not-found error without closing the body
    of the 404 response.  When the request can be built, the bodies closed
    during the call, plus one for that response, are as many as the
    responses received. *)
Theorem ask_closes_bodies (config : TraktConfig) (q : Query) (w : World) :
  builds (queryRequest config q) ->
  let run := ask config q w in
  exists m : nat,
    script (fst run) = drop m (script w)
    /\ (closes (trace (fst run))
        + leftOpen q (snd (doRequest (queryRequest config q) w))
        = closes (trace w) + responsesIn (take m (script w)))%nat.
Proof.
  intros Hb run. subst run. rewrite ask_executes. unfold bind.
  destruct (doRequest_closes (queryRequest config q) w Hb) as (m & _ & Hd & Hc).
  exists m.
  destruct (doRequest (queryRequest config q) w) as [w1 [response|err]];
    cbn [fst snd handedBack] in *.
  - destruct (deliver_quiet q response w1) as [_ ->].
    pose proof (deliver_closes q response w1). split; [exact Hd|lia].
  - unfold ret. cbn [fst]. split; [exact Hd|].
    destruct q; cbn [leftOpen]; lia.
Qed.

(** X19.  A mutating operation that is let through but cannot send fails
    without touching the network: when its body cannot be encoded it
    returns the encoder's error, when its request cannot be built the error
    "error creating http request" with the method and the URL; either way
    the world is as before, no request, no log entry. *)
Theorem perform_unsendable (config : TraktConfig) (op : Mutation) (w : World) :
  skipped (SyncMode config) op = false ->
  match requestOf config op with
  | Err e => perform config op w = (w, Err e)
  | Ok rf =>
      forall e,
        http_NewRequest_error (requestFields.Method rf)
          (requestFields.BasePath rf +:+ requestFields.Endpoint rf) = Some e ->
        perform config op w
        = (w, Err (ErrWrap ("error creating http request " +:+ requestFields.Method rf
                            +:+ " " +:+ requestFields.BasePath rf
                            +:+ requestFields.Endpoint rf) (ErrLib e)))
  end.
Proof.
  intros Hs. rewrite (perform_executes config op w Hs).
  destruct (requestOf config op) as [rf|e]; cbn [check]; [|reflexivity].
  intros e He. unfold try, bind, doRequest, http_NewRequest. rewrite He. reflexivity.
Qed.

End More.

(** * What the engine hands back *)

Section HandedBack.
Context `{Externals}.

Lemma lastRound_handed request o evs res response :
  lastRound request o evs res ->
  res = Ok response ->
  o = inr response /\ Response.StatusCode response ∈ [200; 201; 204; 404].
Proof.
  destruct 1; intros Heq; inversion Heq; subst. split; [reflexivity|assumption].
Qed.

Lemma loop_handed k : forall request w response,
  backBuf (Request.Body request) = "" ->
  snd (doRequest_loop k request w) = Ok response ->
  inr response ∈ script w /\ Response.StatusCode response ∈ [200; 201; 204; 404].
Proof.
  induction k as [|k IH]; intros request [sc tr] response Hf; [discriminate|].
  destruct sc as [|o s].
  - rewrite (loop_nil _ _ _ Hf). discriminate.
  - destruct (outcome_cases request o) as [(evs & res & Hl)|(r & n & -> & Hr)].
    + rewrite (loop_last _ _ _ _ _ _ _ Hf Hl). cbn [snd script]. intros Heq.
      destruct (lastRound_handed _ _ _ _ _ Hl Heq) as [-> Hc].
      split; [left|exact Hc].
    + rewrite (loop_rate_limited _ _ _ _ _ _ Hf Hr). intros Heq.
      destruct (IH _ _ _ Hf Heq) as [Hin Hc]. cbn [script] in *.
      split; [right; exact Hin|exact Hc].
Qed.

(** X20.  [doRequest] never hands back a response with a status other than
    200, 201, 204 and 404: a caller that gets a response and no error need
    not look for a 429, a 420 or a 5xx.  The response handed back is one the
    peer gave, unchanged. *)
Theorem doRequest_hands_back (rf : requestFields.t) (w : World) :
  match snd (doRequest rf w) with
  | Ok response =>
      Response.StatusCode response ∈ [200; 201; 204; 404]
      /\ inr response ∈ script w
  | Err _ => True
  end.
Proof.
  destruct (snd (doRequest rf w)) as [response|err] eqn:Hrun; [|exact I].
  unfold doRequest, http_NewRequest in Hrun.
  destruct (http_NewRequest_error _ _) as [e|]; [discriminate Hrun|].
  destruct (loop_handed 5 (requestFor rf) w response (requestFor_fresh rf) Hrun)
    as [Hin Hc].
  split; assumption.
Qed.

End HandedBack.

(** * The claims at sample inputs *)

#[local] Existing Instance mockExternals.

(** One rate-limited answer, then a success: the general statement at this
    input. *)
Example doRequest_rate_limit_retry_sample :
  let rns := [(Sample.answer 429 (Some "2"), 2)] in
  let run := doRequest Sample.request
               (mkWorld (answers rns ++ [inr (Sample.answer 200 None)]) []) in
  Forall (fun p => snd p <= 9223372036 ->
                   snd p * Go.Second <= Go.waited (Go.seconds (snd p))) rns
  /\ (exists more,
        net (trace (fst run))
        = rounds (wireOf Sample.request) rns ++ NSend (wireOf Sample.request) :: more)
  /\ (exists m, (m <= 5)%nat /\ sent (trace (fst run)) = replicate m (wireOf Sample.request)).
Proof.
  destruct (@doRequest_rate_limit_retry mockExternals Sample.request
              [(Sample.answer 429 (Some "2"), 2)] [inr (Sample.answer 200 None)]
              eq_refl ltac:(repeat constructor))
    as (Hwait & Hagain & Hsent & _).
  split; [exact Hwait|]. split; [apply Hagain; simpl; lia|exact Hsent].
Qed.

(** With [Retry-After: 2] the engine waits two seconds, then sends the same
    request again and hands back the answer to it. *)
Example doRequest_retry_after_2 :
  let run := doRequest Sample.request
               (mkWorld [inr (Sample.answer 429 (Some "2"));
                         inr (Sample.answer 200 None)] []) in
  net (trace (fst run))
  = [NSend (wireOf Sample.request); NSleep (2 * Go.Second); NSend (wireOf Sample.request)]
  /\ wireBody (wireOf Sample.request) = "{}"
  /\ snd run = Ok (Sample.answer 200 None).
Proof. vm_compute. repeat split; reflexivity. Qed.

(** Five rate-limited answers in a row: five requests, then the error. *)
Example doRequest_max_retries :
  let run := doRequest Sample.request
               (mkWorld (replicate 6 (inr (Sample.answer 429 (Some "0")))) []) in
  snd run
  = Err (ErrNew "reached max retry attempts for POST https://api.trakt.tv/sync/watchlist")
  /\ length (sent (trace (fst run))) = 5%nat
  /\ length (script (fst run)) = 1%nat.
Proof. vm_compute. repeat split; reflexivity. Qed.

(** C1 fails on the code.  A 429 answer whose [Retry-After] is 9223372037
    reads as an integer, but [time.Duration(9223372037) * time.Second]
    overflows the 64 bits of a duration and wraps around to a negative one,
    -9223372036.709551616s.  [time.Sleep] of it returns at once: the engine
    calls the HTTP client again for the same method, URL and body without
    having waited at all, where it is to sleep for at least 9223372037
    seconds first, and it hands back the answer to that second attempt. *)
Theorem doRequest_retry_after_overflow :
  let r := Sample.answer 429 (Some "9223372037") in
  let run := doRequest Sample.request
               (mkWorld [inr r; inr (Sample.answer 200 None)] []) in
  let call := ("POST", "https://api.trakt.tv/sync/watchlist", "{}") in
  rateLimited r 9223372037
  /\ Go.seconds 9223372037 = -9223372036709551616
  /\ map outlineNet (net (trace (fst run)))
     = [inl call; inr (-9223372036709551616); inl call]
  /\ Go.waited (-9223372036709551616) = 0
  /\ ~ (9223372037 * Go.Second <= Go.waited (Go.seconds 9223372037))
  /\ snd run = Ok (Sample.answer 200 None).
Proof.
  split; [split; reflexivity|].
  split; [reflexivity|].
  split; [vm_compute; reflexivity|].
  split; [reflexivity|].
  split; [|vm_compute; reflexivity].
  vm_compute. intros Hle. apply Hle. reflexivity.
Qed.

Lemma doRequest_enhance_your_calm_witness :
  let r := Sample.answer 420 None in
  let run := doRequest Sample.request (mkWorld [inr r; inr (Sample.answer 200 None)] []) in
  snd run = Err (ErrApi (ApiError.mk (Response.RequestMethod r) (Response.RequestURL r)
                           420 enhanceYourCalmDetails))
  /\ sent (trace (fst run)) = [wireOf Sample.request]
  /\ net (trace (fst run)) = [NSend (wireOf Sample.request)]
  /\ script (fst run) = [inr (Sample.answer 200 None)].
Proof.
  apply (doRequest_enhance_your_calm Sample.request [] (Sample.answer 420 None)
           [inr (Sample.answer 200 None)]).
  - reflexivity.
  - constructor.
  - simpl. lia.
  - reflexivity.
Defined.

Lemma doRequest_classification_witness :
  let r := Sample.answer 503 None in
  let run := doRequest Sample.request (mkWorld [inr r] []) in
  (Response.StatusCode r ∈ [200; 201; 204; 404] -> snd run = Ok r)
  /\ (Response.StatusCode r ∉ [200; 201; 204; 404; 420; 429] ->
      snd run = Err (ErrApi (ApiError.mk (Response.RequestMethod r)
                               (Response.RequestURL r) (Response.StatusCode r)
                               ("unexpected status code "
                                +:+ Go.Itoa (Response.StatusCode r))))).
Proof.
  apply (doRequest_classification Sample.request [] (Sample.answer 503 None) []).
  - reflexivity.
  - constructor.
  - simpl. lia.
Defined.

Example doRequest_503 :
  snd (doRequest Sample.request (mkWorld [inr (Sample.answer 503 None)] []))
  = Err (ErrApi (ApiError.mk "POST" "https://api.trakt.tv/sync/watchlist" 503
                   "unexpected status code 503")).
Proof. reflexivity. Qed.

Example doRequest_404 :
  snd (doRequest Sample.request (mkWorld [inr (Sample.answer 404 None)] []))
  = Ok (Sample.answer 404 None).
Proof. reflexivity. Qed.

Lemma doRequest_retry_after_malformed_witness :
  let r := Sample.answer 429 None in
  let run := doRequest Sample.request (mkWorld [inr r; inr (Sample.answer 200 None)] []) in
  (exists err,
      Go.Atoi (Header_Get (Response.Header r) traktHeaderKeyRetryAfter) = Err err
      /\ snd run
         = Err (ErrWrap "failure parsing the value of trakt header Retry-After to integer"
                  (ErrNum err)))
  /\ net (trace (fst run)) = [NSend (wireOf Sample.request)]
  /\ script (fst run) = [inr (Sample.answer 200 None)].
Proof.
  apply (doRequest_retry_after_malformed Sample.request [] (Sample.answer 429 None)
           [inr (Sample.answer 200 None)]).
  - reflexivity.
  - constructor.
  - simpl. lia.
  - reflexivity.
  - apply Retry_After_absent. reflexivity.
Defined.

Example doRequest_retry_after_date :
  snd (doRequest Sample.request
         (mkWorld [inr (Sample.answer 429 (Some "Wed, 21 Oct 2015 07:28:00 GMT"))] []))
  = Err (ErrWrap "failure parsing the value of trakt header Retry-After to integer"
           (ErrNum (Go.mkNumError "Atoi" "Wed, 21 Oct 2015 07:28:00 GMT" Go.ErrSyntax))).
Proof. reflexivity. Qed.

Lemma ListGet_not_found_witness :
  let r := Sample.answer 404 None in
  let run := ListGet (Sample.config traktSyncModeFull) "favourites" (mkWorld [inr r] []) in
  let notFound :=
    ErrApi (ApiError.mk (Response.RequestMethod r) (Response.RequestURL r) 404
              "list with id favourites could not be found") in
  snd run = Err notFound
  /\ isNotFound notFound = true
  /\ (forall rf w err, snd (doRequest rf w) = Err err -> isNotFound err = false).
Proof.
  apply (ListGet_not_found (Sample.config traktSyncModeFull) "favourites" []
           (Sample.answer 404 None) []).
  - reflexivity.
  - constructor.
  - simpl. lia.
  - reflexivity.
Defined.

Lemma ActivateAuthorize_username_witness :
  let response := Sample.answer 200 None in
  let run := ActivateAuthorize (Sample.config traktSyncModeFull) "csrf"
               (mkWorld [inr response] []) in
  Go.Split "/users/alice" "/" = [""; "users"; "alice"]
  /\ snd (snd run) = Ok tt
  /\ username (fst (snd run)) = "alice".
Proof.
  pose proof (ActivateAuthorize_username (Sample.config traktSyncModeFull) "csrf"
                (mkWorld [inr (Sample.answer 200 None)] [])
                (fst (doRequest (authorizeRequest "csrf")
                        (mkWorld [inr (Sample.answer 200 None)] [])))
                (Sample.answer 200 None) "/users/alice" eq_refl eq_refl)
    as (_ & _ & Hthree & _).
  destruct (Hthree eq_refl) as (Hok & Hthird & _).
  split; [reflexivity|]. split; [exact Hok|].
  vm_compute in Hthird. inversion Hthird. reflexivity.
Defined.

(** Two segments, or four: the step fails. *)
Example ActivateAuthorize_other_counts :
  let run value :=
    ActivateAuthorize (Sample.config traktSyncModeFull) "csrf"
      (mkWorld [inr (Response.mk 200 ∅ "POST" "https://trakt.tv/activate/authorize" value)]
         []) in
  snd (snd (run "/alice")) = Err (ErrNew "failure scraping trakt username")
  /\ snd (snd (run "/users/alice/")) = Err (ErrNew "failure scraping trakt username")
  /\ snd (snd (run "a/b/c")) = Ok tt
  /\ username (fst (snd (run "a/b/c"))) = "c".
Proof. vm_compute. repeat split; reflexivity. Qed.

Lemma sync_mode_gating_witness :
  let w := mkWorld [inr (Sample.answer 200 None)] [] in
  let held := perform (Sample.config traktSyncModeAddOnly) (DoHistoryRemove [Sample.movie]) w in
  let through := perform (Sample.config traktSyncModeAddOnly) (DoHistoryAdd [Sample.movie]) w in
  let asked := ask (Sample.config traktSyncModeDryRun) DoRatingsGet w in
  (snd held = Ok tt /\ sent (trace (fst held)) = [] /\ script (fst held) = script w)
  /\ map outline (sent (trace (fst through)))
     = [("POST", "https://api.trakt.tv/sync/history", "{}")]
  /\ map outline (sent (trace (fst asked)))
     = [("GET", "https://api.trakt.tv/sync/ratings", "")].
Proof.
  assert (Hprompt : promptly (mkWorld [inr (Sample.answer 200 None)] [])).
  { intros r n Hhead [Hcode _]. inversion Hhead; subst. discriminate Hcode. }
  split; [|split].
  - apply (@sync_mode_gating mockExternals (Sample.config traktSyncModeAddOnly)
             (DoHistoryRemove [Sample.movie]) DoRatingsGet traktSyncModeDryRun
             (mkWorld [inr (Sample.answer 200 None)] []) [] [] Sample.idA
             (mkFetch [] O [] None false [])).
    reflexivity.
  - destruct (@sync_mode_gating mockExternals (Sample.config traktSyncModeAddOnly)
                (DoHistoryAdd [Sample.movie]) DoRatingsGet traktSyncModeDryRun
                (mkWorld [inr (Sample.answer 200 None)] []) [] [] Sample.idA
                (mkFetch [] O [] None false []))
      as (_ & Hthrough & _).
    destruct (Hthrough eq_refl _ eq_refl eq_refl) as (m & _ & Hcalled & Hone).
    rewrite (Hone Hprompt) in Hcalled. exact Hcalled.
  - destruct (@sync_mode_gating mockExternals (Sample.config traktSyncModeAddOnly)
                (DoHistoryAdd [Sample.movie]) DoRatingsGet traktSyncModeDryRun
                (mkWorld [inr (Sample.answer 200 None)] []) [] [] Sample.idA
                (mkFetch [] O [] None false []))
      as (_ & _ & _ & (_ & Hasked) & _).
    destruct (Hasked eq_refl) as (m & _ & Hcalled & Hone).
    rewrite (Hone Hprompt) in Hcalled. exact Hcalled.
Defined.

(** The table of the modes, on the history of one movie and an answering
    peer: requests sent per mode, for add and for remove. *)
Example mode_table :
  let requests mode op :=
    length (sent (trace (fst (perform (Sample.config mode) op
                                (mkWorld [inr (Sample.answer 200 None)] []))))) in
  map (fun mode => (requests mode (DoHistoryAdd [Sample.movie]),
                    requests mode (DoHistoryRemove [Sample.movie])))
    [traktSyncModeFull; traktSyncModeAddOnly; traktSyncModeDryRun]
  = [(1, 1); (1, 0); (0, 0)]%nat.
Proof. vm_compute. reflexivity. Qed.

(** C2, as stated, fails under rate limiting: in mode full, an add whose
    first attempt is answered 429 has the HTTP client called twice, for two
    requests at the least, not exactly one. *)
Lemma sync_mode_gating_counterexample :
  let run := perform (Sample.config traktSyncModeFull) (DoWatchlistItemsAdd [Sample.movie])
               (mkWorld [inr (Sample.answer 429 (Some "1"));
                         inr (Sample.answer 201 None)] []) in
  skipped traktSyncModeFull (DoWatchlistItemsAdd [Sample.movie]) = false
  /\ snd run = Ok tt
  /\ length (sent (trace (fst run))) = 2%nat.
Proof. vm_compute. repeat split; reflexivity. Qed.

Lemma mapTraktItemsToTraktBody_round_trip_witness :
  let others := [mkTraktItem "show" zeroSpec Sample.movieId zeroSpec] in
  let body := mapTraktItemsToTraktBody (others ++ Sample.movie :: others) in
  itemInvariant Sample.movie
  /\ onlyMovieIdentifier Sample.movie
  /\ Movies body = [Sample.movieId]
  /\ Shows body = [Sample.movieId; Sample.movieId]
  /\ Episodes body = []
  /\ mapTraktItemsToTraktBody [Sample.movie] = mkTraktListBody [Sample.movieId] [] []
  /\ entries body = 3%nat.
Proof.
  assert (Honly : onlyMovieIdentifier Sample.movie)
    by (repeat split; try reflexivity; discriminate).
  assert (Hinv : itemInvariant Sample.movie)
    by (left; repeat split; try reflexivity; discriminate).
  split; [exact Hinv|]. split; [exact Honly|].
  exact (mapTraktItemsToTraktBody_round_trip
           [mkTraktItem "show" zeroSpec Sample.movieId zeroSpec]
           [mkTraktItem "show" zeroSpec Sample.movieId zeroSpec]
           Sample.movie Hinv Honly).
Defined.

(** The mapping goes by the tag alone: what the payloads hold plays no part. *)
Example mapTraktItemsToTraktBody_by_tag :
  let body := mapTraktItemsToTraktBody [Sample.untagged; Sample.movie; Sample.mistagged] in
  Movies body = [Sample.movieId]
  /\ Shows body = [zeroSpec]
  /\ Episodes body = []
  /\ ~ itemInvariant Sample.untagged
  /\ ~ itemInvariant Sample.mistagged.
Proof.
  repeat split; try reflexivity.
  - intros [(Htag & _)|[(Htag & _)|(Htag & _)]]; discriminate Htag.
  - intros [(Htag & _)|[(_ & Hzero & _)|(Htag & _)]]; discriminate.
Qed.

Example mapTraktItemsToTraktBody_sample :
  mapTraktItemsToTraktBody
    [Sample.movie; Sample.untagged; mkTraktItem "episode" zeroSpec zeroSpec Sample.movieId;
     mkTraktItem "person" Sample.movieId zeroSpec zeroSpec]
  = mkTraktListBody [Sample.movieId] [] [Sample.movieId].
Proof. reflexivity. Qed.

(** * The concurrent list fetcher *)

(** C5 fails on the code.  Two identifiers, the first answered 404, the
    second 200.  Under a schedule in which the main loop receives the list
    before [doneChan] is closed, [ListsGet] returns the one list (N - 1) and
    no error.  Under a schedule in which both goroutines finish and
    [doneChan] is closed while the list still sits in [outChan], the
    [select] may take [doneChan]: [ListsGet] returns no list at all, and no
    error.  In the same way an error waiting in [errChan] is lost when the
    [select] takes [doneChan]: one identifier, a transport error, and
    [ListsGet] returns an empty result without the error. *)
Theorem ListsGet_select_race :
  let config := Sample.config traktSyncModeFull in
  let w := mkWorld [inr (Sample.answer 404 None); inr (Sample.answer 200 None)] [] in
  let broken := mkWorld [inl "connection reset by peer"] [] in
  snd (ListsGet config [Sample.idA; Sample.idB]
         [RunTask 0; RunTask 0; RecvOut; CloseDone; RecvDone] w)
  = Some (Ok [mkTraktList Sample.idB false []])
  /\ snd (ListsGet config [Sample.idA; Sample.idB]
            [RunTask 0; RunTask 0; CloseDone; RecvDone] w)
     = Some (Ok [])
  /\ snd (ListsGet config [Sample.idA] [RunTask 0; RecvErr] broken)
     = Some (Err (ErrWrap "unexpected error while fetching trakt lists"
                    (ErrWrap ("error sending http request GET, "
                              +:+ "https://api.trakt.tv/users/alice/lists/a/items")
                       (ErrTransport "connection reset by peer"))))
  /\ snd (ListsGet config [Sample.idA] [RunTask 0; CloseDone; RecvDone] broken)
     = Some (Ok []).
Proof. vm_compute. repeat split; reflexivity. Qed.

(** * The library functions at sample inputs *)

Example Atoi_2 : Go.Atoi "2" = Ok 2.
Proof. reflexivity. Qed.

Example Atoi_signed : Go.Atoi "-17" = Ok (-17) /\ Go.Atoi "+3" = Ok 3.
Proof. split; reflexivity. Qed.

Example Atoi_empty : Go.Atoi "" = Err (Go.mkNumError "Atoi" "" Go.ErrSyntax).
Proof. reflexivity. Qed.

Example Atoi_fraction : Go.Atoi "1.5" = Err (Go.mkNumError "Atoi" "1.5" Go.ErrSyntax).
Proof. reflexivity. Qed.

Example Atoi_range :
  Go.Atoi "9223372036854775807" = Ok Go.maxInt64
  /\ Go.Atoi "9223372036854775808"
     = Err (Go.mkNumError "Atoi" "9223372036854775808" Go.ErrRange)
  /\ Go.Atoi "-9223372036854775808" = Ok Go.minInt64.
Proof. repeat split; reflexivity. Qed.

Example seconds_wrap :
  Go.seconds 2 = 2000000000
  /\ Go.seconds 9223372036 = 9223372036000000000
  /\ Go.seconds 9223372037 = -9223372036709551616.
Proof. repeat split; reflexivity. Qed.

Example Split_href : Go.Split "/users/alice" "/" = [""; "users"; "alice"].
Proof. reflexivity. Qed.

Example Split_no_separator : Go.Split "" "/" = [""] /\ Go.Split "alice" "/" = ["alice"].
Proof. split; reflexivity. Qed.

Example Split_long_separator : Go.Split "a--b--c" "--" = ["a"; "b"; "c"].
Proof. reflexivity. Qed.

Example Itoa_sample : Go.Itoa 503 = "503" /\ Go.Itoa 0 = "0" /\ Go.Itoa (-7) = "-7".
Proof. repeat split; reflexivity. Qed.

Example CanonicalMIMEHeaderKey_sample :
  map Go.CanonicalMIMEHeaderKey
    ["trakt-api-key"; "content-TYPE"; "Retry-After"; "user[login]"; "x forwarded"; ""]
  = ["Trakt-Api-Key"; "Content-Type"; "Retry-After"; "user[login]"; "x forwarded"; ""].
Proof. reflexivity. Qed.

(** A header set under one spelling of its key is read under any other. *)
Example Header_Get_any_case :
  Header_Get (Header_Set "content-type" "application/json" ∅) "Content-Type"
  = "application/json"
  /\ Header_Get (Header_Set "content-type" "application/json" ∅) "Accept" = "".
Proof. split; reflexivity. Qed.

Example reader_replays :
  readAll (ReusableReader "{}") = ("{}", ReusableReader "{}").
Proof. reflexivity. Qed.

(** * The further properties at sample inputs *)

#[local] Existing Instance mockAuthExternals.

Lemma doRequest_transport_error_witness :
  let run := doRequest Sample.request
               (mkWorld [inr (Sample.answer 429 (Some "1")); inl "connection reset by peer";
                         inr (Sample.answer 200 None)] []) in
  snd run
  = Err (ErrWrap "error sending http request POST, https://api.trakt.tv/sync/watchlist"
           (ErrTransport "connection reset by peer"))
  /\ map outline (sent (trace (fst run)))
     = replicate 2 ("POST", "https://api.trakt.tv/sync/watchlist", "{}")
  /\ map outlineNet (net (trace (fst run)))
     = [inl ("POST", "https://api.trakt.tv/sync/watchlist", "{}"); inr (Go.seconds 1);
        inl ("POST", "https://api.trakt.tv/sync/watchlist", "{}")]
  /\ script (fst run) = [inr (Sample.answer 200 None)].
Proof.
  exact (@doRequest_transport_error mockExternals Sample.request
           [(Sample.answer 429 (Some "1"), 1)]
           "connection reset by peer" [inr (Sample.answer 200 None)]
           eq_refl ltac:(repeat constructor) ltac:(simpl; lia)).
Defined.

Lemma doRequest_wire_witness :
  let rf := requestFields.mk "" traktPathBaseBrowser traktPathActivate "code=USER"
              {[ "content-type" := "application/x-www-form-urlencoded" ]} in
  let q := wireOf rf in
  outline q = ("GET", "https://trakt.tv/activate", "code=USER")
  /\ Header_Get (wireHeader q) "Content-Type" = "application/x-www-form-urlencoded"
  /\ Header_Get (wireHeader q) "CONTENT-TYPE" = "application/x-www-form-urlencoded"
  /\ Header_Get (wireHeader q) "Content-Length" = "".
Proof.
  assert (Hd : distinctHeaders {[ "content-type" := "application/x-www-form-urlencoded" ]}).
  { intros k1 k2 [v1 H1] [v2 H2] _.
    apply lookup_singleton_Some in H1 as [<- _].
    apply lookup_singleton_Some in H2 as [<- _]. reflexivity. }
  destruct (@doRequest_wire mockExternals
              (requestFields.mk "" traktPathBaseBrowser traktPathActivate "code=USER"
                 {[ "content-type" := "application/x-www-form-urlencoded" ]})
              (mkWorld [] []) eq_refl Hd)
    as (_ & Hline & Hset & Hnot).
  split; [exact Hline|]. split; [|split].
  - apply (Hset "content-type"); reflexivity.
  - apply (Hset "content-type"); reflexivity.
  - apply Hnot. intros key [v Hk]. cbn [requestFields.Headers] in Hk.
    apply lookup_singleton_Some in Hk as [<- _].
    vm_compute. discriminate.
Defined.

Lemma doRequest_closes_bodies_witness :
  let w := mkWorld [inr (Sample.answer 429 (Some "1")); inr (Sample.answer 503 None)] [] in
  let run := doRequest Sample.request w in
  exists m : nat,
    sent (trace (fst run)) = sent (trace w) ++ replicate m (wireOf Sample.request)
    /\ script (fst run) = drop m (script w)
    /\ (closes (trace (fst run)) + handedBack (snd run)
        = closes (trace w) + responsesIn (take m (script w)))%nat.
Proof.
  apply (doRequest_closes_bodies Sample.request
           (mkWorld [inr (Sample.answer 429 (Some "1")); inr (Sample.answer 503 None)] [])).
  reflexivity.
Defined.

(** Two responses received and none handed back: two bodies closed. *)
Example doRequest_closes_two :
  closes (trace (fst (doRequest Sample.request
                        (mkWorld [inr (Sample.answer 429 (Some "1"));
                                  inr (Sample.answer 503 None)] [])))) = 2%nat.
Proof. reflexivity. Qed.

Lemma perform_outcome_witness :
  let config := Sample.config traktSyncModeFull in
  let w := mkWorld [inr (Sample.answer 404 None)] [] in
  snd (perform config (DoListRemove "gone") w) = Ok tt.
Proof.
  exact (perform_outcome (Sample.config traktSyncModeFull) (DoListRemove "gone")
           (requestFields.mk http_MethodDelete traktPathBaseAPI
              (traktPathUserList "alice" "gone") http_NoBody
              (defaultApiHeaders (Sample.config traktSyncModeFull)))
           (mkWorld [inr (Sample.answer 404 None)] []) eq_refl eq_refl).
Defined.

Lemma perform_closes_bodies_witness :
  let config := Sample.config traktSyncModeFull in
  let w := mkWorld [inr (Sample.answer 429 (Some "1")); inr (Sample.answer 201 None)] [] in
  let run := perform config (DoRatingsAdd [Sample.movie]) w in
  exists m : nat,
    script (fst run) = drop m (script w)
    /\ closes (trace (fst run)) = (closes (trace w) + responsesIn (take m (script w)))%nat.
Proof.
  apply (@perform_closes_bodies mockExternals
           (Sample.config traktSyncModeFull) (DoRatingsAdd [Sample.movie])
           (requestFields.mk http_MethodPost traktPathBaseAPI traktPathRatings "{}"
              (defaultApiHeaders (Sample.config traktSyncModeFull)))
           (mkWorld [inr (Sample.answer 429 (Some "1")); inr (Sample.answer 201 None)] [])
           eq_refl eq_refl eq_refl).
Defined.


Lemma ListsGet_no_identifiers_witness :
  let w := mkWorld [inr (Sample.answer 200 None)] [] in
  @Ok error (list TraktList) [] = Ok []
  /\ fst (ListsGet (Sample.config traktSyncModeFull) [] [CloseDone; RecvDone] w) = w
  /\ ListsGet (Sample.config traktSyncModeFull) [] [CloseDone; RecvDone] w
     = (w, Some (Ok [])).
Proof.
  apply (ListsGet_no_identifiers (Sample.config traktSyncModeFull) [CloseDone; RecvDone]
           (mkWorld [inr (Sample.answer 200 None)] []) (Ok [])).
  reflexivity.
Defined.

(** Three identifiers, the second not found: the orderly schedule returns
    the other two lists, in order. *)
Example ListsGet_orderly_sample :
  let idC := mkTraktIds "" "c" in
  snd (ListsGet (Sample.config traktSyncModeFull) [Sample.idA; Sample.idB; idC]
         (orderly 3 2)
         (mkWorld [inr (Sample.answer 200 None); inr (Sample.answer 404 None);
                   inr (Sample.answer 200 None)] []))
  = Some (Ok [mkTraktList Sample.idA false []; mkTraktList idC false []]).
Proof. vm_compute. reflexivity. Qed.

Lemma NewTraktClient_sync_mode_witness :
  let w := mkWorld [inr (Sample.answer 200 None)] [] in
  NewTraktClient (Sample.config "mirror") w
  = (w, Err (ErrNew ("failure using trakt sync mode mirror"
                     +:+ ": valid modes are full, add-only, dry-run"))).
Proof.
  apply (@NewTraktClient_sync_mode mockExternals mockAuthExternals (Sample.config "mirror")
           (mkWorld [inr (Sample.answer 200 None)] []) eq_refl).
  rewrite !not_elem_of_cons. repeat split; try discriminate. apply not_elem_of_nil.
Defined.

Lemma hydrate_succeeds_witness :
  let config := Sample.config traktSyncModeFull in
  let run := hydrate config
               (mkWorld (map inr [page "codes"; page "token-1"; page "welcome";
                                  page "token-2"; page "token-3"; page "/users/bob";
                                  page "bearer"]) []) in
  snd (snd run) = Ok tt
  /\ accessToken (fst (snd run)) = "bearer"
  /\ username (fst (snd run)) = "bob"
  /\ map target (sent (trace (fst run))) = hydrateSteps.
Proof.
  destruct (@hydrate_succeeds mockExternals mockAuthExternals
              (Sample.config traktSyncModeFull)
              (page "codes") (page "token-1") (page "welcome") (page "token-2")
              (page "token-3") (page "/users/bob") (page "bearer") []
              "{}" "{}" "token-1" "token-2" "token-3" "/users/bob"
              (mkCodesResponse "device" "USER") (mkTokensResponse "bearer"))
    as (Hok & Htoken & Huser & _ & _); try reflexivity.
  - repeat constructor.
  - split; [exact Hok|]. split; [exact Htoken|].
    split; [vm_compute in Huser; inversion Huser; reflexivity|].
    vm_compute. reflexivity.
Defined.

(** The sign-in page answers 503: [hydrate] stops there, two requests
    sent, and names the step. *)
Example hydrate_stops :
  let config := Sample.config traktSyncModeFull in
  let run := hydrate config
               (mkWorld [inr (page "codes"); inr (Sample.answer 503 None);
                         inr (page "never")] []) in
  snd (snd run)
  = Err (ErrWrap "failure simulating browse to the trakt sign in page"
           (ErrApi (ApiError.mk "POST" "https://api.trakt.tv/sync/watchlist" 503
                      "unexpected status code 503")))
  /\ fst (snd run) = config
  /\ map target (sent (trace (fst run))) = take 2 hydrateSteps
  /\ script (fst run) = [inr (page "never")].
Proof. vm_compute. repeat split; reflexivity. Qed.

Lemma ask_closes_bodies_witness :
  let config := Sample.config traktSyncModeFull in
  let w := mkWorld [inr (Sample.answer 404 None)] [] in
  let run := ask config (DoListGet "gone") w in
  exists m : nat,
    script (fst run) = drop m (script w)
    /\ (closes (trace (fst run))
        + leftOpen (DoListGet "gone")
            (snd (doRequest (queryRequest config (DoListGet "gone")) w))
        = closes (trace w) + responsesIn (take m (script w)))%nat.
Proof.
  apply (ask_closes_bodies (Sample.config traktSyncModeFull) (DoListGet "gone")
           (mkWorld [inr (Sample.answer 404 None)] [])).
  reflexivity.
Defined.

(** [ListGet] answered 404: one response received, no body closed. *)
Example ListGet_leaves_open :
  closes (trace (fst (ListGet (Sample.config traktSyncModeFull) "gone"
                        (mkWorld [inr (Sample.answer 404 None)] [])))) = O.
Proof. reflexivity. Qed.

Lemma perform_unsendable_witness :
  let config := Sample.config traktSyncModeFull in
  let w := mkWorld [inr (Sample.answer 200 None)] [] in
  @perform refusingExternals config (DoListRemove "favourites") w
  = (w, Err (ErrWrap ("error creating http request DELETE "
                      +:+ "https://api.trakt.tv/users/alice/lists/favourites")
               (ErrLib "net/url: invalid control character in URL"))).
Proof.
  apply (@perform_unsendable refusingExternals (Sample.config traktSyncModeFull)
           (DoListRemove "favourites") (mkWorld [inr (Sample.answer 200 None)] []) eq_refl).
  reflexivity.
Defined.

Example validSyncModes_checked :
  map (stringSliceContains validSyncModes) ["full"; "add-only"; "dry-run"; "Full"; ""]
  = [true; true; true; false; false]
  /\ strings_Join validSyncModes ", " = "full, add-only, dry-run".
Proof. split; reflexivity. Qed.
